(** * ply-video-buffer: the framebuffer abstraction of plymouth

    A shallow embedding of [src/ply-video-buffer.c].  The buffer structure
    becomes a record, the functions that mutate it become functions from a
    buffer to an optional new buffer, and the two services of the operating
    system the drawing path relies on are made explicit:

    - [memcpy] into the mapped device memory is recorded as a log of write
      requests (destination offset, device word, requested byte count);
    - [msync] is an oracle handed to every function that reaches it.

    [None] stands for a run that has no result: a failed [assert], which
    does not return, or an access outside the shadow buffer or through a
    missing mapping, which C leaves undefined. *)

From Stdlib Require Import ZArith Lia Bool.
From Stdlib Require Import Floats.
From stdpp Require Import base list strings.

Local Open Scope Z_scope.

(** ** Machine integers *)

Module CTypes.

(** [unsigned long] on the LP64 targets plymouth is built for. *)
Definition ulong_bits : Z := 64.

Definition ulong (z : Z) : Z := z mod 2 ^ ulong_bits.

(** Conversion to [int] (32 bits, two's complement). *)
Definition to_int (z : Z) : Z := (z + 2 ^ 31) mod 2 ^ 32 - 2 ^ 31.

Definition uint8 (z : Z) : Z := z mod 2 ^ 8.

Definition uint32 (z : Z) : Z := z mod 2 ^ 32.

End CTypes.

Import CTypes.

(** ** Binary64 arithmetic

    C [double] is the primitive [float] of the kernel, so the arithmetic of
    the source is executed bit for bit. *)

Module Double.

(** [(double) n] for an integer in the range of the conversions the source
    performs (channel values and small counts). *)
Definition of_Z (z : Z) : float := PrimFloat.of_uint63 (Uint63.of_Z z).

(** [(int) d]: the fractional part is discarded.  The result is not cut to
    32 bits: values outside the range of [int], infinities and NaN have no
    defined conversion in C, and a property that depends on the value
    converted assumes [int_abs_defined] below. *)
Definition to_int (d : float) : Z :=
  match Prim2SF d with
  | S754_finite s m e =>
      let v := if 0 <=? e then Z.pos m * 2 ^ e else Z.pos m / 2 ^ (- e) in
      if s then - v else v
  | _ => 0
  end.

(** [DBL_MIN], the least positive normal number. *)
Definition DBL_MIN : float := 0x1p-1022%float.

End Double.

(** ** Data *)

(** Modelled from the spec: the header declaring [PlyVideoBufferArea] is not
    part of the sources at hand.  The spec describes a rectangle
    (x, y, width, height); the fields carry the [unsigned long] values that
    [ply_video_buffer_flush] passes on to [ply_video_buffer_copy_to_device]. *)
Record PlyVideoBufferArea : Type := mkArea {
  x : Z;
  y : Z;
  width : Z;
  height : Z
}.

(** One [memcpy] into the mapped device memory. *)
Record DeviceWrite : Type := mkWrite {
  wr_offset : Z;   (* destination, in bytes from [map_address] *)
  wr_value : Z;    (* the device word the bytes are taken from *)
  wr_length : Z    (* the byte count handed to [memcpy] *)
}.

(** [struct _PlyVideoBuffer].  [map_address] is [None] for [MAP_FAILED]; an
    established mapping carries the writes made through it, oldest first. *)
Record PlyVideoBuffer : Type := mkBuffer {
  device_fd : Z;
  map_address : option (list DeviceWrite);
  size : Z;
  shadow_buffer : list Z;
  red_bit_position : Z;
  green_bit_position : Z;
  blue_bit_position : Z;
  alpha_bit_position : Z;
  bits_for_red : Z;
  bits_for_green : Z;
  bits_for_blue : Z;
  bits_for_alpha : Z;
  bits_per_pixel : Z;
  bytes_per_pixel : Z;
  area : PlyVideoBufferArea;
  area_to_flush : PlyVideoBufferArea;
  is_paused : bool
}.

Definition set_shadow_buffer (b : PlyVideoBuffer) (s : list Z) : PlyVideoBuffer :=
  mkBuffer (device_fd b) (map_address b) (size b) s
    (red_bit_position b) (green_bit_position b) (blue_bit_position b)
    (alpha_bit_position b) (bits_for_red b) (bits_for_green b)
    (bits_for_blue b) (bits_for_alpha b) (bits_per_pixel b)
    (bytes_per_pixel b) (area b) (area_to_flush b) (is_paused b).

Definition set_map_address (b : PlyVideoBuffer) (m : option (list DeviceWrite))
  : PlyVideoBuffer :=
  mkBuffer (device_fd b) m (size b) (shadow_buffer b)
    (red_bit_position b) (green_bit_position b) (blue_bit_position b)
    (alpha_bit_position b) (bits_for_red b) (bits_for_green b)
    (bits_for_blue b) (bits_for_alpha b) (bits_per_pixel b)
    (bytes_per_pixel b) (area b) (area_to_flush b) (is_paused b).

Definition set_area_to_flush (b : PlyVideoBuffer) (a : PlyVideoBufferArea)
  : PlyVideoBuffer :=
  mkBuffer (device_fd b) (map_address b) (size b) (shadow_buffer b)
    (red_bit_position b) (green_bit_position b) (blue_bit_position b)
    (alpha_bit_position b) (bits_for_red b) (bits_for_green b)
    (bits_for_blue b) (bits_for_alpha b) (bits_per_pixel b)
    (bytes_per_pixel b) (area b) a (is_paused b).

Definition set_is_paused (b : PlyVideoBuffer) (p : bool) : PlyVideoBuffer :=
  mkBuffer (device_fd b) (map_address b) (size b) (shadow_buffer b)
    (red_bit_position b) (green_bit_position b) (blue_bit_position b)
    (alpha_bit_position b) (bits_for_red b) (bits_for_green b)
    (bits_for_blue b) (bits_for_alpha b) (bits_per_pixel b)
    (bytes_per_pixel b) (area b) (area_to_flush b) p.

(** ** Control *)

(** [assert (c)]: the run stops when [c] does not hold.  It also stands
    before a division, whose divisor must not be zero. *)
Definition assert (c : bool) : option unit := if c then Some tt else None.

(** [body] at [i], [i+1], ..., [n] times. *)
Fixpoint iterate {S : Type} (n : nat) (i : Z) (body : Z -> S -> option S) (s : S)
  : option S :=
  match n with
  | O => Some s
  | Datatypes.S n' => s' ← body i s; iterate n' (i + 1) body s'
  end.

(** [for (i = lo; i < hi; i++) body], the bound being compared as the
    source compares it, in [unsigned long]: nothing runs when [hi <= lo]. *)
Definition for_loop {S : Type} (lo hi : Z) (body : Z -> S -> option S) (s : S)
  : option S :=
  iterate (Z.to_nat (hi - lo)) lo body s.

(** ** Querying the device *)

(** [struct fb_bitfield], [struct fb_var_screeninfo] and
    [struct fb_fix_screeninfo] of <linux/fb.h>, cut down to the members the
    source reads; all of them are 32-bit unsigned. *)
Record fb_bitfield : Type := mkBitfield {
  bf_offset : Z;
  bf_length : Z
}.

Record fb_var_screeninfo : Type := mkVarScreeninfo {
  var_bits_per_pixel : Z;
  var_xoffset : Z;
  var_yoffset : Z;
  var_xres : Z;
  var_yres : Z;
  var_red : fb_bitfield;
  var_green : fb_bitfield;
  var_blue : fb_bitfield;
  var_transp : fb_bitfield
}.

Record fb_fix_screeninfo : Type := mkFixScreeninfo {
  fix_line_length : Z
}.

(** The two [ioctl] calls are handed in as their outcomes: [None] when the
    call fails, the structure it fills otherwise.  The line length is only
    used to derive [size] and [bytes_per_pixel]; it is not kept. *)
Definition ply_video_buffer_query_device
  (variable_screen_info : option fb_var_screeninfo)
  (fixed_screen_info : option fb_fix_screeninfo)
  (buffer : PlyVideoBuffer) : option (bool * PlyVideoBuffer) :=
  _ ← assert (0 <=? device_fd buffer);
  match variable_screen_info with
  | None => Some (false, buffer)
  | Some v =>
      let area' := mkArea (var_xoffset v) (var_yoffset v) (var_xres v) (var_yres v) in
      let queried size' bytes_per_pixel' :=
        mkBuffer (device_fd buffer) (map_address buffer) size' (shadow_buffer buffer)
          (bf_offset (var_red v)) (bf_offset (var_green v))
          (bf_offset (var_blue v)) (bf_offset (var_transp v))
          (bf_length (var_red v)) (bf_length (var_green v))
          (bf_length (var_blue v)) (bf_length (var_transp v))
          (var_bits_per_pixel v) bytes_per_pixel'
          area' (area_to_flush buffer) (is_paused buffer) in
      match fixed_screen_info with
      | None => Some (false, queried (size buffer) (bytes_per_pixel buffer))
      | Some f =>
          let bytes_per_row := fix_line_length f in
          _ ← assert (negb (width area' =? 0));
          Some (true, queried (ulong (height area' * bytes_per_row))
                        (uint32 (bytes_per_row / width area')))
      end
  end.

(** ** The pixel codec

    The shifts are written on unbounded integers and the word is cut to 32
    bits at the end.  They are the shifts of C for a format whose channels
    have at most eight bits each at bit positions below 32; for any other
    format C leaves the shift undefined, and a property that depends on the
    word built assumes [format_in_word] below. *)

Definition ply_video_buffer_pixel_value_to_device_pixel_value
  (buffer : PlyVideoBuffer) (pixel_value : Z) : Z :=
  let a := uint8 (Z.shiftr pixel_value 24) in
  let a := uint8 (Z.shiftr a (uint32 (8 - bits_for_alpha buffer))) in
  let r := uint8 (Z.land (Z.shiftr pixel_value 16) 255) in
  let r := uint8 (Z.shiftr r (uint32 (8 - bits_for_red buffer))) in
  let g := uint8 (Z.land (Z.shiftr pixel_value 8) 255) in
  let g := uint8 (Z.shiftr g (uint32 (8 - bits_for_green buffer))) in
  let b := uint8 (Z.land pixel_value 255) in
  let b := uint8 (Z.shiftr b (uint32 (8 - bits_for_blue buffer))) in
  uint32 (Z.lor (Z.lor (Z.lor (Z.shiftl a (alpha_bit_position buffer))
                              (Z.shiftl r (red_bit_position buffer)))
                       (Z.shiftl g (green_bit_position buffer)))
                (Z.shiftl b (blue_bit_position buffer))).

(** ** The shadow buffer *)

(** The index [y * buffer->area.width + x], computed in [unsigned long]. *)
Definition pixel_index (buffer : PlyVideoBuffer) (x y : Z) : Z :=
  ulong (ulong (ulong (to_int y) * width (area buffer)) + ulong (to_int x)).

Definition ply_video_buffer_get_value_at_pixel (buffer : PlyVideoBuffer) (x y : Z)
  : option Z :=
  shadow_buffer buffer !! Z.to_nat (pixel_index buffer x y).

Definition ply_video_buffer_set_value_at_pixel
  (buffer : PlyVideoBuffer) (x y : Z) (pixel_value : Z) : option PlyVideoBuffer :=
  let i := Z.to_nat (pixel_index buffer x y) in
  if decide (i < length (shadow_buffer buffer))%nat
  then Some (set_shadow_buffer buffer (<[i := pixel_value]> (shadow_buffer buffer)))
  else None.

(** ** The dirty region *)

Definition ply_video_buffer_add_area_to_flush_area
  (buffer : PlyVideoBuffer) (area' : PlyVideoBufferArea) : option PlyVideoBuffer :=
  _ ← assert (x (area buffer) <=? x area');
  _ ← assert (y (area buffer) <=? y area');
  _ ← assert (x area' <? width (area buffer));
  _ ← assert (y area' <? height (area buffer));
  _ ← assert (0 <=? width area');
  _ ← assert (0 <=? height area');
  Some (set_area_to_flush buffer
          (mkArea (Z.min (x (area_to_flush buffer)) (x area'))
                  (Z.min (y (area_to_flush buffer)) (y area'))
                  (Z.max (width (area_to_flush buffer)) (width area'))
                  (Z.max (height (area_to_flush buffer)) (height area')))).

(** ** The device *)

Definition memcpy_to_device (buffer : PlyVideoBuffer) (w : DeviceWrite)
  : option PlyVideoBuffer :=
  log ← map_address buffer;
  Some (set_map_address buffer (Some (log ++ [w]))).

Definition copy_pixel (buffer : PlyVideoBuffer) (width' bytes_per_row row column : Z)
  : option PlyVideoBuffer :=
  pixel_value ← shadow_buffer buffer !! Z.to_nat (ulong (ulong (width' * row) + column));
  let device_pixel_value :=
    ply_video_buffer_pixel_value_to_device_pixel_value buffer pixel_value in
  let offset :=
    ulong (ulong (row * bytes_per_row) + ulong (column * bytes_per_pixel buffer)) in
  memcpy_to_device buffer
    (mkWrite offset device_pixel_value (bits_per_pixel buffer)).

Definition ply_video_buffer_copy_to_device
  (msync : Z -> Z -> Z) (buffer : PlyVideoBuffer) (x y width' height' : Z)
  : option (bool * PlyVideoBuffer) :=
  let bytes_per_row := ulong (width (area buffer) * bytes_per_pixel buffer) in
  let start_offset :=
    ulong (ulong (y * bytes_per_row) + ulong (x * bytes_per_pixel buffer)) in
  let size := ulong (ulong (width' * height') * bytes_per_pixel buffer) in
  buffer' ←
    for_loop y (ulong (y + height'))
      (fun row b =>
         for_loop x (ulong (x + width'))
           (fun column b => copy_pixel b width' bytes_per_row row column) b)
      buffer;
  if msync start_offset size <? 0 then Some (false, buffer')
  else Some (true, buffer').

Definition ply_video_buffer_flush (msync : Z -> Z -> Z) (buffer : PlyVideoBuffer)
  : option (bool * PlyVideoBuffer) :=
  if is_paused buffer then Some (true, buffer)
  else
    '(ok, buffer') ←
      ply_video_buffer_copy_to_device msync buffer
        (x (area_to_flush buffer)) (y (area_to_flush buffer))
        (width (area_to_flush buffer)) (height (area_to_flush buffer));
    if negb ok then Some (false, buffer')
    else Some (true, set_area_to_flush buffer' (mkArea 0 0 0 0)).

Definition ply_video_buffer_pause_updates (buffer : PlyVideoBuffer) : PlyVideoBuffer :=
  set_is_paused buffer true.

Definition ply_video_buffer_unpause_updates
  (msync : Z -> Z -> Z) (buffer : PlyVideoBuffer) : option (bool * PlyVideoBuffer) :=
  ply_video_buffer_flush msync (set_is_paused buffer false).

Definition ply_video_buffer_device_is_open (buffer : PlyVideoBuffer) : bool :=
  (0 <=? device_fd buffer) && bool_decide (map_address buffer <> None).

(** ** The compositor *)

Section Compositor.

(** The macro [PLY_VIDEO_BUFFER_COLOR_TO_PIXEL_VALUE (red, green, blue, alpha)]
    comes from a header that is not part of the sources at hand; the functions
    that expand it are stated for every packing function.  Its value is
    stored in a [uint32_t] wherever it is used. *)
Variable COLOR_TO_PIXEL_VALUE : float -> float -> float -> float -> Z.

Definition blend_two_pixel_values (pixel_value_1 pixel_value_2 : Z) : Z :=
  let alpha := (Double.of_Z (Z.shiftr pixel_value_1 24) / 255)%float in
  let red := (Double.of_Z (Z.land (Z.shiftr pixel_value_1 16) 255) / 255)%float in
  let green := (Double.of_Z (Z.land (Z.shiftr pixel_value_1 8) 255) / 255)%float in
  let blue := (Double.of_Z (Z.land pixel_value_1 255) / 255)%float in
  let alpha_2 := (Double.of_Z (Z.shiftr pixel_value_2 24) / 255)%float in
  let red_2 := (Double.of_Z (Z.land (Z.shiftr pixel_value_2 26) 255) / 255)%float in
  let green_2 := (Double.of_Z (Z.land (Z.shiftr pixel_value_2 8) 255) / 255)%float in
  let blue_2 := (Double.of_Z (Z.land pixel_value_2 255) / 255)%float in
  let red := (red + red_2 * (1 - alpha))%float in
  let green := (green + green_2 * (1 - alpha))%float in
  let blue := (blue + blue_2 * (1 - alpha))%float in
  let alpha := (alpha + alpha_2 * (1 - alpha))%float in
  uint32 (COLOR_TO_PIXEL_VALUE red green blue alpha).

Definition make_pixel_value_translucent (pixel_value : Z) (opacity : float) : Z :=
  let alpha := (Double.of_Z (Z.shiftr pixel_value 24) / 255)%float in
  let red := (Double.of_Z (Z.land (Z.shiftr pixel_value 16) 255) / 255)%float in
  let green := (Double.of_Z (Z.land (Z.shiftr pixel_value 8) 255) / 255)%float in
  let blue := (Double.of_Z (Z.land pixel_value 255) / 255)%float in
  let alpha := (alpha * opacity)%float in
  let red := (red * opacity)%float in
  let green := (green * opacity)%float in
  let blue := (blue * opacity)%float in
  uint32 (COLOR_TO_PIXEL_VALUE red green blue alpha).

Definition ply_video_buffer_blend_value_at_pixel
  (buffer : PlyVideoBuffer) (x y : Z) (pixel_value : Z) : option PlyVideoBuffer :=
  old_pixel_value ← ply_video_buffer_get_value_at_pixel buffer x y;
  let new_pixel_value := blend_two_pixel_values pixel_value old_pixel_value in
  ply_video_buffer_set_value_at_pixel buffer x y new_pixel_value.

Definition ply_video_buffer_set_area_to_pixel_value
  (buffer : PlyVideoBuffer) (area' : PlyVideoBufferArea) (pixel_value : Z)
  : option PlyVideoBuffer :=
  for_loop (y area') (ulong (y area' + height area'))
    (fun row b =>
       for_loop (x area') (ulong (x area' + width area'))
         (fun column b => ply_video_buffer_set_value_at_pixel b column row pixel_value)
         b)
    buffer.

Definition ply_video_buffer_blend_area_with_pixel_value
  (buffer : PlyVideoBuffer) (area' : PlyVideoBufferArea) (pixel_value : Z)
  : option PlyVideoBuffer :=
  for_loop (y area') (ulong (y area' + height area'))
    (fun row b =>
       for_loop (x area') (ulong (x area' + width area'))
         (fun column b => ply_video_buffer_blend_value_at_pixel b column row pixel_value)
         b)
    buffer.

(** [abs (alpha - 1.0) <= DBL_MIN].  The source includes <stdlib.h> and not
    <math.h> here, and [abs] is the function on [int] in either case: its
    argument is converted to [int], and the result back to [double] for the
    comparison.  The conversion and [abs] are those of C where
    [opacity_test_defined] below holds. *)
Definition alpha_is_opaque (alpha : float) : bool :=
  PrimFloat.leb (Double.of_Z (Z.abs (Double.to_int (alpha - 1)%float))) Double.DBL_MIN.

Definition ply_video_buffer_fill_with_color
  (msync : Z -> Z -> Z) (buffer : PlyVideoBuffer) (area' : option PlyVideoBufferArea)
  (red green blue alpha : float) : option (bool * PlyVideoBuffer) :=
  _ ← assert (ply_video_buffer_device_is_open buffer);
  let area' := default (area buffer) area' in
  let red := (red * alpha)%float in
  let green := (green * alpha)%float in
  let blue := (blue * alpha)%float in
  let pixel_value := uint32 (COLOR_TO_PIXEL_VALUE red green blue alpha) in
  buffer ←
    (if alpha_is_opaque alpha
     then ply_video_buffer_set_area_to_pixel_value buffer area' pixel_value
     else ply_video_buffer_blend_area_with_pixel_value buffer area' pixel_value);
  buffer ← ply_video_buffer_add_area_to_flush_area buffer area';
  ply_video_buffer_flush msync buffer.

(** The loop of [ply_video_buffer_fill_with_argb32_data_at_opacity]. *)
Definition blend_data_onto_area
  (buffer : PlyVideoBuffer) (area' : PlyVideoBufferArea)
  (x' y' width' height' : Z) (data : list Z) (opacity : float)
  : option PlyVideoBuffer :=
  for_loop y' (ulong (y' + height'))
    (fun row b =>
       for_loop x' (ulong (x' + width'))
         (fun column b =>
            pixel_value ← data !! Z.to_nat (ulong (ulong (width' * row) + column));
            let pixel_value := make_pixel_value_translucent pixel_value opacity in
            ply_video_buffer_blend_value_at_pixel b
              (ulong (x area' + ulong (column - x')))
              (ulong (y area' + ulong (row - y')))
              pixel_value)
         b)
    buffer.

Definition ply_video_buffer_fill_with_argb32_data_at_opacity
  (msync : Z -> Z -> Z) (buffer : PlyVideoBuffer) (area' : option PlyVideoBufferArea)
  (x' y' width' height' : Z) (data : list Z) (opacity : float)
  : option (bool * PlyVideoBuffer) :=
  _ ← assert (ply_video_buffer_device_is_open buffer);
  let area' := default (area buffer) area' in
  buffer ← blend_data_onto_area buffer area' x' y' width' height' data opacity;
  buffer ← ply_video_buffer_add_area_to_flush_area buffer area';
  ply_video_buffer_flush msync buffer.

Definition ply_video_buffer_fill_with_argb32_data
  (msync : Z -> Z -> Z) (buffer : PlyVideoBuffer) (area' : option PlyVideoBufferArea)
  (x' y' width' height' : Z) (data : list Z) : option (bool * PlyVideoBuffer) :=
  ply_video_buffer_fill_with_argb32_data_at_opacity msync buffer area'
    x' y' width' height' data 1%float.

End Compositor.

(** * What the absent header provides, read from the spec *)

(** Modelled from the spec: the expansion of
    [PLY_VIDEO_BUFFER_COLOR_TO_PIXEL_VALUE] is missing with its header.  The
    spec has each channel, a fraction of one, re-quantized to 0..255 and packed
    with alpha in bits 24-31, red in 16-23, green in 8-15 and blue in 0-7.
    It serves the worked examples only; the theorems hold for every
    packing. *)
Definition quantize_channel (c : float) : Z :=
  Z.max 0 (Z.min 255 (Double.to_int (c * 255)%float)).

(** Modelled from the spec: the packing of the four re-quantized channels
    into one ARGB32 pixel. *)
Definition COLOR_TO_PIXEL_VALUE_spec (red green blue alpha : float) : Z :=
  Z.lor (Z.lor (Z.lor (Z.shiftl (quantize_channel alpha) 24)
                      (Z.shiftl (quantize_channel red) 16))
               (Z.shiftl (quantize_channel green) 8))
        (quantize_channel blue).

(** Modelled from the spec: the bounding box of two rectangles, "x = min of
    the origins, y = min of the origins, right and bottom edges from the max of
    x+width and of y+height, width and height from those edges minus the new
    origin". *)
Definition bounding_box_union (current added : PlyVideoBufferArea) : PlyVideoBufferArea :=
  let x' := Z.min (x current) (x added) in
  let y' := Z.min (y current) (y added) in
  mkArea x' y'
    (Z.max (x current + width current) (x added + width added) - x')
    (Z.max (y current + height current) (y added + height added) - y').

(** Modelled from the spec: the source never reads a device pixel back.  The
    spec's reading through a descriptor takes the [bits] stored bits at
    [position] and shifts them up to the high bits of a byte. *)
Definition read_channel_back (device_pixel_value position bits : Z) : Z :=
  Z.shiftl (Z.land (Z.shiftr device_pixel_value position) (Z.shiftl 1 bits - 1))
           (8 - bits).

(** * Vocabulary of the properties *)

(** ** Rectangles and buffers *)

(** The pixel at ([column], [row]) lies in the rectangle. *)
Definition in_area (a : PlyVideoBufferArea) (column row : Z) : Prop :=
  x a <= column < x a + width a /\ y a <= row < y a + height a.

(** The rectangle lies on the surface of the buffer and passes the
    assertions of [ply_video_buffer_add_area_to_flush_area]. *)
Definition area_on_surface (b : PlyVideoBuffer) (a : PlyVideoBufferArea) : Prop :=
  0 <= x a /\ 0 <= y a /\ 0 <= width a /\ 0 <= height a /\
  x (area b) <= x a /\ y (area b) <= y a /\
  x a < width (area b) /\ y a < height (area b) /\
  x a + width a <= width (area b) /\ y a + height a <= height (area b).

(** The rectangle passes the assertions of
    [ply_video_buffer_add_area_to_flush_area]. *)
Definition area_accepted (b : PlyVideoBuffer) (a : PlyVideoBufferArea) : Prop :=
  x (area b) <= x a /\ y (area b) <= y a /\
  x a < width (area b) /\ y a < height (area b) /\
  0 <= width a /\ 0 <= height a.

(** The rectangle the source stores for the area to flush [current] once
    [added] has been added to it. *)
Definition merged_area (current added : PlyVideoBufferArea) : PlyVideoBufferArea :=
  mkArea (Z.min (x current) (x added)) (Z.min (y current) (y added))
         (Z.max (width current) (width added))
         (Z.max (height current) (height added)).

(** An open buffer: the device is open and mapped, the surface has [int]
    dimensions, the shadow buffer has one entry per pixel of the surface, and
    the area to flush lies on the surface. *)
Record open_buffer (b : PlyVideoBuffer) : Prop := {
  ob_open : ply_video_buffer_device_is_open b = true;
  ob_width : 0 <= width (area b) < 2 ^ 31;
  ob_height : 0 <= height (area b) < 2 ^ 31;
  ob_shadow : length (shadow_buffer b) = Z.to_nat (width (area b) * height (area b));
  ob_flush_x : 0 <= x (area_to_flush b);
  ob_flush_y : 0 <= y (area_to_flush b);
  ob_flush_width : 0 <= width (area_to_flush b);
  ob_flush_height : 0 <= height (area_to_flush b);
  ob_flush_right : x (area_to_flush b) + width (area_to_flush b) <= width (area b);
  ob_flush_bottom : y (area_to_flush b) + height (area_to_flush b) <= height (area b)
}.

(** The source rectangle lies in [data] and its image at the origin of [a]
    lies on the surface of [b]. *)
Definition data_fits (b : PlyVideoBuffer) (a : PlyVideoBufferArea)
  (x' y' width' height' : Z) (data : list Z) : Prop :=
  0 <= x' /\ 0 <= y' /\ 0 <= width' /\ 0 <= height' /\
  width' * (y' + height') + x' <= Z.of_nat (length data) /\
  x' + width' < 2 ^ 64 /\ y' + height' < 2 ^ 64 /\
  Z.of_nat (length data) < 2 ^ 64 /\
  x a + width' <= width (area b) /\ y a + height' <= height (area b).

(** ** Progress of the loops *)

(** The rows above [r] and the columns left of [c] in row [r] hold [v]. *)
Definition filled (b : PlyVideoBuffer) (a : PlyVideoBufferArea) (v r c : Z)
  (t : PlyVideoBuffer) : Prop :=
  exists s', t = set_shadow_buffer b s' /\
    length s' = length (shadow_buffer b) /\
    forall column row, in_area a column row ->
      row < r \/ (row = r /\ column < c) ->
      s' !! Z.to_nat (row * width (area b) + column) = Some v.

(** The rows above [r] and the columns left of [c] in row [r] hold the blend
    of [v] with what [b] held there; the rest of the surface is as in [b]. *)
Definition blended (M : float -> float -> float -> float -> Z)
  (b : PlyVideoBuffer) (a : PlyVideoBufferArea) (v r c : Z)
  (t : PlyVideoBuffer) : Prop :=
  exists s', t = set_shadow_buffer b s' /\
    length s' = length (shadow_buffer b) /\
    forall column row,
      0 <= column < width (area b) -> 0 <= row < height (area b) ->
      exists old,
        shadow_buffer b !! Z.to_nat (row * width (area b) + column) = Some old /\
        ((in_area a column row /\ (row < r \/ (row = r /\ column < c)) /\
          s' !! Z.to_nat (row * width (area b) + column)
          = Some (blend_two_pixel_values M v old)) \/
         (~ (in_area a column row /\ (row < r \/ (row = r /\ column < c))) /\
          s' !! Z.to_nat (row * width (area b) + column) = Some old)).

(** The byte offset of a pixel in the mapping, as the copy computes it. *)
Definition device_offset (b : PlyVideoBuffer) (row column : Z) : Z :=
  ulong (ulong (row * ulong (width (area b) * bytes_per_pixel b))
         + ulong (column * bytes_per_pixel b)).

(** The write the copy issues for the pixel at ([column], [row]) of a region
    [width'] pixels wide. *)
Definition device_write_for (b : PlyVideoBuffer) (width' row column : Z)
  : option DeviceWrite :=
  pixel_value ← shadow_buffer b !! Z.to_nat (ulong (ulong (width' * row) + column));
  Some (mkWrite (device_offset b row column)
          (ply_video_buffer_pixel_value_to_device_pixel_value b pixel_value)
          (bits_per_pixel b)).

(** The writes for the rows above [r] and the columns left of [c] in row [r]
    have been appended to [log]. *)
Definition written (b : PlyVideoBuffer) (log : list DeviceWrite)
  (fx fy fw fh r c : Z) (t : PlyVideoBuffer) : Prop :=
  exists log', t = set_map_address b (Some (log ++ log')) /\
    forall column row, fx <= column < fx + fw -> fy <= row < fy + fh ->
      row < r \/ (row = r /\ column < c) ->
      exists w, device_write_for b fw row column = Some w /\ w ∈ log'.

(** What [msync] answers for the byte range the flush of [b] hands to it. *)
Definition flush_sync (msync : Z -> Z -> Z) (b : PlyVideoBuffer) : Z :=
  msync
    (ulong (ulong (y (area_to_flush b) * ulong (width (area b) * bytes_per_pixel b))
            + ulong (x (area_to_flush b) * bytes_per_pixel b)))
    (ulong (ulong (width (area_to_flush b) * height (area_to_flush b))
            * bytes_per_pixel b)).

(** Every pixel of the area to flush of [b] has its write in [log]. *)
Definition covers_area_to_flush (b : PlyVideoBuffer) (log : list DeviceWrite) : Prop :=
  forall column row, in_area (area_to_flush b) column row ->
    exists w, device_write_for b (width (area_to_flush b)) row column = Some w /\
              w ∈ log.

(** What an unpaused flush of [b] returns once it has appended the writes
    [log'] to the writes [log] already made: failure with nothing else
    changed when [msync] fails, success with the area to flush set to
    (0, 0, 0, 0) otherwise. *)
Definition flush_outcome (msync : Z -> Z -> Z) (b : PlyVideoBuffer)
  (log log' : list DeviceWrite) : option (bool * PlyVideoBuffer) :=
  Some (if flush_sync msync b <? 0
        then (false, set_map_address b (Some (log ++ log')))
        else (true, set_area_to_flush (set_map_address b (Some (log ++ log')))
                      (mkArea 0 0 0 0))).

(** [d] is finite and its integer part lies strictly between [- 2 ^ 31] and
    [2 ^ 31]: C defines the conversion [(int) d] and [abs] of the result. *)
Definition int_abs_defined (d : float) : bool :=
  match Prim2SF d with
  | S754_zero _ | S754_finite _ _ _ =>
      (- 2 ^ 31 <? Double.to_int d) && (Double.to_int d <? 2 ^ 31)
  | _ => false
  end.

(** C defines the opacity test [abs (alpha - 1.0) <= DBL_MIN] for [alpha]. *)
Definition opacity_test_defined (alpha : float) : Prop :=
  int_abs_defined (alpha - 1)%float = true.

(** What a draw call on the area [a] of the paused buffer [b] leaves in the
    members of the buffer [b'] it hands back, the shadow buffer apart: the
    mapped memory and the paused flag are those of [b], and [a] is merged
    into the area to flush, whose origin does not grow and whose extent does
    not shrink. *)
Definition drawn_while_paused (b : PlyVideoBuffer) (a : PlyVideoBufferArea)
  (b' : PlyVideoBuffer) : Prop :=
  b' = set_area_to_flush (set_shadow_buffer b (shadow_buffer b'))
         (merged_area (area_to_flush b) a) /\
  map_address b' = map_address b /\
  is_paused b' = true /\
  area_to_flush b' = merged_area (area_to_flush b) a /\
  x (area_to_flush b') <= x (area_to_flush b) /\
  y (area_to_flush b') <= y (area_to_flush b) /\
  width (area_to_flush b) <= width (area_to_flush b') /\
  height (area_to_flush b) <= height (area_to_flush b').

(** The shadow buffer a call of [ply_video_buffer_fill_with_color] on area
    [a] leaves behind. *)
Definition painted (M : float -> float -> float -> float -> Z)
  (b : PlyVideoBuffer) (a : PlyVideoBufferArea) (red green blue alpha : float)
  : option PlyVideoBuffer :=
  let pixel_value :=
    uint32 (M (red * alpha)%float (green * alpha)%float (blue * alpha)%float alpha) in
  if alpha_is_opaque alpha
  then ply_video_buffer_set_area_to_pixel_value b a pixel_value
  else ply_video_buffer_blend_area_with_pixel_value M b a pixel_value.

(** ** Channels of the device pixel format *)

Inductive channel : Type := Alpha | Red | Green | Blue.

Definition channel_position (b : PlyVideoBuffer) (c : channel) : Z :=
  match c with
  | Alpha => alpha_bit_position b
  | Red => red_bit_position b
  | Green => green_bit_position b
  | Blue => blue_bit_position b
  end.

Definition channel_bits (b : PlyVideoBuffer) (c : channel) : Z :=
  match c with
  | Alpha => bits_for_alpha b
  | Red => bits_for_red b
  | Green => bits_for_green b
  | Blue => bits_for_blue b
  end.

(** The eight bits of a channel in a canonical pixel. *)
Definition channel_value (pixel_value : Z) (c : channel) : Z :=
  match c with
  | Alpha => Z.land (Z.shiftr pixel_value 24) 255
  | Red => Z.land (Z.shiftr pixel_value 16) 255
  | Green => Z.land (Z.shiftr pixel_value 8) 255
  | Blue => Z.land pixel_value 255
  end.

(** The bit field of channel [c] lies in the device word. *)
Definition channel_in_word (b : PlyVideoBuffer) (c : channel) : Prop :=
  0 <= channel_position b c /\ channel_position b c + channel_bits b c <= 32.

(** Channel [c'] has at most eight bits and its field does not meet the
    field of [c]. *)
Definition channel_apart (b : PlyVideoBuffer) (c c' : channel) : Prop :=
  0 <= channel_bits b c' <= 8 /\ 0 <= channel_position b c' /\
  (channel_position b c' + channel_bits b c' <= channel_position b c \/
   channel_position b c + channel_bits b c <= channel_position b c').

(** Every channel of the device format has at most eight bits, at a bit
    position below 32, and its field lies in the device word: each shift of
    the conversion is a shift C defines. *)
Definition format_in_word (b : PlyVideoBuffer) : Prop :=
  forall c, 0 <= channel_bits b c <= 8 /\ channel_position b c < 32 /\
            channel_in_word b c.

(** The bits the conversion stores for a channel of value [v]. *)
Definition truncated_channel (v bits : Z) : Z :=
  uint8 (Z.shiftr v (uint32 (8 - bits))).

(** The word the conversion builds before it is cut to 32 bits. *)
Definition channel_field (b : PlyVideoBuffer) (pixel_value : Z) (c : channel) : Z :=
  Z.shiftl (truncated_channel (channel_value pixel_value c) (channel_bits b c))
           (channel_position b c).

(** ** Sample devices *)

(** A surface of two by two pixels whose device format is the canonical one:
    eight bits per channel, alpha at bit 24, red at 16, green at 8, blue at
    0, four bytes per pixel and no padding at the end of a row. *)
Definition sample_buffer (shadow : list Z) (dirty : PlyVideoBufferArea)
  (paused : bool) : PlyVideoBuffer :=
  mkBuffer 3 (Some []) 16 shadow 16 8 0 24 8 8 8 8 32 4
    (mkArea 0 0 2 2) dirty paused.

Definition sync_fails : Z -> Z -> Z := fun _ _ => -1.

Definition sync_succeeds : Z -> Z -> Z := fun _ _ => 0.

(** A 16-bit device: red in bits 11-15, green in bits 5-10, blue in bits 0-4
    and no alpha channel. *)
Definition rgb565_buffer : PlyVideoBuffer :=
  mkBuffer 3 (Some []) 8 [0; 0; 0; 0] 11 5 0 0 5 6 5 0 16 2
    (mkArea 0 0 2 2) (mkArea 0 0 0 0) false.

(** What the kernel reports for a 1366 by 768 display of 32 bits per pixel
    whose rows are padded to 5504 bytes. *)
Definition padded_var_screeninfo : fb_var_screeninfo :=
  mkVarScreeninfo 32 0 0 1366 768
    (mkBitfield 16 8) (mkBitfield 8 8) (mkBitfield 0 8) (mkBitfield 24 8).

Definition padded_fix_screeninfo : fb_fix_screeninfo := mkFixScreeninfo 5504.

(** * The life cycle of a buffer *)

(** The calls into the operating system, as their outcomes: what [open]
    returns for a device name, what the two [ioctl] queries fill in (or
    [None] when they fail), whether [mmap] succeeds, and what [msync]
    returns for a byte range. *)
Record Device : Type := mkDevice {
  dev_open : string -> Z;
  dev_var_screeninfo : option fb_var_screeninfo;
  dev_fix_screeninfo : option fb_fix_screeninfo;
  dev_mmap : bool;
  dev_msync : Z -> Z -> Z
}.

(** [struct _PlyVideoBuffer] with its [device_name] member; the other
    members are the record [PlyVideoBuffer]. *)
Record NamedVideoBuffer : Type := mkNamed {
  device_name : string;
  members : PlyVideoBuffer
}.

Definition set_device_fd (b : PlyVideoBuffer) (fd : Z) : PlyVideoBuffer :=
  mkBuffer fd (map_address b) (size b) (shadow_buffer b)
    (red_bit_position b) (green_bit_position b) (blue_bit_position b)
    (alpha_bit_position b) (bits_for_red b) (bits_for_green b)
    (bits_for_blue b) (bits_for_alpha b) (bits_per_pixel b)
    (bytes_per_pixel b) (area b) (area_to_flush b) (is_paused b).

Definition PLY_VIDEO_BUFFER_DEFAULT_FB_DEVICE_NAME : string := "/dev/fb".

Definition ply_video_buffer_open_device
  (sys_open : string -> Z) (buffer : NamedVideoBuffer) : bool * NamedVideoBuffer :=
  let fd := sys_open (device_name buffer) in
  let buffer := mkNamed (device_name buffer) (set_device_fd (members buffer) fd) in
  if fd <? 0 then (false, buffer) else (true, buffer).

(** [munmap] and [close] are called for their effect; their results are not
    looked at. *)
Definition ply_video_buffer_close_device (buffer : PlyVideoBuffer) : PlyVideoBuffer :=
  let buffer :=
    match map_address buffer with
    | Some _ => set_map_address buffer None
    | None => buffer
    end in
  if 0 <=? device_fd buffer then set_device_fd buffer (-1) else buffer.

(** A new mapping has received no write yet. *)
Definition ply_video_buffer_map_to_device (mmap_ok : bool) (buffer : PlyVideoBuffer)
  : option (bool * PlyVideoBuffer) :=
  _ ← assert (0 <=? device_fd buffer);
  _ ← assert (0 <? size buffer);
  let buffer := set_map_address buffer (if mmap_ok then Some [] else None) in
  Some (bool_decide (map_address buffer <> None), buffer).

(** [calloc] clears every member before the name and the two pointers are
    set. *)
Definition ply_video_buffer_new (device_name : option string) : NamedVideoBuffer :=
  mkNamed (default PLY_VIDEO_BUFFER_DEFAULT_FB_DEVICE_NAME device_name)
    (mkBuffer 0 None 0 [] 0 0 0 0 0 0 0 0 0 0
       (mkArea 0 0 0 0) (mkArea 0 0 0 0) false).

Section Lifecycle.

Variable COLOR_TO_PIXEL_VALUE : float -> float -> float -> float -> Z.

(** The steps of [ply_video_buffer_open] up to the label [out]: the flag
    [is_open] and the buffer reached.  [realloc] is taken to succeed; the
    shadow buffer it returns is cleared by [memset], one entry per four
    bytes.  The result of the first fill is not looked at. *)
Definition open_steps (os : Device) (buffer : NamedVideoBuffer)
  : option (bool * PlyVideoBuffer) :=
  let '(ok, buffer) := ply_video_buffer_open_device (dev_open os) buffer in
  let b := members buffer in
  if negb ok then Some (false, b)
  else
    '(ok, b) ← ply_video_buffer_query_device
                 (dev_var_screeninfo os) (dev_fix_screeninfo os) b;
    if negb ok then Some (false, b)
    else
      '(ok, b) ← ply_video_buffer_map_to_device (dev_mmap os) b;
      if negb ok then Some (false, b)
      else
        let bytes := ulong (ulong (4 * width (area b)) * height (area b)) in
        let b := set_shadow_buffer b (replicate (Z.to_nat (bytes / 4)) 0) in
        '(_, b) ← ply_video_buffer_fill_with_color COLOR_TO_PIXEL_VALUE
                    (dev_msync os) b None 0 0 0 1;
        Some (true, b).

Definition ply_video_buffer_open (os : Device) (buffer : NamedVideoBuffer)
  : option (bool * NamedVideoBuffer) :=
  '(is_open, b) ← open_steps os buffer;
  if negb is_open
  then Some (false, mkNamed (device_name buffer) (ply_video_buffer_close_device b))
  else Some (true, mkNamed (device_name buffer) b).

End Lifecycle.

Definition ply_video_buffer_close (buffer : PlyVideoBuffer) : option PlyVideoBuffer :=
  _ ← assert (ply_video_buffer_device_is_open buffer);
  let b := ply_video_buffer_close_device buffer in
  Some (mkBuffer (device_fd b) (map_address b) (size b) (shadow_buffer b)
          (red_bit_position b) (green_bit_position b) (blue_bit_position b)
          (alpha_bit_position b) (bits_for_red b) (bits_for_green b)
          (bits_for_blue b) (bits_for_alpha b) (bits_per_pixel b)
          0 (mkArea 0 0 0 0) (area_to_flush b) (is_paused b)).

Definition ply_video_buffer_get_size (buffer : PlyVideoBuffer)
  : option PlyVideoBufferArea :=
  _ ← assert (ply_video_buffer_device_is_open buffer);
  Some (area buffer).

Definition ply_video_buffer_get_device_name (buffer : NamedVideoBuffer)
  : option string :=
  _ ← assert (ply_video_buffer_device_is_open (members buffer));
  Some (device_name buffer).

Definition ply_video_buffer_set_device_name
  (buffer : NamedVideoBuffer) (device_name' : string) : option NamedVideoBuffer :=
  _ ← assert (negb (ply_video_buffer_device_is_open (members buffer)));
  if negb (String.eqb (device_name buffer) device_name')
  then Some (mkNamed device_name' (members buffer))
  else Some buffer.

(** * Vocabulary of the further properties *)

(** The surface has [int] dimensions and the shadow buffer has one entry per
    pixel of it. *)
Definition shadow_matches_surface (b : PlyVideoBuffer) : Prop :=
  0 <= width (area b) < 2 ^ 31 /\ 0 <= height (area b) < 2 ^ 31 /\
  length (shadow_buffer b) = Z.to_nat (width (area b) * height (area b)).

(** The pixel at ([column], [row]) lies on the surface. *)
Definition on_surface (b : PlyVideoBuffer) (column row : Z) : Prop :=
  0 <= column < width (area b) /\ 0 <= row < height (area b).

(** The rows above [r] and the columns left of [c] in row [r] of the area
    hold [v]; the rest of the surface is as in [b]. *)
Definition overwritten (b : PlyVideoBuffer) (a : PlyVideoBufferArea) (v r c : Z)
  (t : PlyVideoBuffer) : Prop :=
  exists s', t = set_shadow_buffer b s' /\
    length s' = length (shadow_buffer b) /\
    forall column row, on_surface b column row ->
      (in_area a column row /\ (row < r \/ (row = r /\ column < c)) /\
       s' !! Z.to_nat (row * width (area b) + column) = Some v) \/
      (~ (in_area a column row /\ (row < r \/ (row = r /\ column < c))) /\
       s' !! Z.to_nat (row * width (area b) + column)
       = shadow_buffer b !! Z.to_nat (row * width (area b) + column)).

(** The rectangle of the surface that receives the [width'] by [height']
    pixels of a data draw call on the area [a]. *)
Definition data_target (a : PlyVideoBufferArea) (width' height' : Z)
  : PlyVideoBufferArea :=
  mkArea (x a) (y a) width' height'.

(** The entry of [data] that the draw call reads for the pixel of the
    surface at ([column], [row]). *)
Definition data_source (a : PlyVideoBufferArea) (x' y' width' : Z)
  (data : list Z) (column row : Z) : option Z :=
  data !! Z.to_nat (width' * (y' + (row - y a)) + (x' + (column - x a))).

(** The source rows above [r] and the source columns left of [c] in source
    row [r] have been blended onto their pixels; the rest of the surface is
    as in [b]. *)
Definition composited (M : float -> float -> float -> float -> Z)
  (b : PlyVideoBuffer) (a : PlyVideoBufferArea) (x' y' width' height' : Z)
  (data : list Z) (opacity : float) (r c : Z) (t : PlyVideoBuffer) : Prop :=
  exists s', t = set_shadow_buffer b s' /\
    length s' = length (shadow_buffer b) /\
    forall column row, on_surface b column row ->
      exists old,
        shadow_buffer b !! Z.to_nat (row * width (area b) + column) = Some old /\
        ((in_area (data_target a width' height') column row /\
          (y' + (row - y a) < r \/
           (y' + (row - y a) = r /\ x' + (column - x a) < c)) /\
          exists d, data_source a x' y' width' data column row = Some d /\
            s' !! Z.to_nat (row * width (area b) + column)
            = Some (blend_two_pixel_values M
                      (make_pixel_value_translucent M d opacity) old)) \/
         (~ (in_area (data_target a width' height') column row /\
             (y' + (row - y a) < r \/
              (y' + (row - y a) = r /\ x' + (column - x a) < c))) /\
          s' !! Z.to_nat (row * width (area b) + column) = Some old)).

(** The pixels of a rectangle as (row, column) pairs, row by row from the
    top and from left to right in each row. *)
Definition area_pixels (a : PlyVideoBufferArea) : list (Z * Z) :=
  seqZ (y a) (height a) ≫= λ row, (λ column, (row, column)) <$> seqZ (x a) (width a).

(** The pixels of the rectangle that come before ([c], [r]) in that order. *)
Definition pixels_before (fx fy fw r c : Z) : list (Z * Z) :=
  (seqZ fy (r - fy) ≫= λ row, (λ column, (row, column)) <$> seqZ fx fw)
  ++ ((λ column, (r, column)) <$> seqZ fx (c - fx)).

(** [log] holds, in order, the write of each of the [pixels] of a region
    [width'] pixels wide. *)
Definition writes_of (b : PlyVideoBuffer) (width' : Z) (pixels : list (Z * Z))
  (log : list DeviceWrite) : Prop :=
  Forall2 (λ p w, device_write_for b width' p.1 p.2 = Some w) pixels log.

(** The writes of the pixels before ([c], [r]) have been appended to [log],
    in order. *)
Definition written_in_order (b : PlyVideoBuffer) (log : list DeviceWrite)
  (fx fy fw r c : Z) (t : PlyVideoBuffer) : Prop :=
  exists log', t = set_map_address b (Some (log ++ log')) /\
               writes_of b fw (pixels_before fx fy fw r c) log'.

(** Adding one area after the other. *)
Fixpoint add_areas (b : PlyVideoBuffer) (l : list PlyVideoBufferArea)
  : option PlyVideoBuffer :=
  match l with
  | [] => Some b
  | a :: l => b' ← ply_video_buffer_add_area_to_flush_area b a; add_areas b' l
  end.

(** The largest of the widths, and of the heights, of a list of areas; zero
    for no area. *)
Definition widest (l : list PlyVideoBufferArea) : Z := foldr Z.max 0 (width <$> l).

Definition highest (l : list PlyVideoBufferArea) : Z := foldr Z.max 0 (height <$> l).

(** One of the steps of opening fails on the device [os] for the name
    [name]: [open], one of the two queries, or [mmap]. *)
Definition some_step_fails (os : Device) (name : string) : Prop :=
  dev_open os name < 0 \/ dev_var_screeninfo os = None \/
  dev_fix_screeninfo os = None \/ dev_mmap os = false.

(** When both queries answer, the width they report is not zero and the
    size derived from them is positive: the division and the assertion of
    [ply_video_buffer_map_to_device] go through. *)
Definition queries_are_usable (os : Device) : Prop :=
  forall v f, dev_var_screeninfo os = Some v -> dev_fix_screeninfo os = Some f ->
    var_xres v <> 0 /\ 0 < ulong (var_yres v * fix_line_length f).

(** Every step of opening succeeds on the device [os] for the name [name],
    and the display [v], [f] it reports starts at offset (0, 0) and has
    [int] dimensions and a positive line length. *)
Definition device_opens (os : Device) (name : string)
  (v : fb_var_screeninfo) (f : fb_fix_screeninfo) : Prop :=
  0 <= dev_open os name /\
  dev_var_screeninfo os = Some v /\ dev_fix_screeninfo os = Some f /\
  dev_mmap os = true /\
  var_xoffset v = 0 /\ var_yoffset v = 0 /\
  0 < var_xres v < 2 ^ 31 /\ 0 < var_yres v < 2 ^ 31 /\
  0 < fix_line_length f < 2 ^ 32.

(** A display of two by two pixels in the canonical format, and a device
    that reports it. *)
Definition small_var_screeninfo : fb_var_screeninfo :=
  mkVarScreeninfo 32 0 0 2 2
    (mkBitfield 16 8) (mkBitfield 8 8) (mkBitfield 0 8) (mkBitfield 24 8).

Definition small_device (mmap_ok : bool) (msync : Z -> Z -> Z) : Device :=
  mkDevice (fun _ => 3) (Some small_var_screeninfo) (Some (mkFixScreeninfo 8))
    mmap_ok msync.

(** * Properties *)

(** ** Machine integers *)

Lemma ulong_small z : 0 <= z < 2 ^ 64 -> ulong z = z.
Proof. intros Hz. unfold ulong, ulong_bits. now apply Z.mod_small. Qed.

Lemma to_int_small z : - 2 ^ 31 <= z < 2 ^ 31 -> to_int z = z.
Proof. intros Hz. unfold to_int. rewrite Z.mod_small; lia. Qed.

(** ** Loops *)

Lemma iterate_invariant {S : Type} (P : Z -> S -> Prop) (body : Z -> S -> option S)
  (n : nat) (i : Z) (s : S) :
  P i s ->
  (forall j t, i <= j < i + Z.of_nat n -> P j t ->
               exists t', body j t = Some t' /\ P (j + 1) t') ->
  exists t, iterate n i body s = Some t /\ P (i + Z.of_nat n) t.
Proof.
  revert i s. induction n as [|n IH]; intros i s Hs Hstep.
  - exists s. split; [reflexivity|]. now replace (i + Z.of_nat 0) with i by lia.
  - destruct (Hstep i s ltac:(lia) Hs) as (t' & Hbody & Ht').
    destruct (IH (i + 1) t' Ht') as (t & Hrun & Ht).
    + intros j u Hj. apply Hstep. lia.
    + exists t. split.
      * simpl. rewrite Hbody. exact Hrun.
      * now replace (i + Z.of_nat (Datatypes.S n)) with (i + 1 + Z.of_nat n) by lia.
Qed.

Lemma for_loop_invariant {S : Type} (P : Z -> S -> Prop) (body : Z -> S -> option S)
  (lo hi : Z) (s : S) :
  lo <= hi ->
  P lo s ->
  (forall j t, lo <= j < hi -> P j t -> exists t', body j t = Some t' /\ P (j + 1) t') ->
  exists t, for_loop lo hi body s = Some t /\ P hi t.
Proof.
  intros Hle Hs Hstep. unfold for_loop.
  destruct (iterate_invariant P body (Z.to_nat (hi - lo)) lo s Hs) as (t & Hrun & Ht).
  - intros j u Hj. apply Hstep. lia.
  - exists t. split; [exact Hrun|].
    now replace (lo + Z.of_nat (Z.to_nat (hi - lo))) with hi in Ht by lia.
Qed.

(** ** Pixel addresses *)

Lemma pixel_index_on_surface (b : PlyVideoBuffer) (column row : Z) :
  0 <= width (area b) < 2 ^ 31 -> 0 <= height (area b) < 2 ^ 31 ->
  0 <= column < width (area b) -> 0 <= row < height (area b) ->
  pixel_index b column row = row * width (area b) + column.
Proof.
  intros HW HH Hc Hr. unfold pixel_index.
  rewrite !to_int_small by lia.
  rewrite (ulong_small row) by lia.
  rewrite (ulong_small column) by lia.
  assert (0 <= row * width (area b) < 2 ^ 62) by nia.
  rewrite (ulong_small (row * _)) by lia.
  apply ulong_small. lia.
Qed.

Lemma pixel_index_bound (b : PlyVideoBuffer) (column row : Z) :
  0 <= column < width (area b) -> 0 <= row < height (area b) ->
  0 <= row * width (area b) + column < width (area b) * height (area b).
Proof. intros Hc Hr. nia. Qed.

(** ** Writing the shadow buffer *)

Lemma set_value_at_pixel_on_surface (b : PlyVideoBuffer) (s : list Z)
  (column row v : Z) :
  0 <= width (area b) < 2 ^ 31 -> 0 <= height (area b) < 2 ^ 31 ->
  length s = Z.to_nat (width (area b) * height (area b)) ->
  0 <= column < width (area b) -> 0 <= row < height (area b) ->
  ply_video_buffer_set_value_at_pixel (set_shadow_buffer b s) column row v
  = Some (set_shadow_buffer b (<[Z.to_nat (row * width (area b) + column) := v]> s)).
Proof.
  intros HW HH Hlen Hc Hr. unfold ply_video_buffer_set_value_at_pixel.
  rewrite (pixel_index_on_surface (set_shadow_buffer b s)) by (simpl; lia).
  pose proof (pixel_index_bound b column row Hc Hr) as Hi.
  simpl. case_decide as Hlt; [reflexivity|]. exfalso. apply Hlt. lia.
Qed.

Lemma get_value_at_pixel_on_surface (b : PlyVideoBuffer) (column row : Z) :
  0 <= width (area b) < 2 ^ 31 -> 0 <= height (area b) < 2 ^ 31 ->
  0 <= column < width (area b) -> 0 <= row < height (area b) ->
  ply_video_buffer_get_value_at_pixel b column row
  = shadow_buffer b !! Z.to_nat (row * width (area b) + column).
Proof.
  intros HW HH Hc Hr. unfold ply_video_buffer_get_value_at_pixel.
  now rewrite pixel_index_on_surface.
Qed.

Lemma set_shadow_buffer_id (b : PlyVideoBuffer) :
  set_shadow_buffer b (shadow_buffer b) = b.
Proof. now destruct b. Qed.

Lemma set_area_to_pixel_value_fills (b : PlyVideoBuffer) (a : PlyVideoBufferArea)
  (v : Z) :
  0 <= width (area b) < 2 ^ 31 -> 0 <= height (area b) < 2 ^ 31 ->
  length (shadow_buffer b) = Z.to_nat (width (area b) * height (area b)) ->
  area_on_surface b a ->
  exists t, ply_video_buffer_set_area_to_pixel_value b a v = Some t /\
            filled b a v (y a + height a) (x a) t.
Proof.
  intros HW HH Hlen (Hx & Hy & Hw & Hh & _ & _ & _ & _ & Hr & Hb).
  unfold ply_video_buffer_set_area_to_pixel_value.
  rewrite !ulong_small by lia.
  apply (for_loop_invariant (fun r t => filled b a v r (x a) t)); [lia| |].
  - exists (shadow_buffer b). split; [now rewrite set_shadow_buffer_id|].
    split; [reflexivity|]. intros column row [Hc Hrow] Hdone. lia.
  - intros row t Hrow Ht.
    destruct (for_loop_invariant (fun c u => filled b a v row c u)
                (fun column u => ply_video_buffer_set_value_at_pixel u column row v)
                (x a) (x a + width a) t) as (u & Hrun & Hu); [lia|exact Ht| |].
    + intros column u Hcol (s' & -> & Hlen' & Hs').
      eexists. split.
      * apply set_value_at_pixel_on_surface; lia.
      * eexists. split; [reflexivity|]. split; [now rewrite length_insert|].
        intros column' row' Hin Hdone.
        destruct (decide (Z.to_nat (row' * width (area b) + column')
                          = Z.to_nat (row * width (area b) + column))) as [->|Hne].
        -- apply list_lookup_insert_eq.
           pose proof (pixel_index_bound b column row). lia.
        -- rewrite list_lookup_insert_ne by congruence.
           apply Hs'; [exact Hin|].
           destruct Hdone as [?|[-> Hlt]]; [now left|]. right. split; [reflexivity|].
           destruct (decide (column' = column)) as [->|]; [congruence|lia].
    + exists u. split; [exact Hrun|].
      destruct Hu as (s' & -> & Hlen' & Hs').
      exists s'. split; [reflexivity|]. split; [exact Hlen'|].
      intros column' row' Hin Hdone. apply Hs'; [exact Hin|].
      destruct Hin as [Hc' Hr']. lia.
Qed.

Lemma blend_area_with_pixel_value_runs
  (M : float -> float -> float -> float -> Z)
  (b : PlyVideoBuffer) (a : PlyVideoBufferArea) (v : Z) :
  0 <= width (area b) < 2 ^ 31 -> 0 <= height (area b) < 2 ^ 31 ->
  length (shadow_buffer b) = Z.to_nat (width (area b) * height (area b)) ->
  area_on_surface b a ->
  exists s', ply_video_buffer_blend_area_with_pixel_value M b a v
             = Some (set_shadow_buffer b s') /\
             length s' = length (shadow_buffer b).
Proof.
  intros HW HH Hlen (Hx & Hy & Hw & Hh & _ & _ & _ & _ & Hr & Hb).
  unfold ply_video_buffer_blend_area_with_pixel_value.
  rewrite !ulong_small by lia.
  set (P := fun (_ : Z) t => exists s', t = set_shadow_buffer b s' /\
                                        length s' = length (shadow_buffer b)).
  destruct (for_loop_invariant P
              (fun row u => for_loop (x a) (x a + width a)
                 (fun column u =>
                    ply_video_buffer_blend_value_at_pixel M u column row v) u)
              (y a) (y a + height a) b) as (t & Hrun & s' & -> & Hlen');
    [lia| | |exists s'; split; [exact Hrun|exact Hlen']].
  - exists (shadow_buffer b). now rewrite set_shadow_buffer_id.
  - intros row t Hrow Ht.
    destruct (for_loop_invariant P
                (fun column u =>
                   ply_video_buffer_blend_value_at_pixel M u column row v)
                (x a) (x a + width a) t) as (u & Hrun & Hu);
      [lia|exact Ht| |exists u; split; [exact Hrun|exact Hu]].
    intros column u Hcol (s' & -> & Hlen').
    unfold ply_video_buffer_blend_value_at_pixel.
    rewrite get_value_at_pixel_on_surface by (simpl; lia).
    pose proof (pixel_index_bound b column row ltac:(lia) ltac:(lia)) as Hi.
    destruct (lookup_lt_is_Some_2 s' (Z.to_nat (row * width (area b) + column)))
      as [old Hold]; [lia|].
    simpl. rewrite Hold. simpl.
    rewrite set_value_at_pixel_on_surface by lia.
    eexists. split; [reflexivity|]. eexists. split; [reflexivity|].
    now rewrite length_insert.
Qed.

Lemma blend_data_onto_area_runs
  (M : float -> float -> float -> float -> Z)
  (b : PlyVideoBuffer) (a : PlyVideoBufferArea)
  (x' y' width' height' : Z) (data : list Z) (opacity : float) :
  0 <= width (area b) < 2 ^ 31 -> 0 <= height (area b) < 2 ^ 31 ->
  length (shadow_buffer b) = Z.to_nat (width (area b) * height (area b)) ->
  0 <= x a -> 0 <= y a ->
  data_fits b a x' y' width' height' data ->
  exists s', blend_data_onto_area M b a x' y' width' height' data opacity
             = Some (set_shadow_buffer b s') /\
             length s' = length (shadow_buffer b).
Proof.
  intros HW HH Hlen Hxa Hya (Hx & Hy & Hw & Hh & Hdata & Hxw & Hyh & Hmax & Hr & Hb).
  unfold blend_data_onto_area.
  rewrite (ulong_small (y' + height')), (ulong_small (x' + width')) by lia.
  set (P := fun (_ : Z) t => exists s', t = set_shadow_buffer b s' /\
                                        length s' = length (shadow_buffer b)).
  set (body := fun row column u =>
    pixel_value ← data !! Z.to_nat (ulong (ulong (width' * row) + column));
    ply_video_buffer_blend_value_at_pixel M u
      (ulong (x a + ulong (column - x'))) (ulong (y a + ulong (row - y')))
      (make_pixel_value_translucent M pixel_value opacity)).
  destruct (for_loop_invariant P
              (fun row u => for_loop x' (x' + width') (body row) u)
              y' (y' + height') b) as (t & Hrun & s' & -> & Hlen');
    [lia| | |exists s'; split; [exact Hrun|exact Hlen']].
  - exists (shadow_buffer b). now rewrite set_shadow_buffer_id.
  - intros row t Hrow Ht.
    destruct (for_loop_invariant P (body row) x' (x' + width') t)
      as (u & Hrun & Hu);
      [lia|exact Ht| |exists u; split; [exact Hrun|exact Hu]].
    intros column u Hcol (s' & -> & Hlen'). unfold body.
    assert (Hi : 0 <= width' * row /\ width' * row + column < Z.of_nat (length data))
      by nia.
    rewrite (ulong_small (width' * row)) by lia.
    rewrite (ulong_small (width' * row + column)) by lia.
    destruct (lookup_lt_is_Some_2 data (Z.to_nat (width' * row + column)))
      as [d Hd]; [lia|].
    rewrite Hd. simpl.
    rewrite (ulong_small (column - x')), (ulong_small (row - y')) by lia.
    rewrite (ulong_small (x a + _)), (ulong_small (y a + _)) by lia.
    unfold ply_video_buffer_blend_value_at_pixel.
    rewrite get_value_at_pixel_on_surface by (simpl; lia).
    pose proof (pixel_index_bound b (x a + (column - x')) (y a + (row - y'))
                  ltac:(lia) ltac:(lia)) as Hidx.
    destruct (lookup_lt_is_Some_2 s'
                (Z.to_nat ((y a + (row - y')) * width (area b) + (x a + (column - x')))))
      as [old Hold]; [lia|].
    simpl. rewrite Hold. simpl.
    rewrite set_value_at_pixel_on_surface by lia.
    eexists. split; [reflexivity|]. eexists. split; [reflexivity|].
    now rewrite length_insert.
Qed.

(** ** Copying to the device *)

Lemma copy_pixel_writes (b : PlyVideoBuffer) (log : list DeviceWrite)
  (width' row column : Z) (w : DeviceWrite) :
  device_write_for b width' row column = Some w ->
  copy_pixel (set_map_address b (Some log)) width'
    (ulong (width (area b) * bytes_per_pixel b)) row column
  = Some (set_map_address b (Some (log ++ [w]))).
Proof.
  unfold device_write_for, copy_pixel. simpl.
  destruct (shadow_buffer b !! _) as [pv|]; simpl; [|discriminate].
  intros [= <-]. reflexivity.
Qed.

Lemma region_index_bound (W H fx fy fw fh row column : Z) :
  0 <= fx -> 0 <= fy -> fx + fw <= W -> fy + fh <= H ->
  fx <= column < fx + fw -> fy <= row < fy + fh ->
  0 <= fw * row /\ 0 <= fw * row + column < W * H.
Proof. intros. nia. Qed.

Lemma device_write_for_defined (b : PlyVideoBuffer) (fx fy fw fh row column : Z) :
  0 <= width (area b) < 2 ^ 31 -> 0 <= height (area b) < 2 ^ 31 ->
  length (shadow_buffer b) = Z.to_nat (width (area b) * height (area b)) ->
  0 <= fx -> 0 <= fy -> fx + fw <= width (area b) -> fy + fh <= height (area b) ->
  fx <= column < fx + fw -> fy <= row < fy + fh ->
  exists pixel_value,
    shadow_buffer b !! Z.to_nat (fw * row + column) = Some pixel_value /\
    device_write_for b fw row column
    = Some (mkWrite (device_offset b row column)
              (ply_video_buffer_pixel_value_to_device_pixel_value b pixel_value)
              (bits_per_pixel b)).
Proof.
  intros HW HH Hlen Hx Hy Hr Hb Hc Hrow.
  destruct (region_index_bound (width (area b)) (height (area b))
              fx fy fw fh row column) as [Hm Hi]; try assumption.
  assert (width (area b) * height (area b) < 2 ^ 62) by nia.
  destruct (lookup_lt_is_Some_2 (shadow_buffer b) (Z.to_nat (fw * row + column)))
    as [pv Hpv]; [lia|].
  exists pv. split; [exact Hpv|]. unfold device_write_for.
  rewrite (ulong_small (fw * row)) by lia.
  rewrite ulong_small by lia. now rewrite Hpv.
Qed.

Lemma copy_to_device_writes (msync : Z -> Z -> Z) (b : PlyVideoBuffer)
  (log : list DeviceWrite) (fx fy fw fh : Z) :
  map_address b = Some log ->
  0 <= width (area b) < 2 ^ 31 -> 0 <= height (area b) < 2 ^ 31 ->
  length (shadow_buffer b) = Z.to_nat (width (area b) * height (area b)) ->
  0 <= fx -> 0 <= fy -> 0 <= fw -> 0 <= fh ->
  fx + fw <= width (area b) -> fy + fh <= height (area b) ->
  exists t,
    ply_video_buffer_copy_to_device msync b fx fy fw fh
    = Some (negb (msync
                    (ulong (ulong (fy * ulong (width (area b) * bytes_per_pixel b))
                            + ulong (fx * bytes_per_pixel b)))
                    (ulong (ulong (fw * fh) * bytes_per_pixel b)) <? 0), t) /\
    written b log fx fy fw fh (fy + fh) fx t.
Proof.
  intros Hmap HW HH Hlen Hx Hy Hw Hh Hr Hb.
  unfold ply_video_buffer_copy_to_device.
  rewrite (ulong_small (fy + fh)), (ulong_small (fx + fw)) by lia.
  destruct (for_loop_invariant (fun r t => written b log fx fy fw fh r fx t)
              (fun row u => for_loop fx (fx + fw)
                 (fun column u =>
                    copy_pixel u fw (ulong (width (area b) * bytes_per_pixel b))
                      row column) u)
              fy (fy + fh) b) as (t & Hrun & Ht); [lia| | |].
  - exists []. split.
    + rewrite app_nil_r, <- Hmap. now destruct b.
    + intros column row Hc Hrow Hdone. lia.
  - intros row t Hrow Ht.
    destruct (for_loop_invariant (fun c u => written b log fx fy fw fh row c u)
                (fun column u =>
                   copy_pixel u fw (ulong (width (area b) * bytes_per_pixel b))
                     row column)
                fx (fx + fw) t) as (u & Hrun & Hu); [lia|exact Ht| |].
    + intros column u Hcol (log' & -> & Hlog').
      destruct (device_write_for_defined b fx fy fw fh row column)
        as (pv & _ & Hw'); try assumption.
      eexists. split.
      * rewrite (copy_pixel_writes _ _ _ _ _ _ Hw'). reflexivity.
      * exists (log' ++ [mkWrite (device_offset b row column)
                           (ply_video_buffer_pixel_value_to_device_pixel_value b pv)
                           (bits_per_pixel b)]).
        split; [now rewrite app_assoc|].
        intros column' row' Hc' Hr' Hdone.
        destruct (decide (row' = row /\ column' = column)) as [[-> ->]|Hne].
        -- eexists. split; [exact Hw'|]. apply elem_of_app. right.
           now apply list_elem_of_singleton.
        -- destruct (Hlog' column' row' Hc' Hr') as (w & Hw1 & Hw2); [lia|].
           exists w. split; [exact Hw1|]. apply elem_of_app. now left.
    + exists u. split; [exact Hrun|].
      destruct Hu as (log' & -> & Hlog').
      exists log'. split; [reflexivity|].
      intros column' row' Hc' Hr' Hdone. apply Hlog'; [exact Hc'|exact Hr'|lia].
  - exists t. split; [|exact Ht]. simpl in Hrun. rewrite Hrun. simpl.
    now destruct (msync _ _ <? 0).
Qed.

(** ** Flushing *)

Lemma open_buffer_mapped (b : PlyVideoBuffer) :
  open_buffer b -> exists log, map_address b = Some log.
Proof.
  intros Hb. pose proof (ob_open b Hb) as Hopen.
  unfold ply_video_buffer_device_is_open in Hopen.
  apply andb_true_iff in Hopen as [_ Hmap].
  apply bool_decide_eq_true in Hmap.
  destruct (map_address b) as [log|]; [now exists log|congruence].
Qed.

Lemma flush_unpaused (msync : Z -> Z -> Z) (b : PlyVideoBuffer)
  (log : list DeviceWrite) :
  open_buffer b -> is_paused b = false -> map_address b = Some log ->
  exists log',
    covers_area_to_flush b log' /\
    ply_video_buffer_flush msync b = flush_outcome msync b log log'.
Proof.
  intros Hb Hrun Hmap. unfold flush_outcome, ply_video_buffer_flush. rewrite Hrun.
  destruct (copy_to_device_writes msync b log
              (x (area_to_flush b)) (y (area_to_flush b))
              (width (area_to_flush b)) (height (area_to_flush b)) Hmap)
    as (t & Hcopy & log' & -> & Hlog'); try apply Hb.
  exists log'. split.
  - intros column row [Hc Hr]. apply Hlog'; [exact Hc|exact Hr|lia].
  - rewrite Hcopy. unfold flush_sync. simpl.
    now destruct (msync _ _ <? 0).
Qed.

Lemma open_buffer_frame (b b' : PlyVideoBuffer) :
  open_buffer b ->
  device_fd b' = device_fd b -> map_address b' <> None ->
  area b' = area b ->
  length (shadow_buffer b') = length (shadow_buffer b) ->
  area_to_flush b' = area_to_flush b ->
  open_buffer b'.
Proof.
  intros Hb Hfd Hmap Harea Hlen Hflush.
  pose proof (ob_open b Hb) as Hopen.
  unfold ply_video_buffer_device_is_open in Hopen.
  apply andb_true_iff in Hopen as [Hfd' _].
  constructor; rewrite ?Harea, ?Hlen, ?Hflush; try apply Hb.
  unfold ply_video_buffer_device_is_open. rewrite Hfd, Hfd'. simpl.
  now apply bool_decide_eq_true.
Qed.

Lemma sample_buffer_open (p0 p1 p2 p3 : Z) (dirty : PlyVideoBufferArea)
  (paused : bool) :
  0 <= x dirty -> 0 <= y dirty -> 0 <= width dirty -> 0 <= height dirty ->
  x dirty + width dirty <= 2 -> y dirty + height dirty <= 2 ->
  open_buffer (sample_buffer [p0; p1; p2; p3] dirty paused).
Proof.
  intros. constructor; simpl; try lia; reflexivity.
Defined.

(** Closes [open_buffer] goals on the sample surface. *)
Ltac sample_is_open := apply sample_buffer_open; simpl; lia.

Lemma area_on_surface_accepted (b : PlyVideoBuffer) (a : PlyVideoBufferArea) :
  area_on_surface b a -> area_accepted b a.
Proof. unfold area_on_surface, area_accepted. intuition lia. Qed.

Lemma add_area_to_flush_area_accepted (b : PlyVideoBuffer) (a : PlyVideoBufferArea) :
  area_accepted b a ->
  ply_video_buffer_add_area_to_flush_area b a
  = Some (set_area_to_flush b (merged_area (area_to_flush b) a)).
Proof.
  intros (H1 & H2 & H3 & H4 & H5 & H6).
  unfold ply_video_buffer_add_area_to_flush_area.
  apply Z.leb_le in H1, H2, H5, H6. apply Z.ltb_lt in H3, H4.
  now rewrite H1, H2, H3, H4, H5, H6.
Qed.

Lemma open_buffer_after_draw (b : PlyVideoBuffer) (a : PlyVideoBufferArea)
  (s' : list Z) :
  open_buffer b -> area_on_surface b a ->
  length s' = length (shadow_buffer b) ->
  open_buffer (set_area_to_flush (set_shadow_buffer b s')
                 (merged_area (area_to_flush b) a)).
Proof.
  intros Hb (Hx & Hy & Hw & Hh & _ & _ & _ & _ & Hr & Hbt) Hlen.
  pose proof (ob_open b Hb) as Hopen.
  destruct Hb. constructor; simpl; try lia; assumption.
Qed.

Lemma painted_runs (M : float -> float -> float -> float -> Z)
  (b : PlyVideoBuffer) (a : PlyVideoBufferArea) (red green blue alpha : float) :
  open_buffer b -> area_on_surface b a ->
  exists s', painted M b a red green blue alpha = Some (set_shadow_buffer b s') /\
             length s' = length (shadow_buffer b).
Proof.
  intros Hb Ha. unfold painted. destruct (alpha_is_opaque alpha).
  - destruct (set_area_to_pixel_value_fills b a
                (uint32 (M (red * alpha)%float (green * alpha)%float
                           (blue * alpha)%float alpha)))
      as (t & Hrun & s' & -> & Hlen & _); try apply Hb; [exact Ha|].
    now exists s'.
  - apply blend_area_with_pixel_value_runs; try apply Hb. exact Ha.
Qed.

Lemma fill_with_color_steps (M : float -> float -> float -> float -> Z)
  (msync : Z -> Z -> Z) (b : PlyVideoBuffer) (area' : option PlyVideoBufferArea)
  (red green blue alpha : float) (s' : list Z) :
  open_buffer b -> area_on_surface b (default (area b) area') ->
  painted M b (default (area b) area') red green blue alpha
  = Some (set_shadow_buffer b s') ->
  ply_video_buffer_fill_with_color M msync b area' red green blue alpha
  = ply_video_buffer_flush msync
      (set_area_to_flush (set_shadow_buffer b s')
         (merged_area (area_to_flush b) (default (area b) area'))).
Proof.
  intros Hb Ha Hpaint. unfold ply_video_buffer_fill_with_color.
  rewrite (ob_open b Hb). simpl.
  unfold painted in Hpaint. rewrite Hpaint. simpl.
  rewrite add_area_to_flush_area_accepted; [reflexivity|].
  now apply area_on_surface_accepted.
Qed.

Lemma alpha_one_is_opaque : alpha_is_opaque 1 = true.
Proof. vm_compute. reflexivity. Qed.

Lemma flush_keeps_shadow_buffer (msync : Z -> Z -> Z) (b : PlyVideoBuffer) :
  open_buffer b ->
  exists ok b', ply_video_buffer_flush msync b = Some (ok, b') /\
                shadow_buffer b' = shadow_buffer b /\ area b' = area b.
Proof.
  intros Hb. destruct (is_paused b) eqn:Hpaused.
  - exists true, b. unfold ply_video_buffer_flush. now rewrite Hpaused.
  - destruct (open_buffer_mapped b Hb) as [log Hmap].
    destruct (flush_unpaused msync b log Hb Hpaused Hmap) as (log' & _ & Hflush).
    unfold flush_outcome in Hflush.
    destruct (flush_sync msync b <? 0); eexists; eexists;
      (split; [exact Hflush|split; reflexivity]).
Qed.

(** ** The blending path *)

Lemma pixel_index_injective (W column row column' row' : Z) :
  0 <= column < W -> 0 <= column' < W -> 0 <= row -> 0 <= row' ->
  Z.to_nat (row' * W + column') = Z.to_nat (row * W + column) ->
  row' = row /\ column' = column.
Proof.
  intros Hc Hc' Hr Hr' Heq.
  assert (Hz : row' * W + column' = row * W + column) by nia.
  assert (row' = row) by nia. subst row'. split; [reflexivity|lia].
Qed.

Lemma blend_area_with_pixel_value_blends
  (M : float -> float -> float -> float -> Z)
  (b : PlyVideoBuffer) (a : PlyVideoBufferArea) (v : Z) :
  0 <= width (area b) < 2 ^ 31 -> 0 <= height (area b) < 2 ^ 31 ->
  length (shadow_buffer b) = Z.to_nat (width (area b) * height (area b)) ->
  area_on_surface b a ->
  exists t, ply_video_buffer_blend_area_with_pixel_value M b a v = Some t /\
            blended M b a v (y a + height a) (x a) t.
Proof.
  intros HW HH Hlen (Hx & Hy & Hw & Hh & _ & _ & _ & _ & Hr & Hb).
  unfold ply_video_buffer_blend_area_with_pixel_value.
  rewrite !ulong_small by lia.
  apply (for_loop_invariant (fun r t => blended M b a v r (x a) t)); [lia| |].
  - exists (shadow_buffer b). split; [now rewrite set_shadow_buffer_id|].
    split; [reflexivity|]. intros column row Hc Hrow.
    pose proof (pixel_index_bound b column row Hc Hrow) as Hi.
    destruct (lookup_lt_is_Some_2 (shadow_buffer b)
                (Z.to_nat (row * width (area b) + column))) as [old Hold]; [lia|].
    exists old. split; [exact Hold|]. right. split; [|exact Hold].
    unfold in_area. lia.
  - intros row t Hrow Ht.
    destruct (for_loop_invariant (fun c u => blended M b a v row c u)
                (fun column u =>
                   ply_video_buffer_blend_value_at_pixel M u column row v)
                (x a) (x a + width a) t) as (u & Hrun & Hu); [lia|exact Ht| |].
    + intros column u Hcol (s' & -> & Hlen' & Hs').
      destruct (Hs' column row ltac:(lia) ltac:(lia)) as (old & Hold & Hcase).
      destruct Hcase as [(_ & Hdone & _)|(_ & Hkeep)]; [lia|].
      unfold ply_video_buffer_blend_value_at_pixel.
      rewrite get_value_at_pixel_on_surface by (simpl; lia).
      simpl. rewrite Hkeep. simpl.
      rewrite set_value_at_pixel_on_surface by lia.
      eexists. split; [reflexivity|].
      eexists. split; [reflexivity|]. split; [now rewrite length_insert|].
      intros column' row' Hc' Hr'.
      destruct (Hs' column' row' Hc' Hr') as (old' & Hold' & Hcase').
      exists old'. split; [exact Hold'|].
      destruct (decide (row' = row /\ column' = column)) as [[-> ->]|Hne].
      * left. split; [unfold in_area; lia|]. split; [lia|].
        rewrite list_lookup_insert_eq.
        -- congruence.
        -- pose proof (pixel_index_bound b column row ltac:(lia) ltac:(lia)). lia.
      * assert (Hidx : Z.to_nat (row * width (area b) + column)
                       <> Z.to_nat (row' * width (area b) + column')).
        { intros Heq. apply Hne.
          apply (pixel_index_injective (width (area b))); try lia. }
        rewrite list_lookup_insert_ne by exact Hidx.
        destruct Hcase' as [(Hin & Hdone & Hval)|(Hnot & Hval)].
        -- left. split; [exact Hin|]. split; [lia|exact Hval].
        -- right. split; [|exact Hval]. intros [Hin Hdone]. apply Hnot.
           split; [exact Hin|]. lia.
    + exists u. split; [exact Hrun|].
      destruct Hu as (s' & -> & Hlen' & Hs').
      exists s'. split; [reflexivity|]. split; [exact Hlen'|].
      intros column' row' Hc' Hr'.
      destruct (Hs' column' row' Hc' Hr') as (old' & Hold' & Hcase').
      exists old'. split; [exact Hold'|].
      destruct Hcase' as [(Hin & Hdone & Hval)|(Hnot & Hval)].
      * left. split; [exact Hin|]. split; [|exact Hval].
        destruct Hin as [Hcin Hrin]. lia.
      * right. split; [|exact Hval]. intros [Hin Hdone]. apply Hnot.
        split; [exact Hin|]. destruct Hin as [Hcin Hrin]. lia.
Qed.

(** X4.  For an alpha whose opacity test C defines ([alpha - 1.0] converts
    to an [int] that has an [abs]) and that fails it, the fill returns, every
    pixel of the area becomes the blend of the packed colour with the pixel
    it held, and the pixels outside the area keep their value. *)
Lemma fill_with_color_blends_when_not_opaque
  (M : float -> float -> float -> float -> Z) (msync : Z -> Z -> Z)
  (b : PlyVideoBuffer) (area' : option PlyVideoBufferArea)
  (red green blue alpha : float) :
  open_buffer b -> area_on_surface b (default (area b) area') ->
  opacity_test_defined alpha -> alpha_is_opaque alpha = false ->
  exists ok b',
    ply_video_buffer_fill_with_color M msync b area' red green blue alpha
    = Some (ok, b') /\
    forall column row,
      0 <= column < width (area b) -> 0 <= row < height (area b) ->
      exists old,
        ply_video_buffer_get_value_at_pixel b column row = Some old /\
        ply_video_buffer_get_value_at_pixel b' column row
        = Some (if bool_decide (in_area (default (area b) area') column row)
                then blend_two_pixel_values M
                       (uint32 (M (red * alpha)%float (green * alpha)%float
                                  (blue * alpha)%float alpha)) old
                else old).
Proof.
  intros Hb Ha _ Halpha.
  set (a := default (area b) area') in *.
  set (v := uint32 (M (red * alpha)%float (green * alpha)%float
                      (blue * alpha)%float alpha)).
  destruct (blend_area_with_pixel_value_blends M b a v)
    as (t & Hrun & s' & -> & Hlen & Hs'); try apply Hb; [exact Ha|].
  assert (Hpaint : painted M b a red green blue alpha = Some (set_shadow_buffer b s')).
  { unfold painted. rewrite Halpha. exact Hrun. }
  pose proof (open_buffer_after_draw b a s' Hb Ha Hlen) as Hb'.
  destruct (flush_keeps_shadow_buffer msync _ Hb') as (ok & b' & Hflush & Hsh & Har).
  exists ok, b'. split.
  - rewrite (fill_with_color_steps M msync b area' red green blue alpha s'
               Hb Ha Hpaint).
    exact Hflush.
  - intros column row Hc Hrow. simpl in Hsh, Har.
    destruct (Hs' column row Hc Hrow) as (old & Hold & Hcase).
    exists old.
    rewrite !get_value_at_pixel_on_surface; rewrite ?Har; try apply Hb; try lia.
    split; [exact Hold|]. rewrite Hsh.
    destruct Ha as (Hx & Hy & Hw & Hh & _ & _ & _ & _ & Hr & Hbt).
    destruct Hcase as [(Hin & _ & Hval)|(Hnot & Hval)].
    + rewrite bool_decide_eq_true_2 by exact Hin. exact Hval.
    + rewrite bool_decide_eq_false_2; [exact Hval|].
      intros Hin. apply Hnot. split; [exact Hin|].
      destruct Hin as [Hcin Hrin]. lia.
Qed.

(** ** What a draw call stores *)

Lemma set_area_to_pixel_value_overwrites (b : PlyVideoBuffer)
  (a : PlyVideoBufferArea) (v : Z) :
  shadow_matches_surface b -> area_on_surface b a ->
  exists t, ply_video_buffer_set_area_to_pixel_value b a v = Some t /\
            overwritten b a v (y a + height a) (x a) t.
Proof.
  intros (HW & HH & Hlen) (Hx & Hy & Hw & Hh & _ & _ & _ & _ & Hr & Hb).
  unfold ply_video_buffer_set_area_to_pixel_value.
  rewrite !ulong_small by lia.
  apply (for_loop_invariant (fun r t => overwritten b a v r (x a) t)); [lia| |].
  - exists (shadow_buffer b). split; [now rewrite set_shadow_buffer_id|].
    split; [reflexivity|]. intros column row _. right.
    split; [unfold in_area; lia|reflexivity].
  - intros row t Hrow Ht.
    destruct (for_loop_invariant (fun c u => overwritten b a v row c u)
                (fun column u => ply_video_buffer_set_value_at_pixel u column row v)
                (x a) (x a + width a) t) as (u & Hrun & Hu); [lia|exact Ht| |].
    + intros column u Hcol (s' & -> & Hlen' & Hs').
      eexists. split; [apply set_value_at_pixel_on_surface; lia|].
      eexists. split; [reflexivity|]. split; [now rewrite length_insert|].
      intros column' row' [Hc' Hr'].
      destruct (decide (row' = row /\ column' = column)) as [[-> ->]|Hne].
      * left. split; [unfold in_area; lia|]. split; [lia|].
        apply list_lookup_insert_eq.
        pose proof (pixel_index_bound b column row ltac:(lia) ltac:(lia)). lia.
      * assert (Hidx : Z.to_nat (row * width (area b) + column)
                       <> Z.to_nat (row' * width (area b) + column')).
        { intros Heq. apply Hne.
          apply (pixel_index_injective (width (area b))); try lia. }
        rewrite list_lookup_insert_ne by exact Hidx.
        destruct (Hs' column' row' (conj Hc' Hr'))
          as [(Hin & Hdone & Hval)|(Hnot & Hval)].
        -- left. split; [exact Hin|]. split; [lia|exact Hval].
        -- right. split; [|exact Hval]. intros [Hin Hdone]. apply Hnot.
           split; [exact Hin|]. lia.
    + exists u. split; [exact Hrun|].
      destruct Hu as (s' & -> & Hlen' & Hs').
      exists s'. split; [reflexivity|]. split; [exact Hlen'|].
      intros column' row' Hon.
      destruct (Hs' column' row' Hon) as [(Hin & Hdone & Hval)|(Hnot & Hval)].
      * left. split; [exact Hin|]. split; [|exact Hval].
        destruct Hin as [Hcin Hrin]. lia.
      * right. split; [|exact Hval]. intros [Hin Hdone]. apply Hnot.
        split; [exact Hin|]. destruct Hin as [Hcin Hrin]. lia.
Qed.

Lemma open_buffer_shadow_matches (b : PlyVideoBuffer) :
  open_buffer b -> shadow_matches_surface b.
Proof. intros Hb. repeat split; apply Hb. Qed.

Lemma blend_data_onto_area_composites
  (M : float -> float -> float -> float -> Z)
  (b : PlyVideoBuffer) (a : PlyVideoBufferArea)
  (x' y' width' height' : Z) (data : list Z) (opacity : float) :
  shadow_matches_surface b -> 0 <= x a -> 0 <= y a ->
  data_fits b a x' y' width' height' data ->
  exists t, blend_data_onto_area M b a x' y' width' height' data opacity = Some t /\
            composited M b a x' y' width' height' data opacity (y' + height') x' t.
Proof.
  intros (HW & HH & Hlen) Hxa Hya
         (Hx & Hy & Hw & Hh & Hdata & Hxw & Hyh & Hmax & Hr & Hb).
  unfold blend_data_onto_area.
  rewrite (ulong_small (y' + height')), (ulong_small (x' + width')) by lia.
  set (body := fun row column u =>
    pixel_value ← data !! Z.to_nat (ulong (ulong (width' * row) + column));
    ply_video_buffer_blend_value_at_pixel M u
      (ulong (x a + ulong (column - x'))) (ulong (y a + ulong (row - y')))
      (make_pixel_value_translucent M pixel_value opacity)).
  apply (for_loop_invariant
           (fun r t => composited M b a x' y' width' height' data opacity r x' t)
           (fun row u => for_loop x' (x' + width') (body row) u)); [lia| |].
  - exists (shadow_buffer b). split; [now rewrite set_shadow_buffer_id|].
    split; [reflexivity|]. intros column row [Hc Hrow].
    pose proof (pixel_index_bound b column row Hc Hrow) as Hi.
    destruct (lookup_lt_is_Some_2 (shadow_buffer b)
                (Z.to_nat (row * width (area b) + column))) as [old Hold]; [lia|].
    exists old. split; [exact Hold|]. right. split; [|exact Hold].
    unfold in_area, data_target. simpl. lia.
  - intros r t Hrow Ht.
    destruct (for_loop_invariant
                (fun c u => composited M b a x' y' width' height' data opacity r c u)
                (body r) x' (x' + width') t) as (u & Hrun & Hu);
      [lia|exact Ht| |].
    + intros c u Hcol (s' & -> & Hlen' & Hs'). unfold body.
      assert (Hi : 0 <= width' * r /\ width' * r + c < Z.of_nat (length data))
        by nia.
      rewrite (ulong_small (width' * r)) by lia.
      rewrite (ulong_small (width' * r + c)) by lia.
      destruct (lookup_lt_is_Some_2 data (Z.to_nat (width' * r + c)))
        as [d Hd]; [lia|].
      rewrite Hd. simpl.
      rewrite (ulong_small (c - x')), (ulong_small (r - y')) by lia.
      rewrite (ulong_small (x a + _)), (ulong_small (y a + _)) by lia.
      set (cd := x a + (c - x')). set (rd := y a + (r - y')).
      assert (Hcd : 0 <= cd < width (area b)) by (unfold cd; lia).
      assert (Hrd : 0 <= rd < height (area b)) by (unfold rd; lia).
      destruct (Hs' cd rd (conj Hcd Hrd)) as (old & Hold & Hcase).
      destruct Hcase as [(_ & Hdone & _)|(_ & Hkeep)]; [unfold cd, rd in Hdone; lia|].
      unfold ply_video_buffer_blend_value_at_pixel.
      rewrite get_value_at_pixel_on_surface by (simpl; lia).
      simpl. rewrite Hkeep. simpl.
      rewrite set_value_at_pixel_on_surface by lia.
      eexists. split; [reflexivity|].
      eexists. split; [reflexivity|]. split; [now rewrite length_insert|].
      intros column' row' [Hc' Hr'].
      destruct (Hs' column' row' (conj Hc' Hr')) as (old' & Hold' & Hcase').
      exists old'. split; [exact Hold'|].
      destruct (decide (row' = rd /\ column' = cd)) as [[-> ->]|Hne].
      * left. split; [unfold in_area, data_target, cd, rd; simpl; lia|].
        split; [unfold cd, rd; lia|].
        exists d. split.
        -- unfold data_source, cd, rd. rewrite <- Hd. f_equal. f_equal. lia.
        -- rewrite list_lookup_insert_eq.
           ++ congruence.
           ++ pose proof (pixel_index_bound b cd rd Hcd Hrd). lia.
      * assert (Hidx : Z.to_nat (rd * width (area b) + cd)
                       <> Z.to_nat (row' * width (area b) + column')).
        { intros Heq. apply Hne.
          apply (pixel_index_injective (width (area b))); try lia. }
        rewrite list_lookup_insert_ne by exact Hidx.
        destruct Hcase' as [(Hin & Hdone & Hval)|(Hnot & Hval)].
        -- left. split; [exact Hin|]. split; [lia|exact Hval].
        -- right. split; [|exact Hval]. intros [Hin Hdone]. apply Hnot.
           split; [exact Hin|]. unfold cd, rd in Hne. lia.
    + exists u. split; [exact Hrun|].
      destruct Hu as (s' & -> & Hlen' & Hs').
      exists s'. split; [reflexivity|]. split; [exact Hlen'|].
      intros column' row' Hon.
      destruct (Hs' column' row' Hon) as (old' & Hold' & Hcase').
      exists old'. split; [exact Hold'|].
      destruct Hcase' as [(Hin & Hdone & Hval)|(Hnot & Hval)].
      * left. split; [exact Hin|]. split; [|exact Hval].
        destruct Hin as [Hcin Hrin]. simpl in Hcin, Hrin. lia.
      * right. split; [|exact Hval]. intros [Hin Hdone]. apply Hnot.
        split; [exact Hin|]. destruct Hin as [Hcin Hrin]. simpl in Hcin, Hrin. lia.
Qed.

Lemma painted_pixels (M : float -> float -> float -> float -> Z)
  (b : PlyVideoBuffer) (a : PlyVideoBufferArea) (red green blue alpha : float) :
  open_buffer b -> area_on_surface b a ->
  exists s',
    painted M b a red green blue alpha = Some (set_shadow_buffer b s') /\
    length s' = length (shadow_buffer b) /\
    forall column row, on_surface b column row ->
      exists old,
        shadow_buffer b !! Z.to_nat (row * width (area b) + column) = Some old /\
        s' !! Z.to_nat (row * width (area b) + column)
        = Some (if bool_decide (in_area a column row)
                then if alpha_is_opaque alpha
                     then uint32 (M (red * alpha)%float (green * alpha)%float
                                    (blue * alpha)%float alpha)
                     else blend_two_pixel_values M
                            (uint32 (M (red * alpha)%float (green * alpha)%float
                                       (blue * alpha)%float alpha)) old
                else old).
Proof.
  intros Hb Ha. unfold painted.
  set (v := uint32 (M (red * alpha)%float (green * alpha)%float
                      (blue * alpha)%float alpha)).
  assert (Hrows : forall column row, in_area a column row -> row < y a + height a)
    by (unfold in_area; lia).
  destruct (alpha_is_opaque alpha).
  - destruct (set_area_to_pixel_value_overwrites b a v)
      as (t & Hrun & s' & -> & Hlen & Hs');
      [now apply open_buffer_shadow_matches|exact Ha|].
    exists s'. split; [exact Hrun|]. split; [exact Hlen|].
    intros column row [Hc Hr].
    pose proof (pixel_index_bound b column row Hc Hr) as Hi.
    destruct (lookup_lt_is_Some_2 (shadow_buffer b)
                (Z.to_nat (row * width (area b) + column))) as [old Hold].
    { rewrite (ob_shadow b Hb). lia. }
    exists old. split; [exact Hold|].
    destruct (Hs' column row (conj Hc Hr)) as [(Hin & _ & Hval)|(Hnot & Hval)].
    + rewrite bool_decide_eq_true_2 by exact Hin. exact Hval.
    + rewrite bool_decide_eq_false_2; [congruence|].
      intros Hin. apply Hnot. split; [exact Hin|]. left. exact (Hrows column row Hin).
  - destruct (blend_area_with_pixel_value_blends M b a v)
      as (t & Hrun & s' & -> & Hlen & Hs'); try apply Hb; [exact Ha|].
    exists s'. split; [exact Hrun|]. split; [exact Hlen|].
    intros column row [Hc Hr].
    destruct (Hs' column row Hc Hr) as (old & Hold & Hcase).
    exists old. split; [exact Hold|].
    destruct Hcase as [(Hin & _ & Hval)|(Hnot & Hval)].
    + rewrite bool_decide_eq_true_2 by exact Hin. exact Hval.
    + rewrite bool_decide_eq_false_2; [exact Hval|].
      intros Hin. apply Hnot. split; [exact Hin|]. left. exact (Hrows column row Hin).
Qed.

Lemma draw_on_paused_buffer (msync : Z -> Z -> Z) (b : PlyVideoBuffer)
  (a : PlyVideoBufferArea) (s' : list Z) :
  is_paused b = true -> area_on_surface b a ->
  let b' := set_area_to_flush (set_shadow_buffer b s')
              (merged_area (area_to_flush b) a) in
  ply_video_buffer_add_area_to_flush_area (set_shadow_buffer b s') a = Some b' /\
  ply_video_buffer_flush msync b' = Some (true, b') /\
  drawn_while_paused b a b'.
Proof.
  intros Hpaused Ha b'. split; [|split].
  - apply (add_area_to_flush_area_accepted (set_shadow_buffer b s')).
    now apply area_on_surface_accepted.
  - unfold ply_video_buffer_flush. simpl. now rewrite Hpaused.
  - unfold drawn_while_paused. simpl.
    repeat (split; [first [reflexivity | exact Hpaused]|]). lia.
Qed.

(** * The claims *)

(** ** Filling with a colour *)

(** C4.  With alpha exactly 1.0, [ply_video_buffer_fill_with_color] returns,
    and every pixel of the area then holds the packed colour whose red, green
    and blue were multiplied by alpha before packing, whatever the shadow
    buffer held before and whether or not the buffer is paused. *)
Theorem fill_with_color_opaque_overwrites
  (M : float -> float -> float -> float -> Z) (msync : Z -> Z -> Z)
  (b : PlyVideoBuffer) (area' : option PlyVideoBufferArea)
  (red green blue : float) :
  open_buffer b -> area_on_surface b (default (area b) area') ->
  exists ok b',
    ply_video_buffer_fill_with_color M msync b area' red green blue 1
    = Some (ok, b') /\
    forall column row, in_area (default (area b) area') column row ->
      ply_video_buffer_get_value_at_pixel b' column row
      = Some (uint32 (M (red * 1)%float (green * 1)%float (blue * 1)%float 1%float)).
Proof.
  intros Hb Ha.
  set (a := default (area b) area') in *.
  set (v := uint32 (M (red * 1)%float (green * 1)%float (blue * 1)%float 1%float)).
  destruct (set_area_to_pixel_value_fills b a v)
    as (t & Hrun & s' & -> & Hlen & Hs'); try apply Hb; [exact Ha|].
  assert (Hpaint : painted M b a red green blue 1 = Some (set_shadow_buffer b s')).
  { unfold painted. rewrite alpha_one_is_opaque. exact Hrun. }
  pose proof (open_buffer_after_draw b a s' Hb Ha Hlen) as Hb'.
  destruct (flush_keeps_shadow_buffer msync _ Hb') as (ok & b' & Hflush & Hsh & Har).
  exists ok, b'. split.
  - rewrite (fill_with_color_steps M msync b area' red green blue 1 s' Hb Ha Hpaint).
    exact Hflush.
  - intros column row Hin. simpl in Hsh, Har.
    destruct Ha as (Hx & Hy & Hw & Hh & _ & _ & _ & _ & Hr & Hbt).
    pose proof Hin as [Hc Hrow].
    rewrite get_value_at_pixel_on_surface; rewrite Har; try apply Hb; try lia.
    rewrite Hsh. apply Hs'; [exact Hin|]. lia.
Qed.

Lemma fill_with_color_opaque_overwrites_witness :
  let b := sample_buffer [1; 2; 3; 4] (mkArea 0 0 0 0) false in
  let M := COLOR_TO_PIXEL_VALUE_spec in
  let msync := sync_succeeds in
  let area' := Some (mkArea 1 0 1 2) in
  open_buffer b /\ area_on_surface b (default (area b) area') /\
  exists ok b',
    ply_video_buffer_fill_with_color M msync b area' 1 0 0 1 = Some (ok, b') /\
    forall column row, in_area (default (area b) area') column row ->
      ply_video_buffer_get_value_at_pixel b' column row
      = Some (uint32 (M (1 * 1)%float (0 * 1)%float (0 * 1)%float 1%float)).
Proof.
  intros b M msync area'.
  assert (Hb : open_buffer b) by sample_is_open.
  assert (Ha : area_on_surface b (default (area b) area'))
    by (unfold area_on_surface; simpl; lia).
  split; [exact Hb|]. split; [exact Ha|].
  exact (fill_with_color_opaque_overwrites M msync b area' 1 0 0 Hb Ha).
Defined.

(** The scenario of the spec: filling the whole sample surface with opaque
    red leaves 0xFFFF0000 in all four pixels and an empty area to flush. *)
Example fill_sample_surface_red :
  let b := sample_buffer [0; 0; 0; 0] (mkArea 0 0 0 0) false in
  (r ← ply_video_buffer_fill_with_color COLOR_TO_PIXEL_VALUE_spec sync_succeeds b
         None 1 0 0 1;
   Some (r.1, shadow_buffer r.2, area_to_flush r.2,
         (λ w, (wr_offset w, wr_value w)) <$> default [] (map_address r.2)))
  = Some (true, [0xFFFF0000; 0xFFFF0000; 0xFFFF0000; 0xFFFF0000], mkArea 0 0 0 0,
          [(0, 0xFFFF0000); (4, 0xFFFF0000); (8, 0xFFFF0000); (12, 0xFFFF0000)]).
Proof. vm_compute. reflexivity. Qed.

(** ** Pausing *)

(** C6.  On a paused buffer, a flush returns success and hands back the
    buffer as it was (mapped memory and area to flush included).  Each of the
    two draw calls returns success and stores its pixels in the shadow
    buffer: after a fill, a pixel of the area holds the packed colour when
    the opacity test holds and the blend of the packed colour over what it
    held otherwise (for an alpha whose test C defines); after a data draw, a
    pixel of the target rectangle holds the blend of its translucent data
    entry over what it held; every other pixel of the surface keeps its
    value.  Both merge the drawn area into the area to flush and leave the
    mapped memory and the paused flag alone.
    [ply_video_buffer_unpause_updates] clears the paused flag and runs one
    flush, which issues the write of every pixel of the accumulated area to
    flush. *)
Theorem paused_buffer_defers_the_flush
  (M : float -> float -> float -> float -> Z) (msync : Z -> Z -> Z)
  (b : PlyVideoBuffer) :
  open_buffer b -> is_paused b = true ->
  ply_video_buffer_flush msync b = Some (true, b) /\
  (forall area' red green blue alpha,
     area_on_surface b (default (area b) area') ->
     opacity_test_defined alpha ->
     exists b',
       ply_video_buffer_fill_with_color M msync b area' red green blue alpha
       = Some (true, b') /\
       drawn_while_paused b (default (area b) area') b' /\
       forall column row, on_surface b column row ->
         exists old,
           ply_video_buffer_get_value_at_pixel b column row = Some old /\
           ply_video_buffer_get_value_at_pixel b' column row
           = Some (if bool_decide (in_area (default (area b) area') column row)
                   then if alpha_is_opaque alpha
                        then uint32 (M (red * alpha)%float (green * alpha)%float
                                       (blue * alpha)%float alpha)
                        else blend_two_pixel_values M
                               (uint32 (M (red * alpha)%float (green * alpha)%float
                                          (blue * alpha)%float alpha)) old
                   else old)) /\
  (forall area' x' y' width' height' data opacity,
     area_on_surface b (default (area b) area') ->
     data_fits b (default (area b) area') x' y' width' height' data ->
     exists b',
       ply_video_buffer_fill_with_argb32_data_at_opacity M msync b area'
         x' y' width' height' data opacity = Some (true, b') /\
       drawn_while_paused b (default (area b) area') b' /\
       forall column row, on_surface b column row ->
         exists old,
           ply_video_buffer_get_value_at_pixel b column row = Some old /\
           ((in_area (data_target (default (area b) area') width' height')
               column row /\
             exists d,
               data_source (default (area b) area') x' y' width' data column row
               = Some d /\
               ply_video_buffer_get_value_at_pixel b' column row
               = Some (blend_two_pixel_values M
                         (make_pixel_value_translucent M d opacity) old)) \/
            (~ in_area (data_target (default (area b) area') width' height')
                 column row /\
             ply_video_buffer_get_value_at_pixel b' column row = Some old))) /\
  (exists log log',
     map_address b = Some log /\
     covers_area_to_flush b log' /\
     ply_video_buffer_unpause_updates msync b
     = flush_outcome msync (set_is_paused b false) log log').
Proof.
  intros Hb Hpaused.
  split; [|split; [|split]].
  - unfold ply_video_buffer_flush. now rewrite Hpaused.
  - intros area' red green blue alpha Ha _.
    set (a := default (area b) area') in *.
    destruct (painted_pixels M b a red green blue alpha Hb Ha)
      as (s' & Hpaint & Hlen & Hs').
    destruct (draw_on_paused_buffer msync b a s' Hpaused Ha)
      as (_ & Hflush & Hdrawn).
    eexists. split; [|split; [exact Hdrawn|]].
    + rewrite (fill_with_color_steps M msync b area' red green blue alpha s'
                 Hb Ha Hpaint).
      exact Hflush.
    + intros column row Hon. pose proof Hon as [Hc Hr].
      destruct (Hs' column row Hon) as (old & Hold & Hval).
      exists old.
      rewrite !get_value_at_pixel_on_surface by (simpl; first [apply Hb | lia]).
      split; [exact Hold|exact Hval].
  - intros area' x' y' width' height' data opacity Ha Hdata.
    set (a := default (area b) area') in *.
    destruct (blend_data_onto_area_composites M b a x' y' width' height' data
                opacity) as (t & Hrun & s' & -> & Hlen & Hs');
      [now apply open_buffer_shadow_matches|apply Ha|apply Ha|exact Hdata|].
    destruct (draw_on_paused_buffer msync b a s' Hpaused Ha)
      as (Hadd & Hflush & Hdrawn).
    eexists. split; [|split; [exact Hdrawn|]].
    + unfold ply_video_buffer_fill_with_argb32_data_at_opacity.
      rewrite (ob_open b Hb). simpl. fold a. rewrite Hrun. simpl.
      rewrite Hadd. simpl. exact Hflush.
    + intros column row Hon. pose proof Hon as [Hc Hr].
      destruct (Hs' column row Hon) as (old & Hold & Hcase).
      exists old.
      rewrite !get_value_at_pixel_on_surface by (simpl; first [apply Hb | lia]).
      split; [exact Hold|].
      destruct Hdata as (Hx & Hy & Hw & Hh & _ & _ & _ & _ & Hdr & Hdb).
      destruct Hcase as [(Hin & _ & d & Hd & Hval)|(Hnot & Hval)].
      * left. split; [exact Hin|]. exists d. split; [exact Hd|exact Hval].
      * right. split; [|exact Hval]. intros Hin. apply Hnot. split; [exact Hin|].
        destruct Hin as [Hcin Hrin]. simpl in Hcin, Hrin. lia.
  - destruct (open_buffer_mapped b Hb) as [log Hmap].
    assert (Hb0 : open_buffer (set_is_paused b false)).
    { apply (open_buffer_frame b); try reflexivity; [exact Hb|]. simpl. congruence. }
    destruct (flush_unpaused msync (set_is_paused b false) log Hb0 eq_refl Hmap)
      as (log' & Hcover & Hflush).
    exists log, log'. split; [exact Hmap|]. split; [exact Hcover|exact Hflush].
Qed.

Lemma paused_buffer_defers_the_flush_witness :
  let b := ply_video_buffer_pause_updates
             (sample_buffer [1; 2; 3; 4] (mkArea 0 0 1 1) false) in
  let M := COLOR_TO_PIXEL_VALUE_spec in
  let msync := sync_succeeds in
  open_buffer b /\ is_paused b = true /\
  ply_video_buffer_flush msync b = Some (true, b) /\
  (forall area' red green blue alpha,
     area_on_surface b (default (area b) area') ->
     opacity_test_defined alpha ->
     exists b',
       ply_video_buffer_fill_with_color M msync b area' red green blue alpha
       = Some (true, b') /\
       drawn_while_paused b (default (area b) area') b' /\
       forall column row, on_surface b column row ->
         exists old,
           ply_video_buffer_get_value_at_pixel b column row = Some old /\
           ply_video_buffer_get_value_at_pixel b' column row
           = Some (if bool_decide (in_area (default (area b) area') column row)
                   then if alpha_is_opaque alpha
                        then uint32 (M (red * alpha)%float (green * alpha)%float
                                       (blue * alpha)%float alpha)
                        else blend_two_pixel_values M
                               (uint32 (M (red * alpha)%float (green * alpha)%float
                                          (blue * alpha)%float alpha)) old
                   else old)) /\
  (forall area' x' y' width' height' data opacity,
     area_on_surface b (default (area b) area') ->
     data_fits b (default (area b) area') x' y' width' height' data ->
     exists b',
       ply_video_buffer_fill_with_argb32_data_at_opacity M msync b area'
         x' y' width' height' data opacity = Some (true, b') /\
       drawn_while_paused b (default (area b) area') b' /\
       forall column row, on_surface b column row ->
         exists old,
           ply_video_buffer_get_value_at_pixel b column row = Some old /\
           ((in_area (data_target (default (area b) area') width' height')
               column row /\
             exists d,
               data_source (default (area b) area') x' y' width' data column row
               = Some d /\
               ply_video_buffer_get_value_at_pixel b' column row
               = Some (blend_two_pixel_values M
                         (make_pixel_value_translucent M d opacity) old)) \/
            (~ in_area (data_target (default (area b) area') width' height')
                 column row /\
             ply_video_buffer_get_value_at_pixel b' column row = Some old))) /\
  (exists log log',
     map_address b = Some log /\
     covers_area_to_flush b log' /\
     ply_video_buffer_unpause_updates msync b
     = flush_outcome msync (set_is_paused b false) log log').
Proof.
  intros b M msync.
  assert (Hb : open_buffer b)
    by (apply (sample_buffer_open 1 2 3 4 (mkArea 0 0 1 1) true); simpl; lia).
  split; [exact Hb|]. split; [reflexivity|].
  exact (paused_buffer_defers_the_flush M msync b Hb eq_refl).
Defined.

(** A red pixel drawn at (1, 1) while paused reaches the shadow buffer only;
    unpausing then writes the accumulated area, here the pixel (0, 0). *)
Example paused_draw_then_unpause :
  let b := sample_buffer [1; 2; 3; 4] (mkArea 0 0 1 1) true in
  ply_video_buffer_fill_with_color COLOR_TO_PIXEL_VALUE_spec sync_succeeds b
    (Some (mkArea 1 1 1 1)) 1 0 0 1
  = Some (true, sample_buffer [1; 2; 3; 0xFFFF0000] (mkArea 0 0 1 1) true) /\
  ply_video_buffer_unpause_updates sync_succeeds b
  = Some (true, set_map_address (sample_buffer [1; 2; 3; 4] (mkArea 0 0 0 0) false)
                  (Some [mkWrite 0 1 32])).
Proof. split; vm_compute; reflexivity. Qed.

(** ** Failure of the synchronization *)

(** C7.  When [msync] fails, an unpaused flush returns failure and leaves the
    area to flush, the shadow buffer and the surface as they were, so that a
    later flush is handed the same region; when [msync] succeeds the flush
    returns success and the area to flush is the rectangle (0, 0, 0, 0). *)
Theorem flush_sync_failure_keeps_area_to_flush
  (msync : Z -> Z -> Z) (b : PlyVideoBuffer) :
  open_buffer b -> is_paused b = false ->
  (flush_sync msync b < 0 ->
   exists b', ply_video_buffer_flush msync b = Some (false, b') /\
              area_to_flush b' = area_to_flush b /\
              shadow_buffer b' = shadow_buffer b /\
              area b' = area b /\ is_paused b' = false) /\
  (0 <= flush_sync msync b ->
   exists b', ply_video_buffer_flush msync b = Some (true, b') /\
              area_to_flush b' = mkArea 0 0 0 0).
Proof.
  intros Hb Hrun.
  destruct (open_buffer_mapped b Hb) as [log Hmap].
  destruct (flush_unpaused msync b log Hb Hrun Hmap) as (log' & _ & Hflush).
  unfold flush_outcome in Hflush.
  split; intros Hsync.
  - apply Z.ltb_lt in Hsync. rewrite Hsync in Hflush.
    eexists. split; [exact Hflush|]. simpl. now rewrite Hrun.
  - apply Z.ltb_ge in Hsync. rewrite Hsync in Hflush.
    eexists. split; [exact Hflush|]. reflexivity.
Qed.

Lemma flush_sync_failure_keeps_area_to_flush_witness :
  let b := sample_buffer [1; 2; 3; 4] (mkArea 0 0 2 1) false in
  open_buffer b /\ is_paused b = false /\
  flush_sync sync_fails b < 0 /\
  (exists b', ply_video_buffer_flush sync_fails b = Some (false, b') /\
              area_to_flush b' = area_to_flush b /\
              shadow_buffer b' = shadow_buffer b /\
              area b' = area b /\ is_paused b' = false) /\
  0 <= flush_sync sync_succeeds b /\
  (exists b', ply_video_buffer_flush sync_succeeds b = Some (true, b') /\
              area_to_flush b' = mkArea 0 0 0 0).
Proof.
  intros b.
  assert (Hb : open_buffer b) by sample_is_open.
  assert (Hfail : flush_sync sync_fails b < 0) by (unfold flush_sync, sync_fails; lia).
  assert (Hgood : 0 <= flush_sync sync_succeeds b)
    by (unfold flush_sync, sync_succeeds; lia).
  split; [exact Hb|]. split; [reflexivity|].
  split; [exact Hfail|]. split.
  - apply (flush_sync_failure_keeps_area_to_flush sync_fails b Hb eq_refl), Hfail.
  - split; [exact Hgood|].
    apply (flush_sync_failure_keeps_area_to_flush sync_succeeds b Hb eq_refl), Hgood.
Defined.

(** ** The device pixel format *)

Lemma truncated_channel_shift (v bits : Z) :
  0 <= v < 256 -> 0 <= bits <= 8 ->
  truncated_channel v bits = Z.shiftr v (8 - bits).
Proof.
  intros Hv Hbits. unfold truncated_channel, uint32, uint8.
  rewrite (Z.mod_small (8 - bits)) by lia.
  rewrite Z.shiftr_div_pow2 by lia.
  apply Z.mod_small. split.
  - apply Z.div_pos; [lia|]. apply Z.pow_pos_nonneg; lia.
  - apply Z.div_lt_upper_bound; [apply Z.pow_pos_nonneg; lia|].
    assert (0 < 2 ^ (8 - bits)) by (apply Z.pow_pos_nonneg; lia). lia.
Qed.

Lemma truncated_channel_bound (v bits : Z) :
  0 <= v < 256 -> 0 <= bits <= 8 ->
  0 <= truncated_channel v bits < 2 ^ bits.
Proof.
  intros Hv Hbits. rewrite truncated_channel_shift by assumption.
  rewrite Z.shiftr_div_pow2 by lia.
  assert (Hpos : 0 < 2 ^ (8 - bits)) by (apply Z.pow_pos_nonneg; lia).
  split; [apply Z.div_pos; lia|].
  apply Z.div_lt_upper_bound; [exact Hpos|].
  rewrite <- Z.pow_add_r by lia. now replace (8 - bits + bits) with 8 by lia.
Qed.

Lemma testbit_high (v bits k : Z) :
  0 <= v < 2 ^ bits -> 0 <= bits <= k -> Z.testbit v k = false.
Proof.
  intros Hv Hk. rewrite <- (Z.mod_small v (2 ^ bits)) by exact Hv.
  apply Z.mod_pow2_bits_high. lia.
Qed.

Lemma testbit_outside_field (v position bits k : Z) :
  0 <= v < 2 ^ bits -> 0 <= bits -> 0 <= position -> 0 <= k ->
  k < position \/ position + bits <= k ->
  Z.testbit (Z.shiftl v position) k = false.
Proof.
  intros Hv Hbits Hpos Hk Hout. rewrite Z.shiftl_spec by exact Hk.
  destruct (Z.ltb_spec k position) as [Hlt|Hge].
  - apply Z.testbit_neg_r. lia.
  - apply (testbit_high v bits); [exact Hv|lia].
Qed.

Lemma channel_value_bound (pixel_value : Z) (c : channel) :
  0 <= channel_value pixel_value c < 256.
Proof.
  assert (H : forall z, 0 <= Z.land z 255 < 256).
  { intros z. change 255 with (Z.ones 8). rewrite Z.land_ones by lia.
    apply Z.mod_pos_bound. lia. }
  destruct c; apply H.
Qed.

Lemma device_pixel_value_channels (b : PlyVideoBuffer) (pixel_value : Z) :
  ply_video_buffer_pixel_value_to_device_pixel_value b pixel_value
  = uint32
      (Z.lor (Z.lor (Z.lor
         (Z.shiftl (truncated_channel (channel_value pixel_value Alpha)
                      (channel_bits b Alpha)) (channel_position b Alpha))
         (Z.shiftl (truncated_channel (channel_value pixel_value Red)
                      (channel_bits b Red)) (channel_position b Red)))
         (Z.shiftl (truncated_channel (channel_value pixel_value Green)
                      (channel_bits b Green)) (channel_position b Green)))
         (Z.shiftl (truncated_channel (channel_value pixel_value Blue)
                      (channel_bits b Blue)) (channel_position b Blue))).
Proof.
  unfold ply_video_buffer_pixel_value_to_device_pixel_value,
    truncated_channel, channel_value, channel_bits, channel_position.
  assert (Hu : forall z, uint8 (Z.land z 255) = Z.land z 255).
  { intros z. unfold uint8. apply Z.mod_small.
    apply (channel_value_bound z Blue). }
  rewrite !Hu.
  assert (Ha : uint8 (Z.shiftr pixel_value 24) = Z.land (Z.shiftr pixel_value 24) 255).
  { unfold uint8. change 255 with (Z.ones 8). now rewrite Z.land_ones by lia. }
  now rewrite Ha.
Qed.

Lemma channel_field_off (b : PlyVideoBuffer) (pixel_value : Z) (c c' : channel)
  (k : Z) :
  channel_apart b c c' -> 0 <= channel_position b c ->
  0 <= k < channel_bits b c ->
  Z.testbit (channel_field b pixel_value c') (k + channel_position b c) = false.
Proof.
  intros (Hbits & Hpos & Hapart) Hpc Hk. unfold channel_field.
  apply (testbit_outside_field _ _ (channel_bits b c')); try lia.
  apply truncated_channel_bound; [apply channel_value_bound|exact Hbits].
Qed.

Lemma channel_field_on (b : PlyVideoBuffer) (pixel_value : Z) (c : channel) (k : Z) :
  0 <= channel_position b c -> 0 <= k ->
  Z.testbit (channel_field b pixel_value c) (k + channel_position b c)
  = Z.testbit (truncated_channel (channel_value pixel_value c) (channel_bits b c)) k.
Proof.
  intros Hpos Hk. unfold channel_field. rewrite Z.shiftl_spec by lia.
  f_equal. lia.
Qed.

Lemma stored_channel_bits (b : PlyVideoBuffer) (pixel_value : Z) (c : channel) :
  0 <= channel_bits b c <= 8 -> channel_in_word b c ->
  (forall c', c' <> c -> channel_apart b c c') ->
  Z.land (Z.shiftr (ply_video_buffer_pixel_value_to_device_pixel_value b pixel_value)
                   (channel_position b c))
         (Z.shiftl 1 (channel_bits b c) - 1)
  = truncated_channel (channel_value pixel_value c) (channel_bits b c).
Proof.
  intros Hbits [Hpos Hword] Hapart.
  pose proof (truncated_channel_bound (channel_value pixel_value c) (channel_bits b c)
                (channel_value_bound pixel_value c) Hbits) as Hbound.
  rewrite device_pixel_value_channels.
  fold (channel_field b pixel_value Alpha) (channel_field b pixel_value Red)
       (channel_field b pixel_value Green) (channel_field b pixel_value Blue).
  replace (Z.shiftl 1 (channel_bits b c) - 1) with (Z.ones (channel_bits b c))
    by (unfold Z.ones; lia).
  rewrite Z.land_ones by lia.
  apply Z.bits_inj'. intros k Hk.
  destruct (Z.ltb_spec k (channel_bits b c)) as [Hlt|Hge].
  - rewrite Z.mod_pow2_bits_low by lia.
    rewrite Z.shiftr_spec by lia. unfold uint32.
    rewrite Z.mod_pow2_bits_low by lia.
    rewrite !Z.lor_spec.
    destruct c;
      repeat match goal with
      | |- context [Z.testbit (channel_field b pixel_value ?c')
                      (k + channel_position b ?c)] =>
          lazymatch c' with
          | c => fail
          | _ => rewrite (channel_field_off b pixel_value c c' k)
                   by first [apply Hapart; discriminate | lia]
          end
      end;
      rewrite channel_field_on by lia;
      rewrite ?orb_false_r, ?orb_false_l; reflexivity.
  - rewrite Z.mod_pow2_bits_high by lia.
    symmetry. apply (testbit_high _ (channel_bits b c)); [exact Hbound|lia].
Qed.

(** C8.  On a device format all four of whose channels have at most eight
    bits and lie in the 32-bit device word, for a channel of [w] bits,
    [w] from one to eight, whose field meets no other channel's field:
    converting a canonical pixel to device form and reading the channel back
    through its descriptor gives the channel's eight-bit value [v] with the
    low [8 - w] bits cleared, [v & ~((1 << (8 - w)) - 1)]. *)
Theorem channel_truncation_round_trip
  (b : PlyVideoBuffer) (pixel_value : Z) (c : channel) :
  format_in_word b -> 1 <= channel_bits b c ->
  (forall c', c' <> c -> channel_apart b c c') ->
  read_channel_back
    (ply_video_buffer_pixel_value_to_device_pixel_value b pixel_value)
    (channel_position b c) (channel_bits b c)
  = Z.land (channel_value pixel_value c)
           (Z.lnot (Z.shiftl 1 (8 - channel_bits b c) - 1)).
Proof.
  intros Hformat Hbits Hapart. unfold read_channel_back.
  destruct (Hformat c) as (Hbits8 & _ & Hword).
  rewrite stored_channel_bits by (try assumption; lia).
  rewrite truncated_channel_shift by (try apply channel_value_bound; lia).
  replace (Z.shiftl 1 (8 - channel_bits b c) - 1)
    with (Z.ones (8 - channel_bits b c)) by (unfold Z.ones; lia).
  rewrite <- Z.ldiff_land. symmetry. apply Z.ldiff_ones_r. lia.
Qed.

Lemma channel_truncation_round_trip_witness :
  let b := rgb565_buffer in
  let pixel_value := 0xFFABCDEF in
  format_in_word b /\ 1 <= channel_bits b Red /\
  (forall c', c' <> Red -> channel_apart b Red c') /\
  read_channel_back
    (ply_video_buffer_pixel_value_to_device_pixel_value b pixel_value)
    (channel_position b Red) (channel_bits b Red)
  = Z.land (channel_value pixel_value Red)
           (Z.lnot (Z.shiftl 1 (8 - channel_bits b Red) - 1)).
Proof.
  intros b pixel_value.
  assert (Hformat : format_in_word b)
    by (intros c; destruct c; unfold channel_in_word; simpl; lia).
  assert (Hbits : 1 <= channel_bits b Red) by (simpl; lia).
  assert (Hapart : forall c', c' <> Red -> channel_apart b Red c').
  { intros c' Hc'. destruct c'; [| congruence | |];
      unfold channel_apart; simpl; lia. }
  split; [exact Hformat|]. split; [exact Hbits|]. split; [exact Hapart|].
  exact (channel_truncation_round_trip b pixel_value Red Hformat Hbits Hapart).
Defined.

(** On the 16-bit device the red value 0xAB is stored as 0x15 and read back
    as 0xA8. *)
Example rgb565_red_round_trip :
  ply_video_buffer_pixel_value_to_device_pixel_value rgb565_buffer 0xFFABCDEF
  = 0xAE7D /\
  read_channel_back 0xAE7D 11 5 = 0xA8 /\
  Z.land 0xAB (Z.lnot (Z.shiftl 1 3 - 1)) = 0xA8.
Proof. repeat split. Qed.

(** ** The area to flush after a flush *)

(** C9 as worded, for any successful flush, fails on a paused buffer, whose
    flush returns success at once: on the open, paused sample surface with
    the pixel (0, 0) recorded as the area to flush, the flush returns success
    and the buffer it hands back still records (0, 0, 1, 1). *)
Lemma paused_flush_succeeds_without_reset :
  open_buffer (sample_buffer [1; 2; 3; 4] (mkArea 0 0 1 1) true) /\
  ply_video_buffer_flush sync_succeeds
    (sample_buffer [1; 2; 3; 4] (mkArea 0 0 1 1) true)
  = Some (true, sample_buffer [1; 2; 3; 4] (mkArea 0 0 1 1) true) /\
  area_to_flush (sample_buffer [1; 2; 3; 4] (mkArea 0 0 1 1) true)
  <> mkArea 0 0 0 0.
Proof.
  split; [sample_is_open|]. split; [reflexivity|discriminate].
Qed.

(** C9, for a buffer that is not paused.  A successful flush of an unpaused
    buffer stores (0, 0, 0, 0) as the area to flush.  Adding any accepted
    rectangle [a] of non-negative origin to it records
    (0, 0, width a, height a): the origin is (0, 0) whatever was drawn.  When
    [a] is not empty and does not start at the origin, its bottom-right pixel
    is a drawn pixel outside the recorded rectangle. *)
Theorem area_to_flush_after_flush_starts_at_origin
  (msync : Z -> Z -> Z) (b : PlyVideoBuffer) :
  open_buffer b -> is_paused b = false -> 0 <= flush_sync msync b ->
  exists b',
    ply_video_buffer_flush msync b = Some (true, b') /\
    area_to_flush b' = mkArea 0 0 0 0 /\
    forall a, area_accepted b a -> 0 <= x a -> 0 <= y a ->
      exists b'',
        ply_video_buffer_add_area_to_flush_area b' a = Some b'' /\
        area_to_flush b'' = mkArea 0 0 (width a) (height a) /\
        (0 < width a -> 0 < height a -> 0 < x a \/ 0 < y a ->
         in_area a (x a + width a - 1) (y a + height a - 1) /\
         ~ in_area (area_to_flush b'') (x a + width a - 1) (y a + height a - 1)).
Proof.
  intros Hb Hrun Hsync.
  destruct (open_buffer_mapped b Hb) as [log Hmap].
  destruct (flush_unpaused msync b log Hb Hrun Hmap) as (log' & _ & Hflush).
  unfold flush_outcome in Hflush.
  apply Z.ltb_ge in Hsync. rewrite Hsync in Hflush.
  eexists. split; [exact Hflush|]. split; [reflexivity|].
  intros a Ha Hx Hy. eexists. split.
  - apply add_area_to_flush_area_accepted. exact Ha.
  - destruct Ha as (_ & _ & _ & _ & Hw & Hh). simpl. split.
    + unfold merged_area. simpl. f_equal; lia.
    + intros Hw' Hh' Haway. unfold in_area. simpl. lia.
Qed.

Lemma area_to_flush_after_flush_starts_at_origin_witness :
  let b := sample_buffer [1; 2; 3; 4] (mkArea 0 0 2 2) false in
  let msync := sync_succeeds in
  open_buffer b /\ is_paused b = false /\ 0 <= flush_sync msync b /\
  exists b',
    ply_video_buffer_flush msync b = Some (true, b') /\
    area_to_flush b' = mkArea 0 0 0 0 /\
    forall a, area_accepted b a -> 0 <= x a -> 0 <= y a ->
      exists b'',
        ply_video_buffer_add_area_to_flush_area b' a = Some b'' /\
        area_to_flush b'' = mkArea 0 0 (width a) (height a) /\
        (0 < width a -> 0 < height a -> 0 < x a \/ 0 < y a ->
         in_area a (x a + width a - 1) (y a + height a - 1) /\
         ~ in_area (area_to_flush b'') (x a + width a - 1) (y a + height a - 1)).
Proof.
  intros b msync.
  assert (Hb : open_buffer b) by sample_is_open.
  assert (Hgood : 0 <= flush_sync msync b)
    by (unfold flush_sync, msync, sync_succeeds; lia).
  split; [exact Hb|]. split; [reflexivity|]. split; [exact Hgood|].
  exact (area_to_flush_after_flush_starts_at_origin msync b Hb eq_refl Hgood).
Defined.

(** After a flush of the sample surface, drawing the single pixel (1, 1)
    records the rectangle (0, 0, 1, 1), which holds the pixel (0, 0) only. *)
Example first_area_after_flush :
  let b := sample_buffer [1; 2; 3; 4] (mkArea 0 0 0 0) false in
  (b' ← ply_video_buffer_add_area_to_flush_area b (mkArea 1 1 1 1);
   Some (area_to_flush b')) = Some (mkArea 0 0 1 1).
Proof. reflexivity. Qed.

(** ** Unpausing when the synchronization fails *)

(** C10.  [ply_video_buffer_unpause_updates] clears the paused flag before it
    flushes: when [msync] fails the call returns failure, the buffer is left
    unpaused with the area to flush, the shadow buffer and the surface
    unchanged, and any later flush runs (it is not suppressed) and issues the
    write of every pixel of that same area. *)
Theorem unpause_failure_leaves_buffer_unpaused
  (msync : Z -> Z -> Z) (b : PlyVideoBuffer) :
  open_buffer b -> flush_sync msync b < 0 ->
  exists b',
    ply_video_buffer_unpause_updates msync b = Some (false, b') /\
    is_paused b' = false /\
    area_to_flush b' = area_to_flush b /\
    shadow_buffer b' = shadow_buffer b /\
    area b' = area b /\
    forall msync2, exists log log2,
      map_address b' = Some log /\
      covers_area_to_flush b log2 /\
      ply_video_buffer_flush msync2 b' = flush_outcome msync2 b' log log2.
Proof.
  intros Hb Hsync.
  destruct (open_buffer_mapped b Hb) as [log Hmap].
  assert (Hb0 : open_buffer (set_is_paused b false)).
  { apply (open_buffer_frame b); try reflexivity; [exact Hb|]. simpl. congruence. }
  destruct (flush_unpaused msync (set_is_paused b false) log Hb0 eq_refl Hmap)
    as (log' & _ & Hflush).
  unfold flush_outcome in Hflush.
  change (flush_sync msync (set_is_paused b false)) with (flush_sync msync b) in Hflush.
  apply Z.ltb_lt in Hsync. rewrite Hsync in Hflush.
  eexists. split; [exact Hflush|]. repeat (split; [reflexivity|]).
  intros msync2.
  set (b' := set_map_address (set_is_paused b false) (Some (log ++ log'))).
  assert (Hb' : open_buffer b').
  { apply (open_buffer_frame b); try reflexivity; [exact Hb|]. simpl. congruence. }
  destruct (flush_unpaused msync2 b' (log ++ log') Hb' eq_refl eq_refl)
    as (log2 & Hcover & Hflush2).
  exists (log ++ log'), log2. split; [reflexivity|]. split; [exact Hcover|].
  exact Hflush2.
Qed.

Lemma unpause_failure_leaves_buffer_unpaused_witness :
  let b := sample_buffer [1; 2; 3; 4] (mkArea 0 0 2 2) true in
  open_buffer b /\ flush_sync sync_fails b < 0 /\
  exists b',
    ply_video_buffer_unpause_updates sync_fails b = Some (false, b') /\
    is_paused b' = false /\
    area_to_flush b' = area_to_flush b /\
    shadow_buffer b' = shadow_buffer b /\
    area b' = area b /\
    forall msync2, exists log log2,
      map_address b' = Some log /\
      covers_area_to_flush b log2 /\
      ply_video_buffer_flush msync2 b' = flush_outcome msync2 b' log log2.
Proof.
  intros b.
  assert (Hb : open_buffer b) by sample_is_open.
  assert (Hfail : flush_sync sync_fails b < 0) by (unfold flush_sync, sync_fails; lia).
  split; [exact Hb|]. split; [exact Hfail|].
  exact (unpause_failure_leaves_buffer_unpaused sync_fails b Hb Hfail).
Defined.

(** ** Where the source departs from the spec *)

(** C1.  On the sample surface, with the pixel (0, 0) recorded as the area to
    flush, adding the pixel (1, 1) leaves the rectangle (0, 0, 1, 1): the
    widths and heights are compared, not the right and bottom edges.  The
    bounding box of the two is (0, 0, 2, 2), and the added pixel lies outside
    the recorded rectangle.  The same rectangle is recorded by two draw calls
    on a paused buffer. *)
Theorem add_area_to_flush_area_is_not_the_bounding_box :
  let A := mkArea 0 0 1 1 in
  let B := mkArea 1 1 1 1 in
  let b := sample_buffer [1; 2; 3; 4] A true in
  (b' ← ply_video_buffer_add_area_to_flush_area b B; Some (area_to_flush b'))
  = Some (mkArea 0 0 1 1) /\
  bounding_box_union A B = mkArea 0 0 2 2 /\
  in_area B 1 1 /\ ~ in_area (mkArea 0 0 1 1) 1 1 /\
  ('(_, b1) ← ply_video_buffer_fill_with_color COLOR_TO_PIXEL_VALUE_spec
                sync_succeeds (sample_buffer [1; 2; 3; 4] (mkArea 0 0 0 0) true)
                (Some A) 1 0 0 1;
   '(_, b2) ← ply_video_buffer_fill_with_color COLOR_TO_PIXEL_VALUE_spec
                sync_succeeds b1 (Some B) 1 0 0 1;
   Some (area_to_flush b2)) = Some (mkArea 0 0 1 1).
Proof.
  repeat split; try (vm_compute; reflexivity); unfold in_area; simpl; lia.
Qed.

(** C2.  The blend takes the red of its second operand from bit 26 upwards:
    the destinations 0xFFFF0000 (opaque red) and 0xFF000000 (opaque black)
    give the same result under every source and every packing, so no packing
    makes a transparent source leave both unchanged; bits 16-25 of the
    destination are never read. *)
Theorem blend_reads_destination_red_from_bit_26
  (M : float -> float -> float -> float -> Z) :
  (forall src, blend_two_pixel_values M src 0xFFFF0000
               = blend_two_pixel_values M src 0xFF000000) /\
  ~ (blend_two_pixel_values M 0 0xFFFF0000 = 0xFFFF0000 /\
     blend_two_pixel_values M 0 0xFF000000 = 0xFF000000) /\
  Z.land (Z.shiftr 0xFFFF0000 26) 255 = 63 /\
  Z.land (Z.shiftr 0xFFFF0000 16) 255 = 255.
Proof.
  assert (Hsame : forall src, blend_two_pixel_values M src 0xFFFF0000
                              = blend_two_pixel_values M src 0xFF000000)
    by (intros src; reflexivity).
  split; [exact Hsame|]. split; [|split; reflexivity].
  intros [Hred Hblack]. rewrite (Hsame 0), Hblack in Hred. discriminate Hred.
Qed.

(** With the packing of the spec, a transparent source turns opaque red into
    a dark red. *)
Example blend_transparent_over_red :
  blend_two_pixel_values COLOR_TO_PIXEL_VALUE_spec 0 0xFFFF0000 = 0xFF3F0000.
Proof. vm_compute. reflexivity. Qed.

(** C3.  On the sample surface (two pixels wide, four bytes per pixel, 32
    bits per pixel) with the left column (0, 0, 1, 2) to flush, the flush
    issues two writes.  The write for the pixel at row 1, column 0 goes to
    byte offset 8 but carries the pixel stored at index 1 of the shadow
    buffer (row times the width of the flushed area, plus column), not the
    pixel of that position, which is at index 1 * 2 + 0 = 2; and each write
    requests 32 bytes, the number of bits per pixel, not the 4 bytes of a
    pixel. *)
Theorem flush_reads_shadow_buffer_with_area_width :
  let b := sample_buffer [10; 20; 30; 40] (mkArea 0 0 1 2) false in
  ('(_, b') ← ply_video_buffer_flush sync_succeeds b; map_address b')
  = Some [mkWrite 0 10 32; mkWrite 8 20 32] /\
  ply_video_buffer_get_value_at_pixel b 0 1 = Some 30 /\
  shadow_buffer b !! Z.to_nat (1 * width (area b) + 0) = Some 30 /\
  ply_video_buffer_pixel_value_to_device_pixel_value b 30 = 30 /\
  ply_video_buffer_pixel_value_to_device_pixel_value b 20 = 20 /\
  bytes_per_pixel b = 4 /\ bits_per_pixel b = 32.
Proof. repeat split. Qed.

(** Seen from a caller: red drawn over the left column of a black surface
    reaches the device at (0, 0) only; the write for (0, 1) carries the
    black pixel next to it. *)
Example fill_left_column_red :
  let black := 0xFF000000 in
  let b := sample_buffer [black; black; black; black] (mkArea 0 0 0 0) false in
  ('(_, b') ← ply_video_buffer_fill_with_color COLOR_TO_PIXEL_VALUE_spec
                sync_succeeds b (Some (mkArea 0 0 1 2)) 1 0 0 1;
   Some (shadow_buffer b', map_address b'))
  = Some ([0xFFFF0000; black; 0xFFFF0000; black],
          Some [mkWrite 0 0xFFFF0000 32; mkWrite 8 black 32]).
Proof. vm_compute. reflexivity. Qed.

(** The row stride of the copy is the visible width times the bytes per
    pixel.  On the padded display the query derives four bytes per pixel, and
    the copy places row 1 at byte 5464 where the device has it at byte 5504,
    the line length. *)
Example padded_rows_are_not_the_stride :
  let b := sample_buffer [] (mkArea 0 0 0 0) false in
  ('(ok, b') ← ply_video_buffer_query_device
                 (Some padded_var_screeninfo) (Some padded_fix_screeninfo) b;
   Some (ok, bytes_per_pixel b', size b', device_offset b' 1 0))
  = Some (true, 4, 768 * 5504, 5464).
Proof. reflexivity. Qed.

(** C5.  With alpha 0.5 the test [abs (alpha - 1.0) <= DBL_MIN] succeeds,
    since [abs] works on the integer part of -0.5, and the fill takes the
    overwriting path: for every packing and whatever the four pixels of the
    sample surface held, each ends up as the packed colour itself.  The
    blending path is taken for alpha 0.0. *)
Theorem fill_with_color_half_alpha_overwrites
  (M : float -> float -> float -> float -> Z) (p0 p1 p2 p3 : Z) :
  let b := sample_buffer [p0; p1; p2; p3] (mkArea 0 0 0 0) false in
  let v := uint32 (M (1 * 0.5)%float (0 * 0.5)%float (0 * 0.5)%float 0.5%float) in
  alpha_is_opaque 0.5 = true /\
  Double.to_int (0.5 - 1)%float = 0 /\
  ('(_, b') ← ply_video_buffer_fill_with_color M sync_succeeds b None 1 0 0 0.5;
   Some (shadow_buffer b')) = Some [v; v; v; v] /\
  alpha_is_opaque 0 = false.
Proof. repeat split. Qed.

(** With the packing of the spec: half-transparent red over opaque blue
    stores the premultiplied red, and nothing of the blue is left. *)
Example fill_half_red_over_blue :
  let blue := 0xFF0000FF in
  let b := sample_buffer [blue; blue; blue; blue] (mkArea 0 0 0 0) false in
  ('(_, b') ← ply_video_buffer_fill_with_color COLOR_TO_PIXEL_VALUE_spec
                sync_succeeds b None 1 0 0 0.5;
   Some (shadow_buffer b'))
  = Some [0x7F7F0000; 0x7F7F0000; 0x7F7F0000; 0x7F7F0000].
Proof. vm_compute. reflexivity. Qed.

(** * Further properties of the source *)

(** ** Access to the shadow buffer *)

Lemma pixel_index_in_int_range (b : PlyVideoBuffer) (column row : Z) :
  0 <= width (area b) < 2 ^ 31 ->
  0 <= column < 2 ^ 31 -> 0 <= row < 2 ^ 31 ->
  pixel_index b column row = row * width (area b) + column.
Proof.
  intros HW Hc Hr. unfold pixel_index.
  rewrite !to_int_small by lia.
  rewrite (ulong_small row), (ulong_small column) by lia.
  assert (0 <= row * width (area b) < 2 ^ 62) by nia.
  rewrite (ulong_small (row * _)) by lia.
  apply ulong_small. lia.
Qed.

(** X1.  On a surface whose shadow buffer has one entry per pixel, setting a
    pixel of the surface returns; the pixel then reads back as the value
    set, every other pixel of the surface reads as before, and no other
    member of the buffer changes. *)
Theorem set_value_at_pixel_then_get (b : PlyVideoBuffer) (column row v : Z) :
  shadow_matches_surface b -> on_surface b column row ->
  exists b',
    ply_video_buffer_set_value_at_pixel b column row v = Some b' /\
    ply_video_buffer_get_value_at_pixel b' column row = Some v /\
    (forall column' row', on_surface b column' row' ->
       (column', row') <> (column, row) ->
       ply_video_buffer_get_value_at_pixel b' column' row'
       = ply_video_buffer_get_value_at_pixel b column' row') /\
    b' = set_shadow_buffer b (shadow_buffer b') /\
    length (shadow_buffer b') = length (shadow_buffer b).
Proof.
  intros (HW & HH & Hlen) [Hc Hr].
  pose proof (pixel_index_bound b column row Hc Hr) as Hi.
  eexists. split.
  - rewrite <- (set_shadow_buffer_id b) at 1.
    apply set_value_at_pixel_on_surface; assumption.
  - split; [|split; [|split]].
    + rewrite get_value_at_pixel_on_surface by (simpl; assumption). simpl.
      apply list_lookup_insert_eq. lia.
    + intros column' row' [Hc' Hr'] Hne.
      rewrite !get_value_at_pixel_on_surface by (simpl; assumption). simpl.
      apply list_lookup_insert_ne. intros Heq. apply Hne.
      destruct (pixel_index_injective (width (area b)) column row column' row'
                  Hc Hc' ltac:(lia) ltac:(lia) (eq_sym Heq)) as [-> ->].
      reflexivity.
    + reflexivity.
    + simpl. apply length_insert.
Qed.

Lemma set_value_at_pixel_then_get_witness :
  let b := sample_buffer [1; 2; 3; 4] (mkArea 0 0 0 0) false in
  shadow_matches_surface b /\ on_surface b 1 0 /\
  exists b',
    ply_video_buffer_set_value_at_pixel b 1 0 9 = Some b' /\
    ply_video_buffer_get_value_at_pixel b' 1 0 = Some 9 /\
    (forall column' row', on_surface b column' row' ->
       (column', row') <> (1, 0) ->
       ply_video_buffer_get_value_at_pixel b' column' row'
       = ply_video_buffer_get_value_at_pixel b column' row') /\
    b' = set_shadow_buffer b (shadow_buffer b') /\
    length (shadow_buffer b') = length (shadow_buffer b).
Proof.
  intros b.
  assert (Hs : shadow_matches_surface b)
    by (unfold shadow_matches_surface; simpl; repeat split; lia).
  assert (Hp : on_surface b 1 0) by (unfold on_surface; simpl; lia).
  split; [exact Hs|]. split; [exact Hp|].
  exact (set_value_at_pixel_then_get b 1 0 9 Hs Hp).
Defined.

(** X2.  The accessors do not check their coordinates against the surface.
    A column one surface width too far to the right addresses the word of the
    pixel one row further down: where that row is on the surface, reading
    there gives that pixel and writing there overwrites it.  For a row at or
    below the bottom of the surface the index the accessors compute is at or
    past the end of the shadow buffer. *)
Theorem value_at_pixel_outside_surface (b : PlyVideoBuffer) (column row v : Z) :
  shadow_matches_surface b ->
  0 <= column < width (area b) -> 0 <= row < 2 ^ 31 - 1 ->
  column + width (area b) < 2 ^ 31 ->
  pixel_index b (column + width (area b)) row = pixel_index b column (row + 1) /\
  (row + 1 < height (area b) ->
   exists old b',
     ply_video_buffer_get_value_at_pixel b column (row + 1) = Some old /\
     ply_video_buffer_get_value_at_pixel b (column + width (area b)) row
     = Some old /\
     ply_video_buffer_set_value_at_pixel b (column + width (area b)) row v
     = Some b' /\
     ply_video_buffer_get_value_at_pixel b' column (row + 1) = Some v) /\
  (height (area b) <= row ->
   Z.of_nat (length (shadow_buffer b)) <= pixel_index b column row).
Proof.
  intros (HW & HH & Hlen) Hc Hr Hcw.
  assert (Halias : pixel_index b (column + width (area b)) row
                   = pixel_index b column (row + 1)).
  { rewrite !pixel_index_in_int_range by lia. lia. }
  split; [exact Halias|]. split.
  - intros Hrow.
    pose proof (pixel_index_bound b column (row + 1) Hc ltac:(lia)) as Hi.
    destruct (lookup_lt_is_Some_2 (shadow_buffer b)
                (Z.to_nat ((row + 1) * width (area b) + column)))
      as [old Hold]; [lia|].
    assert (Hget : ply_video_buffer_get_value_at_pixel b column (row + 1) = Some old).
    { rewrite get_value_at_pixel_on_surface by lia. exact Hold. }
    exists old. eexists. split; [exact Hget|]. split; [|split].
    + unfold ply_video_buffer_get_value_at_pixel in *. rewrite Halias. exact Hget.
    + unfold ply_video_buffer_set_value_at_pixel. rewrite Halias.
      rewrite pixel_index_in_int_range by lia.
      case_decide; [reflexivity|lia].
    + rewrite get_value_at_pixel_on_surface by (simpl; lia). simpl.
      apply list_lookup_insert_eq. lia.
  - intros Hrow. rewrite pixel_index_in_int_range by lia. rewrite Hlen. nia.
Qed.

Lemma value_at_pixel_outside_surface_witness :
  let b := sample_buffer [1; 2; 3; 4] (mkArea 0 0 0 0) false in
  shadow_matches_surface b /\ 0 <= 1 < width (area b) /\ 0 <= 0 < 2 ^ 31 - 1 /\
  1 + width (area b) < 2 ^ 31 /\ 0 + 1 < height (area b) /\
  pixel_index b (1 + width (area b)) 0 = pixel_index b 1 (0 + 1) /\
  exists old b',
    ply_video_buffer_get_value_at_pixel b 1 (0 + 1) = Some old /\
    ply_video_buffer_get_value_at_pixel b (1 + width (area b)) 0 = Some old /\
    ply_video_buffer_set_value_at_pixel b (1 + width (area b)) 0 9 = Some b' /\
    ply_video_buffer_get_value_at_pixel b' 1 (0 + 1) = Some 9.
Proof.
  intros b.
  assert (Hs : shadow_matches_surface b)
    by (unfold shadow_matches_surface; simpl; repeat split; lia).
  assert (H1 : 0 <= 1 < width (area b)) by (simpl; lia).
  assert (H2 : 0 <= 0 < 2 ^ 31 - 1) by lia.
  assert (H3 : 1 + width (area b) < 2 ^ 31) by (simpl; lia).
  assert (H4 : 0 + 1 < height (area b)) by (simpl; lia).
  destruct (value_at_pixel_outside_surface b 1 0 9 Hs H1 H2 H3)
    as (Halias & Hnext & _).
  split; [exact Hs|]. split; [exact H1|]. split; [exact H2|]. split; [exact H3|].
  split; [exact H4|]. split; [exact Halias|]. exact (Hnext H4).
Defined.

(** A row below the sample surface: the index of (1, 2) is 5, past the four
    entries of the shadow buffer. *)
Example row_below_the_surface :
  pixel_index (sample_buffer [1; 2; 3; 4] (mkArea 0 0 0 0) false) 1 2 = 5.
Proof. reflexivity. Qed.

(** The stray column of the sample surface: (3, 0) is the pixel (1, 1). *)
Example column_past_the_row_end :
  ply_video_buffer_get_value_at_pixel
    (sample_buffer [1; 2; 3; 4] (mkArea 0 0 0 0) false) 3 0 = Some 4.
Proof. reflexivity. Qed.

(** ** What a fill leaves alone *)

(** X3.  Whatever the alpha, a fill of an area of an open buffer returns and
    leaves every pixel of the surface outside the area as it was. *)
Theorem fill_with_color_keeps_pixels_outside
  (M : float -> float -> float -> float -> Z) (msync : Z -> Z -> Z)
  (b : PlyVideoBuffer) (area' : option PlyVideoBufferArea)
  (red green blue alpha : float) :
  open_buffer b -> area_on_surface b (default (area b) area') ->
  exists ok b',
    ply_video_buffer_fill_with_color M msync b area' red green blue alpha
    = Some (ok, b') /\
    forall column row, on_surface b column row ->
      ~ in_area (default (area b) area') column row ->
      ply_video_buffer_get_value_at_pixel b' column row
      = ply_video_buffer_get_value_at_pixel b column row.
Proof.
  intros Hb Ha.
  set (a := default (area b) area') in *.
  set (v := uint32 (M (red * alpha)%float (green * alpha)%float
                      (blue * alpha)%float alpha)).
  assert (Hs : exists s',
             painted M b a red green blue alpha = Some (set_shadow_buffer b s') /\
             length s' = length (shadow_buffer b) /\
             forall column row, on_surface b column row -> ~ in_area a column row ->
               s' !! Z.to_nat (row * width (area b) + column)
               = shadow_buffer b !! Z.to_nat (row * width (area b) + column)).
  { unfold painted. fold v. destruct (alpha_is_opaque alpha).
    - destruct (set_area_to_pixel_value_overwrites b a v)
        as (t & Hrun & s' & -> & Hlen & Hs');
        [now apply open_buffer_shadow_matches|exact Ha|].
      exists s'. split; [exact Hrun|]. split; [exact Hlen|].
      intros column row Hon Hout.
      destruct (Hs' column row Hon) as [(Hin & _)|(_ & Hval)];
        [contradiction|exact Hval].
    - destruct (blend_area_with_pixel_value_blends M b a v)
        as (t & Hrun & s' & -> & Hlen & Hs'); try apply Hb; [exact Ha|].
      exists s'. split; [exact Hrun|]. split; [exact Hlen|].
      intros column row [Hc Hr] Hout.
      destruct (Hs' column row Hc Hr) as (old & Hold & [(Hin & _)|(_ & Hval)]);
        [contradiction|congruence]. }
  destruct Hs as (s' & Hpaint & Hlen & Hs').
  pose proof (open_buffer_after_draw b a s' Hb Ha Hlen) as Hb'.
  destruct (open_buffer_mapped _ Hb') as [log Hmap].
  assert (Hflush : exists ok b',
             ply_video_buffer_flush msync
               (set_area_to_flush (set_shadow_buffer b s')
                  (merged_area (area_to_flush b) a)) = Some (ok, b') /\
             shadow_buffer b' = s' /\ area b' = area b).
  { destruct (is_paused b) eqn:Hpaused.
    - eexists. eexists.
      split; [unfold ply_video_buffer_flush; simpl; rewrite Hpaused; reflexivity|].
      split; reflexivity.
    - destruct (flush_unpaused msync _ log Hb' Hpaused Hmap) as (log' & _ & Hf).
      unfold flush_outcome in Hf.
      destruct (flush_sync msync _ <? 0); eexists; eexists;
        (split; [exact Hf|split; reflexivity]). }
  destruct Hflush as (ok & b' & Hflush & Hsh & Har).
  exists ok, b'. split.
  - rewrite (fill_with_color_steps M msync b area' red green blue alpha s'
               Hb Ha Hpaint).
    exact Hflush.
  - intros column row Hon Hout. pose proof Hon as [Hc Hr].
    rewrite !get_value_at_pixel_on_surface; rewrite ?Har; try apply Hb; try lia.
    rewrite Hsh. now apply Hs'.
Qed.

Lemma fill_with_color_keeps_pixels_outside_witness :
  let b := sample_buffer [1; 2; 3; 4] (mkArea 0 0 0 0) false in
  let M := COLOR_TO_PIXEL_VALUE_spec in
  let msync := sync_succeeds in
  let area' := Some (mkArea 1 0 1 2) in
  open_buffer b /\ area_on_surface b (default (area b) area') /\
  exists ok b',
    ply_video_buffer_fill_with_color M msync b area' 1 0 0 0.5 = Some (ok, b') /\
    forall column row, on_surface b column row ->
      ~ in_area (default (area b) area') column row ->
      ply_video_buffer_get_value_at_pixel b' column row
      = ply_video_buffer_get_value_at_pixel b column row.
Proof.
  intros b M msync area'.
  assert (Hb : open_buffer b) by sample_is_open.
  assert (Ha : area_on_surface b (default (area b) area'))
    by (unfold area_on_surface; simpl; lia).
  split; [exact Hb|]. split; [exact Ha|].
  exact (fill_with_color_keeps_pixels_outside M msync b area' 1 0 0 0.5 Hb Ha).
Defined.

Lemma fill_with_color_blends_when_not_opaque_witness :
  let b := sample_buffer [1; 2; 3; 4] (mkArea 0 0 0 0) false in
  let M := COLOR_TO_PIXEL_VALUE_spec in
  let msync := sync_succeeds in
  let area' := Some (mkArea 1 0 1 2) in
  open_buffer b /\ area_on_surface b (default (area b) area') /\
  opacity_test_defined 0 /\ alpha_is_opaque 0 = false /\
  exists ok b',
    ply_video_buffer_fill_with_color M msync b area' 1 0 0 0 = Some (ok, b') /\
    forall column row,
      0 <= column < width (area b) -> 0 <= row < height (area b) ->
      exists old,
        ply_video_buffer_get_value_at_pixel b column row = Some old /\
        ply_video_buffer_get_value_at_pixel b' column row
        = Some (if bool_decide (in_area (default (area b) area') column row)
                then blend_two_pixel_values M
                       (uint32 (M (1 * 0)%float (0 * 0)%float (0 * 0)%float 0%float))
                       old
                else old).
Proof.
  intros b M msync area'.
  assert (Hb : open_buffer b) by sample_is_open.
  assert (Ha : area_on_surface b (default (area b) area'))
    by (unfold area_on_surface; simpl; lia).
  assert (Hdef : opacity_test_defined 0) by reflexivity.
  assert (Halpha : alpha_is_opaque 0 = false) by reflexivity.
  split; [exact Hb|]. split; [exact Ha|]. split; [exact Hdef|].
  split; [exact Halpha|].
  exact (fill_with_color_blends_when_not_opaque M msync b area' 1 0 0 0
           Hb Ha Hdef Halpha).
Defined.

(** ** Drawing pixel data *)

(** X5.  A data draw call on an open buffer returns.  The pixel of the
    surface [i] columns and [j] rows from the origin of the area, for [i]
    below the width and [j] below the height of the data rectangle, becomes
    the blend, over what it held, of the entry of [data] at index
    [width * (y + j) + (x + i)] made translucent; every other pixel of the
    surface keeps its value. *)
Theorem fill_with_argb32_data_composites
  (M : float -> float -> float -> float -> Z) (msync : Z -> Z -> Z)
  (b : PlyVideoBuffer) (area' : option PlyVideoBufferArea)
  (x' y' width' height' : Z) (data : list Z) (opacity : float) :
  open_buffer b -> area_on_surface b (default (area b) area') ->
  data_fits b (default (area b) area') x' y' width' height' data ->
  exists ok b',
    ply_video_buffer_fill_with_argb32_data_at_opacity M msync b area'
      x' y' width' height' data opacity = Some (ok, b') /\
    forall column row, on_surface b column row ->
      exists old,
        ply_video_buffer_get_value_at_pixel b column row = Some old /\
        ((in_area (data_target (default (area b) area') width' height') column row /\
          exists d,
            data_source (default (area b) area') x' y' width' data column row
            = Some d /\
            ply_video_buffer_get_value_at_pixel b' column row
            = Some (blend_two_pixel_values M
                      (make_pixel_value_translucent M d opacity) old)) \/
         (~ in_area (data_target (default (area b) area') width' height') column row /\
          ply_video_buffer_get_value_at_pixel b' column row = Some old)).
Proof.
  intros Hb Ha Hdata.
  set (a := default (area b) area') in *.
  destruct (blend_data_onto_area_composites M b a x' y' width' height' data opacity)
    as (t & Hrun & s' & -> & Hlen & Hs');
    [now apply open_buffer_shadow_matches|apply Ha|apply Ha|exact Hdata|].
  pose proof (open_buffer_after_draw b a s' Hb Ha Hlen) as Hb'.
  destruct (open_buffer_mapped _ Hb') as [log Hmap].
  assert (Hflush : exists ok b',
             ply_video_buffer_flush msync
               (set_area_to_flush (set_shadow_buffer b s')
                  (merged_area (area_to_flush b) a)) = Some (ok, b') /\
             shadow_buffer b' = s' /\ area b' = area b).
  { destruct (is_paused b) eqn:Hpaused.
    - eexists. eexists.
      split; [unfold ply_video_buffer_flush; simpl; rewrite Hpaused; reflexivity|].
      split; reflexivity.
    - destruct (flush_unpaused msync _ log Hb' Hpaused Hmap) as (log' & _ & Hf).
      unfold flush_outcome in Hf.
      destruct (flush_sync msync _ <? 0); eexists; eexists;
        (split; [exact Hf|split; reflexivity]). }
  destruct Hflush as (ok & b' & Hflush & Hsh & Har).
  exists ok, b'. split.
  - unfold ply_video_buffer_fill_with_argb32_data_at_opacity.
    rewrite (ob_open b Hb). simpl. fold a. rewrite Hrun. simpl.
    rewrite add_area_to_flush_area_accepted
      by (now apply (area_on_surface_accepted b)).
    simpl. exact Hflush.
  - intros column row Hon. pose proof Hon as [Hc Hr].
    destruct (Hs' column row Hon) as (old & Hold & Hcase).
    exists old.
    rewrite !get_value_at_pixel_on_surface; rewrite ?Har; try apply Hb; try lia.
    split; [exact Hold|]. rewrite Hsh.
    destruct Hdata as (Hx & Hy & Hw & Hh & _ & _ & _ & _ & Hdr & Hdb).
    destruct Hcase as [(Hin & _ & d & Hd & Hval)|(Hnot & Hval)].
    + left. split; [exact Hin|]. exists d. split; [exact Hd|exact Hval].
    + right. split; [|exact Hval]. intros Hin. apply Hnot. split; [exact Hin|].
      destruct Hin as [Hcin Hrin]. simpl in Hcin, Hrin. lia.
Qed.

Lemma fill_with_argb32_data_composites_witness :
  let b := sample_buffer [1; 2; 3; 4] (mkArea 0 0 0 0) false in
  let M := COLOR_TO_PIXEL_VALUE_spec in
  let msync := sync_succeeds in
  let area' := Some (mkArea 1 0 1 2) in
  let data := [0x80FF0000; 0xFF00FF00; 7] in
  open_buffer b /\ area_on_surface b (default (area b) area') /\
  data_fits b (default (area b) area') 0 0 1 2 data /\
  exists ok b',
    ply_video_buffer_fill_with_argb32_data_at_opacity M msync b area'
      0 0 1 2 data 1 = Some (ok, b') /\
    forall column row, on_surface b column row ->
      exists old,
        ply_video_buffer_get_value_at_pixel b column row = Some old /\
        ((in_area (data_target (default (area b) area') 1 2) column row /\
          exists d,
            data_source (default (area b) area') 0 0 1 data column row = Some d /\
            ply_video_buffer_get_value_at_pixel b' column row
            = Some (blend_two_pixel_values M
                      (make_pixel_value_translucent M d 1) old)) \/
         (~ in_area (data_target (default (area b) area') 1 2) column row /\
          ply_video_buffer_get_value_at_pixel b' column row = Some old)).
Proof.
  intros b M msync area' data.
  assert (Hb : open_buffer b) by sample_is_open.
  assert (Ha : area_on_surface b (default (area b) area'))
    by (unfold area_on_surface; simpl; lia).
  assert (Hd : data_fits b (default (area b) area') 0 0 1 2 data)
    by (unfold data_fits; simpl; lia).
  split; [exact Hb|]. split; [exact Ha|]. split; [exact Hd|].
  exact (fill_with_argb32_data_composites M msync b area' 0 0 1 2 data 1 Hb Ha Hd).
Defined.

(** ** The writes of a flush *)

Lemma pixels_before_start (fx fy fw : Z) : pixels_before fx fy fw fy fx = [].
Proof.
  unfold pixels_before.
  rewrite (seqZ_nil fy (fy - fy)), (seqZ_nil fx (fx - fx)) by lia. reflexivity.
Qed.

Lemma pixels_before_next_column (fx fy fw r c : Z) :
  fx <= c ->
  pixels_before fx fy fw r (c + 1) = pixels_before fx fy fw r c ++ [(r, c)].
Proof.
  intros Hc. unfold pixels_before.
  replace (c + 1 - fx) with ((c - fx) + 1) by lia.
  rewrite seqZ_app by lia. rewrite fmap_app, app_assoc. f_equal.
  replace (fx + (c - fx)) with c by lia.
  rewrite seqZ_cons by lia. now rewrite seqZ_nil by lia.
Qed.

Lemma pixels_before_next_row (fx fy fw r : Z) :
  fy <= r -> 0 <= fw ->
  pixels_before fx fy fw r (fx + fw) = pixels_before fx fy fw (r + 1) fx.
Proof.
  intros Hr Hw. unfold pixels_before.
  replace (r + 1 - fy) with ((r - fy) + 1) by lia.
  rewrite seqZ_app by lia. rewrite bind_app.
  replace (fy + (r - fy)) with r by lia.
  rewrite (seqZ_cons r 1) by lia. rewrite (seqZ_nil _ (Z.pred 1)) by lia.
  rewrite bind_singleton.
  replace (fx + fw - fx) with fw by lia.
  rewrite (seqZ_nil fx (fx - fx)) by lia. simpl. now rewrite app_nil_r.
Qed.

Lemma area_pixels_before (a : PlyVideoBufferArea) :
  area_pixels a = pixels_before (x a) (y a) (width a) (y a + height a) (x a).
Proof.
  unfold area_pixels, pixels_before.
  replace (y a + height a - y a) with (height a) by lia.
  rewrite (seqZ_nil (x a) (x a - x a)) by lia. simpl. now rewrite app_nil_r.
Qed.

Lemma length_area_pixels (a : PlyVideoBufferArea) :
  0 <= width a -> 0 <= height a ->
  length (area_pixels a) = Z.to_nat (width a * height a).
Proof.
  intros Hw Hh. unfold area_pixels.
  assert (Hrows : forall n m, length (seqZ m (Z.of_nat n) ≫=
                    λ row, (λ column, (row, column)) <$> seqZ (x a) (width a))
                  = (n * Z.to_nat (width a))%nat).
  { induction n as [|n IH]; intros m.
    - reflexivity.
    - rewrite (seqZ_cons m) by lia.
      rewrite bind_cons, length_app, length_fmap, length_seqZ.
      replace (Z.pred (Z.of_nat (S n))) with (Z.of_nat n) by lia.
      rewrite IH. lia. }
  rewrite <- (Z2Nat.id (height a)) at 1 by exact Hh.
  rewrite Hrows. nia.
Qed.

Lemma copy_to_device_writes_in_order (msync : Z -> Z -> Z) (b : PlyVideoBuffer)
  (log : list DeviceWrite) (fx fy fw fh : Z) :
  map_address b = Some log ->
  shadow_matches_surface b ->
  0 <= fx -> 0 <= fy -> 0 <= fw -> 0 <= fh ->
  fx + fw <= width (area b) -> fy + fh <= height (area b) ->
  exists ok t,
    ply_video_buffer_copy_to_device msync b fx fy fw fh = Some (ok, t) /\
    written_in_order b log fx fy fw (fy + fh) fx t.
Proof.
  intros Hmap (HW & HH & Hlen) Hx Hy Hw Hh Hr Hb.
  unfold ply_video_buffer_copy_to_device.
  rewrite (ulong_small (fy + fh)), (ulong_small (fx + fw)) by lia.
  destruct (for_loop_invariant (fun r t => written_in_order b log fx fy fw r fx t)
              (fun row u => for_loop fx (fx + fw)
                 (fun column u =>
                    copy_pixel u fw (ulong (width (area b) * bytes_per_pixel b))
                      row column) u)
              fy (fy + fh) b) as (t & Hrun & Ht); [lia| | |].
  - exists []. split.
    + rewrite app_nil_r, <- Hmap. now destruct b.
    + rewrite pixels_before_start. constructor.
  - intros row t Hrow Ht.
    destruct (for_loop_invariant
                (fun c u => written_in_order b log fx fy fw row c u)
                (fun column u =>
                   copy_pixel u fw (ulong (width (area b) * bytes_per_pixel b))
                     row column)
                fx (fx + fw) t) as (u & Hrun & Hu); [lia|exact Ht| |].
    + intros column u Hcol (log' & -> & Hlog').
      destruct (device_write_for_defined b fx fy fw fh row column)
        as (pv & _ & Hw'); try assumption.
      eexists. split.
      * rewrite (copy_pixel_writes _ _ _ _ _ _ Hw'). reflexivity.
      * eexists. split; [now rewrite <- app_assoc|].
        rewrite pixels_before_next_column by lia.
        apply Forall2_app; [exact Hlog'|].
        constructor; [exact Hw'|constructor].
    + exists u. split; [exact Hrun|].
      destruct Hu as (log' & -> & Hlog').
      exists log'. split; [reflexivity|].
      now rewrite <- pixels_before_next_row by lia.
  - simpl in Hrun. rewrite Hrun. simpl.
    destruct (msync _ _ <? 0); eexists; eexists; (split; [reflexivity|exact Ht]).
Qed.

(** X6.  An unpaused flush of an open buffer appends to the writes already
    made exactly one write per pixel of the area to flush, row by row from
    the top and from left to right, each of [bits_per_pixel] bytes at the
    offset of its pixel; the earlier writes stay in place, and the writes
    are made whether or not the synchronization then succeeds. *)
Theorem flush_writes_each_pixel_once (msync : Z -> Z -> Z) (b : PlyVideoBuffer)
  (log : list DeviceWrite) :
  open_buffer b -> is_paused b = false -> map_address b = Some log ->
  exists ok b' log',
    ply_video_buffer_flush msync b = Some (ok, b') /\
    map_address b' = Some (log ++ log') /\
    writes_of b (width (area_to_flush b)) (area_pixels (area_to_flush b)) log' /\
    length log'
    = Z.to_nat (width (area_to_flush b) * height (area_to_flush b)) /\
    (forall w, w ∈ log' -> wr_length w = bits_per_pixel b).
Proof.
  intros Hb Hrun Hmap.
  destruct (copy_to_device_writes_in_order msync b log
              (x (area_to_flush b)) (y (area_to_flush b))
              (width (area_to_flush b)) (height (area_to_flush b)) Hmap)
    as (ok & t & Hcopy & log' & -> & Hlog');
    [now apply open_buffer_shadow_matches|apply Hb..|].
  rewrite <- area_pixels_before in Hlog'.
  assert (Hres : exists b', ply_video_buffer_flush msync b = Some (ok, b') /\
                            map_address b' = Some (log ++ log')).
  { unfold ply_video_buffer_flush. rewrite Hrun, Hcopy. simpl.
    destruct ok; simpl; eexists; (split; [reflexivity|reflexivity]). }
  destruct Hres as (b' & Hflush & Hmap').
  exists ok, b', log'. split; [exact Hflush|]. split; [exact Hmap'|].
  split; [exact Hlog'|]. split.
  - rewrite <- (Forall2_length _ _ _ Hlog'). apply length_area_pixels; apply Hb.
  - intros w Hw. unfold writes_of in Hlog'.
    apply list_elem_of_lookup in Hw as [i Hi].
    destruct (Forall2_lookup_r _ _ _ _ _ Hlog' Hi) as (p & _ & Hp).
    unfold device_write_for in Hp.
    destruct (shadow_buffer b !! _); simpl in Hp; [|discriminate].
    injection Hp as <-. reflexivity.
Qed.

Lemma flush_writes_each_pixel_once_witness :
  let b := sample_buffer [1; 2; 3; 4] (mkArea 0 0 2 1) false in
  let msync := sync_fails in
  open_buffer b /\ is_paused b = false /\ map_address b = Some [] /\
  exists ok b' log',
    ply_video_buffer_flush msync b = Some (ok, b') /\
    map_address b' = Some ([] ++ log') /\
    writes_of b (width (area_to_flush b)) (area_pixels (area_to_flush b)) log' /\
    length log'
    = Z.to_nat (width (area_to_flush b) * height (area_to_flush b)) /\
    (forall w, w ∈ log' -> wr_length w = bits_per_pixel b).
Proof.
  intros b msync.
  assert (Hb : open_buffer b) by sample_is_open.
  split; [exact Hb|]. split; [reflexivity|]. split; [reflexivity|].
  exact (flush_writes_each_pixel_once msync b [] Hb eq_refl eq_refl).
Defined.

(** The two writes of the top row of the sample surface, made although the
    synchronization fails. *)
Example flush_top_row_of_sample :
  ply_video_buffer_flush sync_fails
    (sample_buffer [1; 2; 3; 4] (mkArea 0 0 2 1) false)
  = Some (false, set_map_address
                   (sample_buffer [1; 2; 3; 4] (mkArea 0 0 2 1) false)
                   (Some [mkWrite 0 1 32; mkWrite 4 2 32])).
Proof. reflexivity. Qed.


Lemma flush_keeps_open_buffer (msync : Z -> Z -> Z) (b : PlyVideoBuffer) :
  open_buffer b ->
  exists ok b' m a,
    ply_video_buffer_flush msync b = Some (ok, b') /\
    b' = set_area_to_flush (set_map_address b m) a /\
    open_buffer b'.
Proof.
  intros Hb. destruct (is_paused b) eqn:Hpaused.
  - exists true, b, (map_address b), (area_to_flush b).
    split; [unfold ply_video_buffer_flush; now rewrite Hpaused|].
    split; [now destruct b|exact Hb].
  - destruct (open_buffer_mapped b Hb) as [log Hmap].
    destruct (flush_unpaused msync b log Hb Hpaused Hmap) as (log' & _ & Hflush).
    unfold flush_outcome in Hflush.
    destruct (flush_sync msync b <? 0).
    + exists false, (set_map_address b (Some (log ++ log'))),
        (Some (log ++ log')), (area_to_flush b).
      split; [exact Hflush|]. split; [reflexivity|].
      apply (open_buffer_frame b); try reflexivity; [exact Hb|]. simpl. congruence.
    + exists true,
        (set_area_to_flush (set_map_address b (Some (log ++ log'))) (mkArea 0 0 0 0)),
        (Some (log ++ log')), (mkArea 0 0 0 0).
      split; [exact Hflush|]. split; [reflexivity|].
      pose proof (ob_open b Hb) as Hopen.
      unfold ply_video_buffer_device_is_open in Hopen.
      apply andb_true_iff in Hopen as [Hfd _].
      destruct Hb. constructor; simpl; try lia; try assumption.
      unfold ply_video_buffer_device_is_open. simpl. rewrite Hfd. reflexivity.
Qed.



(** X8.  A flush of an open buffer returns, and changes nothing but the
    mapped memory and the area to flush: the shadow buffer, the surface, the
    pixel format, the descriptor and the paused flag are as before. *)
Theorem flush_changes_only_device_and_area (msync : Z -> Z -> Z)
  (b : PlyVideoBuffer) :
  open_buffer b ->
  exists ok b' m a,
    ply_video_buffer_flush msync b = Some (ok, b') /\
    b' = set_area_to_flush (set_map_address b m) a.
Proof.
  intros Hb.
  destruct (flush_keeps_open_buffer msync b Hb) as (ok & b' & m & a & Hf & Heq & _).
  now exists ok, b', m, a.
Qed.

Lemma flush_changes_only_device_and_area_witness :
  let b := sample_buffer [1; 2; 3; 4] (mkArea 0 0 2 2) false in
  open_buffer b /\
  exists ok b' m a,
    ply_video_buffer_flush sync_fails b = Some (ok, b') /\
    b' = set_area_to_flush (set_map_address b m) a.
Proof.
  intros b.
  assert (Hb : open_buffer b) by sample_is_open.
  split; [exact Hb|].
  exact (flush_changes_only_device_and_area sync_fails b Hb).
Defined.

(** ** The invariant of the draw calls *)

(** X9.  Both draw calls keep an open buffer open: on an area of the
    surface they return, and the buffer they hand back is again an open
    buffer, with the area to flush on the surface and the shadow buffer of
    the size of the surface, so that any further draw call on the surface
    returns as well. *)
Theorem draw_calls_keep_the_buffer_open
  (M : float -> float -> float -> float -> Z) (msync : Z -> Z -> Z)
  (b : PlyVideoBuffer) (area' : option PlyVideoBufferArea) :
  open_buffer b -> area_on_surface b (default (area b) area') ->
  (forall red green blue alpha, exists ok b',
     ply_video_buffer_fill_with_color M msync b area' red green blue alpha
     = Some (ok, b') /\
     open_buffer b' /\ area b' = area b) /\
  (forall x' y' width' height' data opacity,
     data_fits b (default (area b) area') x' y' width' height' data ->
     exists ok b',
       ply_video_buffer_fill_with_argb32_data_at_opacity M msync b area'
         x' y' width' height' data opacity = Some (ok, b') /\
       open_buffer b' /\ area b' = area b).
Proof.
  intros Hb Ha. set (a := default (area b) area') in *. split.
  - intros red green blue alpha.
    destruct (painted_runs M b a red green blue alpha Hb Ha) as (s' & Hpaint & Hlen).
    pose proof (open_buffer_after_draw b a s' Hb Ha Hlen) as Hb'.
    destruct (flush_keeps_open_buffer msync _ Hb')
      as (ok & b' & m & f & Hflush & -> & Hopen).
    exists ok. eexists. split; [|split; [exact Hopen|reflexivity]].
    rewrite (fill_with_color_steps M msync b area' red green blue alpha s'
               Hb Ha Hpaint).
    exact Hflush.
  - intros x' y' width' height' data opacity Hdata.
    destruct (blend_data_onto_area_runs M b a x' y' width' height' data opacity)
      as (s' & Hrun & Hlen); try apply Hb; try apply Ha; [exact Hdata|].
    pose proof (open_buffer_after_draw b a s' Hb Ha Hlen) as Hb'.
    destruct (flush_keeps_open_buffer msync _ Hb')
      as (ok & b' & m & f & Hflush & -> & Hopen).
    exists ok. eexists. split; [|split; [exact Hopen|reflexivity]].
    unfold ply_video_buffer_fill_with_argb32_data_at_opacity.
    rewrite (ob_open b Hb). simpl. fold a. rewrite Hrun. simpl.
    rewrite add_area_to_flush_area_accepted
      by (now apply (area_on_surface_accepted b)).
    simpl. exact Hflush.
Qed.

Lemma draw_calls_keep_the_buffer_open_witness :
  let b := sample_buffer [1; 2; 3; 4] (mkArea 0 0 1 1) true in
  let M := COLOR_TO_PIXEL_VALUE_spec in
  let msync := sync_fails in
  let area' := Some (mkArea 1 1 1 1) in
  open_buffer b /\ area_on_surface b (default (area b) area') /\
  (forall red green blue alpha, exists ok b',
     ply_video_buffer_fill_with_color M msync b area' red green blue alpha
     = Some (ok, b') /\
     open_buffer b' /\ area b' = area b) /\
  (forall x' y' width' height' data opacity,
     data_fits b (default (area b) area') x' y' width' height' data ->
     exists ok b',
       ply_video_buffer_fill_with_argb32_data_at_opacity M msync b area'
         x' y' width' height' data opacity = Some (ok, b') /\
       open_buffer b' /\ area b' = area b).
Proof.
  intros b M msync area'.
  assert (Hb : open_buffer b) by sample_is_open.
  assert (Ha : area_on_surface b (default (area b) area'))
    by (unfold area_on_surface; simpl; lia).
  split; [exact Hb|]. split; [exact Ha|].
  exact (draw_calls_keep_the_buffer_open M msync b area' Hb Ha).
Defined.

(** ** Areas added one after the other *)

Lemma widest_cons (a : PlyVideoBufferArea) (l : list PlyVideoBufferArea) :
  widest (a :: l) = Z.max (width a) (widest l).
Proof. reflexivity. Qed.

Lemma highest_cons (a : PlyVideoBufferArea) (l : list PlyVideoBufferArea) :
  highest (a :: l) = Z.max (height a) (highest l).
Proof. reflexivity. Qed.

Lemma add_areas_from_origin (b : PlyVideoBuffer) (l : list PlyVideoBufferArea)
  (w0 h0 : Z) :
  0 <= w0 -> 0 <= h0 ->
  area_to_flush b = mkArea 0 0 w0 h0 ->
  Forall (fun a => area_accepted b a /\ 0 <= x a /\ 0 <= y a) l ->
  add_areas b l
  = Some (set_area_to_flush b
            (mkArea 0 0 (Z.max w0 (widest l)) (Z.max h0 (highest l)))).
Proof.
  revert b w0 h0. induction l as [|a l IH]; intros b w0 h0 Hw0 Hh0 Harea Hl.
  - simpl. unfold widest, highest. simpl.
    rewrite !Z.max_l by lia. rewrite <- Harea. now destruct b.
  - apply Forall_cons in Hl as [(Ha & Hx & Hy) Hl]. simpl.
    rewrite add_area_to_flush_area_accepted by exact Ha. simpl.
    rewrite (IH _ (Z.max w0 (width a)) (Z.max h0 (height a))); try lia.
    + simpl. rewrite widest_cons, highest_cons.
      now rewrite <- !Z.max_assoc.
    + simpl. unfold merged_area. rewrite Harea. simpl. f_equal; lia.
    + exact Hl.
Qed.

(** X10.  Starting from the area to flush (0, 0, 0, 0) that a successful
    flush leaves, adding any number of accepted areas of non-negative origin
    returns and records the rectangle at the origin that is as wide as the
    widest of them and as high as the highest, in whatever order they come;
    nothing else in the buffer changes. *)
Theorem area_to_flush_after_adding_areas (b : PlyVideoBuffer)
  (l : list PlyVideoBufferArea) :
  area_to_flush b = mkArea 0 0 0 0 ->
  Forall (fun a => area_accepted b a /\ 0 <= x a /\ 0 <= y a) l ->
  add_areas b l = Some (set_area_to_flush b (mkArea 0 0 (widest l) (highest l))).
Proof.
  intros Harea Hl.
  rewrite (add_areas_from_origin b l 0 0 ltac:(lia) ltac:(lia) Harea Hl).
  assert (Hw : 0 <= widest l).
  { clear. induction l as [|a l IH]; [reflexivity|]. rewrite widest_cons. lia. }
  assert (Hh : 0 <= highest l).
  { clear. induction l as [|a l IH]; [reflexivity|]. rewrite highest_cons. lia. }
  now rewrite !Z.max_r by assumption.
Qed.

Lemma area_to_flush_after_adding_areas_witness :
  let b := sample_buffer [1; 2; 3; 4] (mkArea 0 0 0 0) false in
  let l := [mkArea 1 1 1 1; mkArea 0 1 2 1; mkArea 1 0 1 2] in
  area_to_flush b = mkArea 0 0 0 0 /\
  Forall (fun a => area_accepted b a /\ 0 <= x a /\ 0 <= y a) l /\
  add_areas b l = Some (set_area_to_flush b (mkArea 0 0 (widest l) (highest l))).
Proof.
  intros b l.
  assert (Hl : Forall (fun a => area_accepted b a /\ 0 <= x a /\ 0 <= y a) l)
    by (repeat constructor; simpl; lia).
  split; [reflexivity|]. split; [exact Hl|].
  exact (area_to_flush_after_adding_areas b l eq_refl Hl).
Defined.

(** ** More on the pixel format *)

Lemma testbit_byte_field (p k n : Z) :
  0 <= k -> 0 <= n ->
  Z.testbit (Z.shiftl (Z.land (Z.shiftr p k) 255) k) n
  = Z.testbit p n && ((k <=? n) && (n <? k + 8)).
Proof.
  intros Hk Hn. rewrite Z.shiftl_spec by lia.
  destruct (Z.leb_spec k n) as [Hle|Hlt].
  - rewrite Z.land_spec, Z.shiftr_spec by lia.
    replace (n - k + k) with n by lia. change 255 with (Z.ones 8).
    destruct (Z.ltb_spec n (k + 8)) as [Hin|Hout].
    + rewrite Z.ones_spec_low by lia. reflexivity.
    + rewrite Z.ones_spec_high by lia. reflexivity.
  - rewrite Z.testbit_neg_r by lia. simpl. now rewrite andb_false_r.
Qed.

(** X11.  On a device whose format is the canonical one (eight bits per
    channel, alpha at bit 24, red at 16, green at 8, blue at 0) the
    conversion hands every 32-bit pixel through unchanged. *)
Theorem canonical_format_is_identity (b : PlyVideoBuffer) (pixel_value : Z) :
  (forall c, channel_bits b c = 8) ->
  channel_position b Alpha = 24 -> channel_position b Red = 16 ->
  channel_position b Green = 8 -> channel_position b Blue = 0 ->
  0 <= pixel_value < 2 ^ 32 ->
  ply_video_buffer_pixel_value_to_device_pixel_value b pixel_value = pixel_value.
Proof.
  intros Hbits Ha Hr Hg Hb Hp.
  rewrite device_pixel_value_channels, !Hbits, Ha, Hr, Hg, Hb.
  rewrite !truncated_channel_shift by (try apply channel_value_bound; lia).
  change (8 - 8) with 0. rewrite !Z.shiftr_0_r.
  unfold channel_value, uint32.
  replace (Z.land pixel_value 255)
    with (Z.land (Z.shiftr pixel_value 0) 255) by now rewrite Z.shiftr_0_r.
  apply Z.bits_inj'. intros n Hn.
  destruct (Z.ltb_spec n 32) as [Hlow|Hhigh].
  - rewrite Z.mod_pow2_bits_low by lia.
    rewrite !Z.lor_spec, !testbit_byte_field by lia.
    destruct (Z.testbit pixel_value n); simpl; [|reflexivity].
    repeat match goal with
           | |- context [?u <=? ?v] => destruct (Z.leb_spec u v)
           | |- context [?u <? ?v] => destruct (Z.ltb_spec u v)
           end; simpl; try reflexivity; lia.
  - rewrite Z.mod_pow2_bits_high by lia. symmetry.
    apply (testbit_high _ 32); lia.
Qed.

Lemma canonical_format_is_identity_witness :
  let b := sample_buffer [1; 2; 3; 4] (mkArea 0 0 0 0) false in
  (forall c, channel_bits b c = 8) /\
  channel_position b Alpha = 24 /\ channel_position b Red = 16 /\
  channel_position b Green = 8 /\ channel_position b Blue = 0 /\
  0 <= 0x80FF7F01 < 2 ^ 32 /\
  ply_video_buffer_pixel_value_to_device_pixel_value b 0x80FF7F01 = 0x80FF7F01.
Proof.
  intros b.
  assert (Hbits : forall c, channel_bits b c = 8) by (intros []; reflexivity).
  assert (Hp : 0 <= 0x80FF7F01 < 2 ^ 32) by lia.
  split; [exact Hbits|]. repeat (split; [reflexivity|]). split; [exact Hp|].
  exact (canonical_format_is_identity b 0x80FF7F01 Hbits
           eq_refl eq_refl eq_refl eq_refl Hp).
Defined.

(** X12.  On a device that reports no alpha bits, the device pixel does not
    depend on the alpha byte: two pixels with the same red, green and blue
    convert to the same device pixel. *)
Theorem device_pixel_ignores_alpha_without_alpha_bits
  (b : PlyVideoBuffer) (pixel_value pixel_value' : Z) :
  bits_for_alpha b = 0 ->
  (forall c, c <> Alpha -> channel_value pixel_value c = channel_value pixel_value' c) ->
  ply_video_buffer_pixel_value_to_device_pixel_value b pixel_value
  = ply_video_buffer_pixel_value_to_device_pixel_value b pixel_value'.
Proof.
  intros Hbits Hsame.
  rewrite !device_pixel_value_channels.
  rewrite (Hsame Red), (Hsame Green), (Hsame Blue) by discriminate.
  assert (Hzero : forall v, 0 <= v < 256 ->
            truncated_channel v (channel_bits b Alpha) = 0).
  { intros v Hv. simpl. rewrite Hbits.
    pose proof (truncated_channel_bound v 0 Hv ltac:(lia)). lia. }
  now rewrite !Hzero by apply channel_value_bound.
Qed.

Lemma device_pixel_ignores_alpha_without_alpha_bits_witness :
  let b := rgb565_buffer in
  bits_for_alpha b = 0 /\
  (forall c, c <> Alpha -> channel_value 0xFFABCDEF c = channel_value 0x00ABCDEF c) /\
  ply_video_buffer_pixel_value_to_device_pixel_value b 0xFFABCDEF
  = ply_video_buffer_pixel_value_to_device_pixel_value b 0x00ABCDEF.
Proof.
  intros b.
  assert (Hsame : forall c, c <> Alpha ->
            channel_value 0xFFABCDEF c = channel_value 0x00ABCDEF c)
    by (intros [] Hc; [congruence|reflexivity..]).
  split; [reflexivity|]. split; [exact Hsame|].
  exact (device_pixel_ignores_alpha_without_alpha_bits b 0xFFABCDEF 0x00ABCDEF
           eq_refl Hsame).
Defined.

(** ** The geometry a query derives *)

(** X13.  For a display of positive width whose two queries succeed, the
    query returns success with the surface at the reported offset and
    resolution, [size] the height times the line length and
    [bytes_per_pixel] the line length divided by the width, rounded down.
    The row stride the copy then uses, the width times [bytes_per_pixel],
    never exceeds the line length, and the [bytes_per_pixel] bytes at the
    offset the copy computes for any pixel of the surface lie inside the
    [size] bytes of the mapping. *)
Theorem query_device_geometry (v : fb_var_screeninfo) (f : fb_fix_screeninfo)
  (b : PlyVideoBuffer) :
  0 <= device_fd b ->
  0 < var_xres v < 2 ^ 31 -> 0 <= var_yres v < 2 ^ 31 ->
  0 <= fix_line_length f < 2 ^ 32 ->
  exists b',
    ply_video_buffer_query_device (Some v) (Some f) b = Some (true, b') /\
    area b' = mkArea (var_xoffset v) (var_yoffset v) (var_xres v) (var_yres v) /\
    size b' = var_yres v * fix_line_length f /\
    bytes_per_pixel b' = fix_line_length f / var_xres v /\
    width (area b') * bytes_per_pixel b' <= fix_line_length f /\
    forall column row,
      0 <= column < var_xres v -> 0 <= row < var_yres v ->
      device_offset b' row column
      = row * (var_xres v * bytes_per_pixel b') + column * bytes_per_pixel b' /\
      0 <= device_offset b' row column /\
      device_offset b' row column + bytes_per_pixel b' <= size b'.
Proof.
  intros Hfd Hx Hy Hl.
  assert (Hdiv : 0 <= fix_line_length f / var_xres v < 2 ^ 32).
  { split; [apply Z.div_pos; lia|].
    apply Z.div_lt_upper_bound; [lia|]. nia. }
  assert (Hstride : var_xres v * (fix_line_length f / var_xres v)
                    <= fix_line_length f)
    by (apply Z.mul_div_le; lia).
  unfold ply_video_buffer_query_device.
  apply Z.leb_le in Hfd. rewrite Hfd. simpl.
  replace (var_xres v =? 0) with false by (symmetry; apply Z.eqb_neq; lia).
  simpl. eexists. split; [reflexivity|]. simpl.
  unfold uint32. rewrite (Z.mod_small (_ / _)) by exact Hdiv.
  rewrite (ulong_small (var_yres v * _)) by nia.
  repeat (split; [first [reflexivity | exact Hstride]|]).
  intros column row Hc Hr. unfold device_offset. simpl.
  set (k := fix_line_length f / var_xres v) in *.
  assert (Hrow : 0 <= row * (var_xres v * k) <= row * fix_line_length f) by nia.
  assert (Hcol : 0 <= column * k /\ (column + 1) * k <= var_xres v * k) by nia.
  rewrite (ulong_small (var_xres v * k)) by nia.
  rewrite (ulong_small (row * _)), (ulong_small (column * k)) by nia.
  rewrite ulong_small by nia.
  split; [reflexivity|]. split; [lia|]. nia.
Qed.

Lemma query_device_geometry_witness :
  let v := padded_var_screeninfo in
  let f := padded_fix_screeninfo in
  let b := set_device_fd (members (ply_video_buffer_new None)) 3 in
  0 <= device_fd b /\ 0 < var_xres v < 2 ^ 31 /\ 0 <= var_yres v < 2 ^ 31 /\
  0 <= fix_line_length f < 2 ^ 32 /\
  exists b',
    ply_video_buffer_query_device (Some v) (Some f) b = Some (true, b') /\
    area b' = mkArea (var_xoffset v) (var_yoffset v) (var_xres v) (var_yres v) /\
    size b' = var_yres v * fix_line_length f /\
    bytes_per_pixel b' = fix_line_length f / var_xres v /\
    width (area b') * bytes_per_pixel b' <= fix_line_length f /\
    forall column row,
      0 <= column < var_xres v -> 0 <= row < var_yres v ->
      device_offset b' row column
      = row * (var_xres v * bytes_per_pixel b') + column * bytes_per_pixel b' /\
      0 <= device_offset b' row column /\
      device_offset b' row column + bytes_per_pixel b' <= size b'.
Proof.
  intros v f b.
  assert (H1 : 0 <= device_fd b) by (simpl; lia).
  assert (H2 : 0 < var_xres v < 2 ^ 31) by (simpl; lia).
  assert (H3 : 0 <= var_yres v < 2 ^ 31) by (simpl; lia).
  assert (H4 : 0 <= fix_line_length f < 2 ^ 32) by (simpl; lia).
  split; [exact H1|]. split; [exact H2|]. split; [exact H3|]. split; [exact H4|].
  exact (query_device_geometry v f b H1 H2 H3 H4).
Defined.

(** ** The byte count of a write *)

(** X14.  Each write hands [memcpy] the number of bits per pixel as its byte
    count.  On a device whose rows are not padded and whose pixels have
    fewer bytes than bits, an unpaused flush whose area holds the
    bottom-right pixel of the surface issues a write that reaches past the
    [size] bytes of the mapping. *)
Theorem flush_write_reaches_past_mapping (msync : Z -> Z -> Z) (b : PlyVideoBuffer)
  (log : list DeviceWrite) :
  open_buffer b -> is_paused b = false -> map_address b = Some log ->
  0 <= bytes_per_pixel b < bits_per_pixel b ->
  size b = width (area b) * height (area b) * bytes_per_pixel b ->
  size b < 2 ^ 64 ->
  in_area (area_to_flush b) (width (area b) - 1) (height (area b) - 1) ->
  exists ok b' log' w,
    ply_video_buffer_flush msync b = Some (ok, b') /\
    map_address b' = Some (log ++ log') /\
    w ∈ log' /\
    size b < wr_offset w + wr_length w.
Proof.
  intros Hb Hrun Hmap Hbytes Hsize Hmax Hin.
  destruct (flush_unpaused msync b log Hb Hrun Hmap) as (log' & Hcover & Hflush).
  destruct (Hcover _ _ Hin) as (w & Hw & Hmem).
  assert (Hres : exists ok b', ply_video_buffer_flush msync b = Some (ok, b') /\
                               map_address b' = Some (log ++ log')).
  { rewrite Hflush. unfold flush_outcome.
    destruct (flush_sync msync b <? 0); eexists; eexists; split; reflexivity. }
  destruct Hres as (ok & b' & Hf & Hm).
  exists ok, b', log', w. split; [exact Hf|]. split; [exact Hm|].
  split; [exact Hmem|].
  unfold device_write_for in Hw.
  destruct (shadow_buffer b !! _); simpl in Hw; [|discriminate].
  injection Hw as <-. simpl. unfold device_offset.
  pose proof (ob_width b Hb) as HW. pose proof (ob_height b Hb) as HH.
  destruct Hin as [Hc Hr].
  pose proof (ob_flush_right b Hb). pose proof (ob_flush_bottom b Hb).
  set (W := width (area b)) in *. set (H' := height (area b)) in *.
  set (k := bytes_per_pixel b) in *.
  pose proof (ob_flush_x b Hb). pose proof (ob_flush_y b Hb).
  assert (HH1 : 1 <= H' /\ 1 <= W) by lia.
  assert (HWk : 0 <= W * k) by nia.
  assert (Hlast1 : 0 <= (H' - 1) * (W * k)) by nia.
  assert (Hlast2 : 0 <= (W - 1) * k) by nia.
  assert (Hlast3 : (H' - 1) * (W * k) + (W - 1) * k + k = W * H' * k) by ring.
  assert (Hle : W * k <= W * H' * k) by nia.
  rewrite (ulong_small (W * k)) by lia.
  rewrite (ulong_small ((H' - 1) * _)), (ulong_small ((W - 1) * k)) by lia.
  rewrite ulong_small by lia.
  lia.
Qed.

Lemma flush_write_reaches_past_mapping_witness :
  let b := sample_buffer [1; 2; 3; 4] (mkArea 0 0 2 2) false in
  let msync := sync_succeeds in
  open_buffer b /\ is_paused b = false /\ map_address b = Some [] /\
  0 <= bytes_per_pixel b < bits_per_pixel b /\
  size b = width (area b) * height (area b) * bytes_per_pixel b /\
  size b < 2 ^ 64 /\
  in_area (area_to_flush b) (width (area b) - 1) (height (area b) - 1) /\
  exists ok b' log' w,
    ply_video_buffer_flush msync b = Some (ok, b') /\
    map_address b' = Some ([] ++ log') /\
    w ∈ log' /\
    size b < wr_offset w + wr_length w.
Proof.
  intros b msync.
  assert (Hb : open_buffer b) by sample_is_open.
  assert (H1 : 0 <= bytes_per_pixel b < bits_per_pixel b) by (simpl; lia).
  assert (H2 : size b < 2 ^ 64) by (simpl; lia).
  assert (H3 : in_area (area_to_flush b) (width (area b) - 1) (height (area b) - 1))
    by (unfold in_area; simpl; lia).
  split; [exact Hb|]. split; [reflexivity|]. split; [reflexivity|].
  split; [exact H1|]. split; [reflexivity|]. split; [exact H2|]. split; [exact H3|].
  exact (flush_write_reaches_past_mapping msync b [] Hb eq_refl eq_refl
           H1 eq_refl H2 H3).
Defined.

(** ** Opening and closing *)

Lemma close_device_closes (b : PlyVideoBuffer) :
  let b' := ply_video_buffer_close_device b in
  ply_video_buffer_device_is_open b' = false /\
  device_fd b' < 0 /\ map_address b' = None /\
  shadow_buffer b' = shadow_buffer b /\
  area b' = area b /\
  area_to_flush b' = area_to_flush b /\ is_paused b' = is_paused b.
Proof.
  unfold ply_video_buffer_close_device, ply_video_buffer_device_is_open.
  destruct (map_address b) eqn:Hmap; simpl;
    destruct (Z.leb_spec 0 (device_fd b)) as [Hfd|Hfd]; simpl;
    rewrite ?Hmap; repeat split; try reflexivity; try lia;
    try (apply andb_false_iff; right; apply bool_decide_eq_false; tauto);
    try (apply andb_false_iff; left; apply Z.leb_gt; exact Hfd).
Qed.

(** X15.  When [open], one of the two queries or [mmap] fails,
    [ply_video_buffer_open] returns failure with the device closed again:
    no descriptor, no mapping.  The name, the shadow buffer, the area to
    flush and the paused flag are as before the call. *)
Theorem open_failure_closes_the_device
  (M : float -> float -> float -> float -> Z) (os : Device)
  (buffer : NamedVideoBuffer) :
  some_step_fails os (device_name buffer) -> queries_are_usable os ->
  exists b',
    ply_video_buffer_open M os buffer
    = Some (false, mkNamed (device_name buffer) b') /\
    ply_video_buffer_device_is_open b' = false /\
    device_fd b' < 0 /\ map_address b' = None /\
    shadow_buffer b' = shadow_buffer (members buffer) /\
    area_to_flush b' = area_to_flush (members buffer) /\
    is_paused b' = is_paused (members buffer).
Proof.
  intros Hfail Husable.
  assert (Hsteps : exists b1,
             open_steps M os buffer = Some (false, b1) /\
             shadow_buffer b1 = shadow_buffer (members buffer) /\
             area_to_flush b1 = area_to_flush (members buffer) /\
             is_paused b1 = is_paused (members buffer)).
  { unfold open_steps, ply_video_buffer_open_device.
    destruct (Z.ltb_spec (dev_open os (device_name buffer)) 0) as [Hneg|Hfd]; simpl.
    - eexists. split; [reflexivity|]. repeat split.
    - unfold ply_video_buffer_query_device. simpl.
      apply Z.leb_le in Hfd. rewrite Hfd. simpl.
      destruct (dev_var_screeninfo os) as [v|] eqn:Hvar; simpl.
      + destruct (dev_fix_screeninfo os) as [f|] eqn:Hfix; simpl.
        * destruct (Husable v f Hvar Hfix) as [Hx Hsize].
          replace (var_xres v =? 0) with false by (symmetry; now apply Z.eqb_neq).
          simpl. unfold ply_video_buffer_map_to_device. simpl.
          rewrite Hfd. simpl.
          apply Z.ltb_lt in Hsize. rewrite Hsize. simpl.
          destruct (dev_mmap os) eqn:Hmmap.
          -- exfalso. apply Z.leb_le in Hfd.
             destruct Hfail as [?|[?|[?|?]]]; [lia|congruence..].
          -- simpl. eexists. split; [reflexivity|]. repeat split.
        * eexists. split; [reflexivity|]. repeat split.
      + eexists. split; [reflexivity|]. repeat split. }
  destruct Hsteps as (b1 & Hsteps & Hsh & Har & Hp).
  unfold ply_video_buffer_open. rewrite Hsteps. simpl.
  destruct (close_device_closes b1) as (H1 & H2 & H3 & H4 & _ & H6 & H7).
  eexists. split; [reflexivity|].
  repeat split; try assumption; congruence.
Qed.

Lemma open_failure_closes_the_device_witness :
  let M := COLOR_TO_PIXEL_VALUE_spec in
  let os := small_device false sync_succeeds in
  let buffer := ply_video_buffer_new None in
  some_step_fails os (device_name buffer) /\ queries_are_usable os /\
  exists b',
    ply_video_buffer_open M os buffer
    = Some (false, mkNamed (device_name buffer) b') /\
    ply_video_buffer_device_is_open b' = false /\
    device_fd b' < 0 /\ map_address b' = None /\
    shadow_buffer b' = shadow_buffer (members buffer) /\
    area_to_flush b' = area_to_flush (members buffer) /\
    is_paused b' = is_paused (members buffer).
Proof.
  intros M os buffer.
  assert (Hfail : some_step_fails os (device_name buffer))
    by (right; right; right; reflexivity).
  assert (Huse : queries_are_usable os).
  { intros v f [= <-] [= <-]. split; [discriminate|reflexivity]. }
  split; [exact Hfail|]. split; [exact Huse|].
  exact (open_failure_closes_the_device M os buffer Hfail Huse).
Defined.

Lemma fill_with_color_opaque_result
  (M : float -> float -> float -> float -> Z) (msync : Z -> Z -> Z)
  (b : PlyVideoBuffer) (area' : option PlyVideoBufferArea)
  (red green blue : float) :
  open_buffer b -> area_on_surface b (default (area b) area') ->
  exists ok b',
    ply_video_buffer_fill_with_color M msync b area' red green blue 1
    = Some (ok, b') /\
    open_buffer b' /\ area b' = area b /\ is_paused b' = is_paused b /\
    device_fd b' = device_fd b /\
    forall column row, in_area (default (area b) area') column row ->
      ply_video_buffer_get_value_at_pixel b' column row
      = Some (uint32 (M (red * 1)%float (green * 1)%float (blue * 1)%float 1%float)).
Proof.
  intros Hb Ha.
  set (a := default (area b) area') in *.
  set (v := uint32 (M (red * 1)%float (green * 1)%float (blue * 1)%float 1%float)).
  destruct (set_area_to_pixel_value_fills b a v)
    as (t & Hrun & s' & -> & Hlen & Hs'); try apply Hb; [exact Ha|].
  assert (Hpaint : painted M b a red green blue 1 = Some (set_shadow_buffer b s')).
  { unfold painted. rewrite alpha_one_is_opaque. exact Hrun. }
  pose proof (open_buffer_after_draw b a s' Hb Ha Hlen) as Hb'.
  destruct (flush_keeps_open_buffer msync _ Hb')
    as (ok & b' & m & f & Hflush & -> & Hopen).
  exists ok. eexists. split.
  - rewrite (fill_with_color_steps M msync b area' red green blue 1 s' Hb Ha Hpaint).
    exact Hflush.
  - split; [exact Hopen|]. repeat (split; [reflexivity|]).
    intros column row Hin.
    destruct Ha as (Hx & Hy & Hw & Hh & _ & _ & _ & _ & Hr & Hbt).
    pose proof Hin as [Hc Hrow].
    rewrite get_value_at_pixel_on_surface; simpl; try apply Hb; try lia.
    apply Hs'; [exact Hin|]. lia.
Qed.

Lemma open_steps_succeed
  (M : float -> float -> float -> float -> Z) (os : Device)
  (buffer : NamedVideoBuffer) (v : fb_var_screeninfo) (f : fb_fix_screeninfo) :
  device_opens os (device_name buffer) v f ->
  0 <= x (area_to_flush (members buffer)) ->
  0 <= y (area_to_flush (members buffer)) ->
  0 <= width (area_to_flush (members buffer)) ->
  0 <= height (area_to_flush (members buffer)) ->
  x (area_to_flush (members buffer)) + width (area_to_flush (members buffer))
  <= var_xres v ->
  y (area_to_flush (members buffer)) + height (area_to_flush (members buffer))
  <= var_yres v ->
  exists b',
    open_steps M os buffer = Some (true, b') /\
    open_buffer b' /\
    area b' = mkArea 0 0 (var_xres v) (var_yres v) /\
    is_paused b' = is_paused (members buffer) /\
    forall column row, 0 <= column < var_xres v -> 0 <= row < var_yres v ->
      ply_video_buffer_get_value_at_pixel b' column row
      = Some (uint32 (M (0 * 1)%float (0 * 1)%float (0 * 1)%float 1%float)).
Proof.
  intros (Hfd & Hvar & Hfix & Hmmap & Hxo & Hyo & Hx & Hy & Hl)
         Hfx Hfy Hfw Hfh Hfr Hfb.
  unfold open_steps, ply_video_buffer_open_device.
  replace (dev_open os (device_name buffer) <? 0) with false
    by (symmetry; apply Z.ltb_ge; exact Hfd).
  simpl. unfold ply_video_buffer_query_device. simpl.
  pose proof Hfd as Hfd'. apply Z.leb_le in Hfd'. rewrite Hfd'. simpl.
  rewrite Hvar, Hfix. simpl.
  replace (var_xres v =? 0) with false by (symmetry; apply Z.eqb_neq; lia).
  simpl. unfold ply_video_buffer_map_to_device. simpl. rewrite Hfd'. simpl.
  assert (Hsize : 0 < var_yres v * fix_line_length f < 2 ^ 63) by nia.
  rewrite (ulong_small (var_yres v * _)) by lia.
  replace (0 <? var_yres v * fix_line_length f) with true
    by (symmetry; apply Z.ltb_lt; lia).
  simpl. rewrite Hmmap. simpl.
  rewrite (ulong_small (4 * var_xres v)) by lia.
  rewrite (ulong_small (4 * var_xres v * var_yres v)) by nia.
  replace (4 * var_xres v * var_yres v / 4) with (var_xres v * var_yres v)
    by (apply Z.div_unique_exact; [lia|ring]).
  rewrite Hxo, Hyo.
  match goal with
  | |- context [ply_video_buffer_fill_with_color M (dev_msync os) ?t None _ _ _ _] =>
      set (b4 := t)
  end.
  assert (Hb4 : open_buffer b4).
  { constructor; simpl; try lia.
    - unfold ply_video_buffer_device_is_open. simpl. rewrite Hfd'. reflexivity.
    - now rewrite length_replicate. }
  assert (Ha4 : area_on_surface b4 (default (area b4) None))
    by (unfold area_on_surface; simpl; lia).
  destruct (fill_with_color_opaque_result M (dev_msync os) b4 None 0 0 0 Hb4 Ha4)
    as (ok & b' & Hfill & Hopen & Harea & Hpaused & _ & Hpix).
  rewrite Hfill. simpl. exists b'. split; [reflexivity|].
  split; [exact Hopen|]. split; [exact Harea|]. split; [exact Hpaused|].
  intros column row Hc Hr. apply Hpix. unfold in_area. simpl. lia.
Qed.

(** X16.  When every step succeeds on a display at offset (0, 0), opening a
    buffer whose area to flush lies on that display returns success, even
    when the synchronization of the first fill fails.  The buffer is then an
    open buffer on the reported surface, every pixel of its shadow buffer is
    the packed opaque black, and its name and paused flag are as before. *)
Theorem open_success_paints_the_surface_black
  (M : float -> float -> float -> float -> Z) (os : Device)
  (buffer : NamedVideoBuffer) (v : fb_var_screeninfo) (f : fb_fix_screeninfo) :
  device_opens os (device_name buffer) v f ->
  0 <= x (area_to_flush (members buffer)) ->
  0 <= y (area_to_flush (members buffer)) ->
  0 <= width (area_to_flush (members buffer)) ->
  0 <= height (area_to_flush (members buffer)) ->
  x (area_to_flush (members buffer)) + width (area_to_flush (members buffer))
  <= var_xres v ->
  y (area_to_flush (members buffer)) + height (area_to_flush (members buffer))
  <= var_yres v ->
  exists b',
    ply_video_buffer_open M os buffer
    = Some (true, mkNamed (device_name buffer) b') /\
    open_buffer b' /\
    area b' = mkArea 0 0 (var_xres v) (var_yres v) /\
    is_paused b' = is_paused (members buffer) /\
    forall column row, 0 <= column < var_xres v -> 0 <= row < var_yres v ->
      ply_video_buffer_get_value_at_pixel b' column row
      = Some (uint32 (M (0 * 1)%float (0 * 1)%float (0 * 1)%float 1%float)).
Proof.
  intros Hos Hfx Hfy Hfw Hfh Hfr Hfb.
  destruct (open_steps_succeed M os buffer v f Hos) as (b' & Hsteps & Hrest);
    try assumption.
  exists b'. split; [|exact Hrest].
  unfold ply_video_buffer_open. rewrite Hsteps. reflexivity.
Qed.

Lemma open_success_paints_the_surface_black_witness :
  let M := COLOR_TO_PIXEL_VALUE_spec in
  let os := small_device true sync_fails in
  let buffer := ply_video_buffer_new None in
  let v := small_var_screeninfo in
  let f := mkFixScreeninfo 8 in
  device_opens os (device_name buffer) v f /\
  0 <= x (area_to_flush (members buffer)) /\
  0 <= y (area_to_flush (members buffer)) /\
  0 <= width (area_to_flush (members buffer)) /\
  0 <= height (area_to_flush (members buffer)) /\
  x (area_to_flush (members buffer)) + width (area_to_flush (members buffer))
  <= var_xres v /\
  y (area_to_flush (members buffer)) + height (area_to_flush (members buffer))
  <= var_yres v /\
  exists b',
    ply_video_buffer_open M os buffer
    = Some (true, mkNamed (device_name buffer) b') /\
    open_buffer b' /\
    area b' = mkArea 0 0 (var_xres v) (var_yres v) /\
    is_paused b' = is_paused (members buffer) /\
    forall column row, 0 <= column < var_xres v -> 0 <= row < var_yres v ->
      ply_video_buffer_get_value_at_pixel b' column row
      = Some (uint32 (M (0 * 1)%float (0 * 1)%float (0 * 1)%float 1%float)).
Proof.
  intros M os buffer v f.
  assert (Hos : device_opens os (device_name buffer) v f)
    by (unfold device_opens; simpl; repeat split; lia).
  assert (H1 : 0 <= x (area_to_flush (members buffer))) by (simpl; lia).
  assert (H2 : 0 <= y (area_to_flush (members buffer))) by (simpl; lia).
  assert (H3 : 0 <= width (area_to_flush (members buffer))) by (simpl; lia).
  assert (H4 : 0 <= height (area_to_flush (members buffer))) by (simpl; lia).
  assert (H5 : x (area_to_flush (members buffer))
               + width (area_to_flush (members buffer)) <= var_xres v)
    by (simpl; lia).
  assert (H6 : y (area_to_flush (members buffer))
               + height (area_to_flush (members buffer)) <= var_yres v)
    by (simpl; lia).
  split; [exact Hos|]. split; [exact H1|]. split; [exact H2|]. split; [exact H3|].
  split; [exact H4|]. split; [exact H5|]. split; [exact H6|].
  exact (open_success_paints_the_surface_black M os buffer v f Hos
           H1 H2 H3 H4 H5 H6).
Defined.

(** Opening the small display although the first synchronization fails:
    the call succeeds, all four pixels are opaque black, and the whole
    surface is still recorded as the area to flush. *)
Example open_small_device_sync_fails :
  ('(ok, buffer) ← ply_video_buffer_open COLOR_TO_PIXEL_VALUE_spec
                     (small_device true sync_fails) (ply_video_buffer_new None);
   Some (ok, device_name buffer, shadow_buffer (members buffer),
         area_to_flush (members buffer)))
  = Some (true, "/dev/fb"%string,
          [0xFF000000; 0xFF000000; 0xFF000000; 0xFF000000], mkArea 0 0 2 2).
Proof. vm_compute. reflexivity. Qed.

(** X17.  Closing an open buffer returns; the device is then closed, the
    surface and the bytes per pixel are zero, and the shadow buffer, the area
    to flush and the paused flag are kept.  Until the buffer is opened again
    a second close, a request for the size and both draw calls stop at their
    assertion. *)
Theorem close_then_use_aborts
  (M : float -> float -> float -> float -> Z) (msync : Z -> Z -> Z)
  (b : PlyVideoBuffer) :
  ply_video_buffer_device_is_open b = true ->
  exists b',
    ply_video_buffer_close b = Some b' /\
    ply_video_buffer_device_is_open b' = false /\
    area b' = mkArea 0 0 0 0 /\ bytes_per_pixel b' = 0 /\
    shadow_buffer b' = shadow_buffer b /\
    area_to_flush b' = area_to_flush b /\ is_paused b' = is_paused b /\
    ply_video_buffer_close b' = None /\
    ply_video_buffer_get_size b' = None /\
    (forall area' red green blue alpha,
       ply_video_buffer_fill_with_color M msync b' area' red green blue alpha
       = None) /\
    (forall area' x' y' width' height' data opacity,
       ply_video_buffer_fill_with_argb32_data_at_opacity M msync b' area'
         x' y' width' height' data opacity = None).
Proof.
  intros Hopen. unfold ply_video_buffer_close. rewrite Hopen. simpl.
  destruct (close_device_closes b) as (H1 & H2 & H3 & H4 & _ & H6 & H7).
  set (c := ply_video_buffer_close_device b) in *.
  eexists. split; [reflexivity|].
  assert (Hclosed : ply_video_buffer_device_is_open
            (mkBuffer (device_fd c) (map_address c) (size c) (shadow_buffer c)
               (red_bit_position c) (green_bit_position c) (blue_bit_position c)
               (alpha_bit_position c) (bits_for_red c) (bits_for_green c)
               (bits_for_blue c) (bits_for_alpha c) (bits_per_pixel c)
               0 (mkArea 0 0 0 0) (area_to_flush c) (is_paused c)) = false)
    by exact H1.
  split; [exact Hclosed|]. simpl.
  repeat (split; [first [reflexivity | assumption]|]).
  unfold ply_video_buffer_get_size, ply_video_buffer_fill_with_color,
    ply_video_buffer_fill_with_argb32_data_at_opacity.
  rewrite Hclosed. simpl. repeat split.
Qed.

Lemma close_then_use_aborts_witness :
  let b := sample_buffer [1; 2; 3; 4] (mkArea 0 0 1 1) false in
  let M := COLOR_TO_PIXEL_VALUE_spec in
  let msync := sync_succeeds in
  ply_video_buffer_device_is_open b = true /\
  exists b',
    ply_video_buffer_close b = Some b' /\
    ply_video_buffer_device_is_open b' = false /\
    area b' = mkArea 0 0 0 0 /\ bytes_per_pixel b' = 0 /\
    shadow_buffer b' = shadow_buffer b /\
    area_to_flush b' = area_to_flush b /\ is_paused b' = is_paused b /\
    ply_video_buffer_close b' = None /\
    ply_video_buffer_get_size b' = None /\
    (forall area' red green blue alpha,
       ply_video_buffer_fill_with_color M msync b' area' red green blue alpha
       = None) /\
    (forall area' x' y' width' height' data opacity,
       ply_video_buffer_fill_with_argb32_data_at_opacity M msync b' area'
         x' y' width' height' data opacity = None).
Proof.
  intros b M msync. split; [reflexivity|].
  exact (close_then_use_aborts M msync b eq_refl).
Defined.

(** X18.  The name of a new buffer is the one given, or "/dev/fb" for none.
    While the buffer is closed the name cannot be asked for (the request
    stops at its assertion) but can be replaced; once the buffer is open the
    request returns the name and a replacement stops at its assertion. *)
Theorem device_name_is_fixed_while_open
  (M : float -> float -> float -> float -> Z) (os : Device)
  (name : option string) (v : fb_var_screeninfo) (f : fb_fix_screeninfo) :
  device_opens os (default PLY_VIDEO_BUFFER_DEFAULT_FB_DEVICE_NAME name) v f ->
  ply_video_buffer_get_device_name (ply_video_buffer_new name) = None /\
  (forall name',
     ply_video_buffer_set_device_name (ply_video_buffer_new name) name'
     = Some (ply_video_buffer_new (Some name'))) /\
  exists buffer',
    ply_video_buffer_open M os (ply_video_buffer_new name) = Some (true, buffer') /\
    ply_video_buffer_get_device_name buffer'
    = Some (default PLY_VIDEO_BUFFER_DEFAULT_FB_DEVICE_NAME name) /\
    forall name', ply_video_buffer_set_device_name buffer' name' = None.
Proof.
  intros Hos. split; [reflexivity|]. split.
  - intros name'. unfold ply_video_buffer_set_device_name. simpl.
    destruct (String.eqb_spec
                (default PLY_VIDEO_BUFFER_DEFAULT_FB_DEVICE_NAME name) name')
      as [Heq|Hne]; simpl; [|reflexivity].
    unfold ply_video_buffer_new. simpl. now rewrite Heq.
  - pose proof Hos as (_ & _ & _ & _ & _ & _ & Hx & Hy & _).
    destruct (open_steps_succeed M os (ply_video_buffer_new name) v f Hos)
      as (b' & Hsteps & Hopen & _); simpl; try lia.
    eexists. split.
    + unfold ply_video_buffer_open. rewrite Hsteps. reflexivity.
    + unfold ply_video_buffer_get_device_name, ply_video_buffer_set_device_name.
      simpl. rewrite (ob_open b' Hopen). simpl. split; reflexivity.
Qed.

Lemma device_name_is_fixed_while_open_witness :
  let M := COLOR_TO_PIXEL_VALUE_spec in
  let os := small_device true sync_succeeds in
  let name := Some "/dev/fb0"%string in
  let v := small_var_screeninfo in
  let f := mkFixScreeninfo 8 in
  device_opens os (default PLY_VIDEO_BUFFER_DEFAULT_FB_DEVICE_NAME name) v f /\
  ply_video_buffer_get_device_name (ply_video_buffer_new name) = None /\
  (forall name',
     ply_video_buffer_set_device_name (ply_video_buffer_new name) name'
     = Some (ply_video_buffer_new (Some name'))) /\
  exists buffer',
    ply_video_buffer_open M os (ply_video_buffer_new name) = Some (true, buffer') /\
    ply_video_buffer_get_device_name buffer'
    = Some (default PLY_VIDEO_BUFFER_DEFAULT_FB_DEVICE_NAME name) /\
    forall name', ply_video_buffer_set_device_name buffer' name' = None.
Proof.
  intros M os name v f.
  assert (Hos : device_opens os
                  (default PLY_VIDEO_BUFFER_DEFAULT_FB_DEVICE_NAME name) v f)
    by (unfold device_opens; simpl; repeat split; lia).
  split; [exact Hos|].
  exact (device_name_is_fixed_while_open M os name v f Hos).
Defined.

(** ** Pausing around a draw call *)

Lemma iterate_commutes {S : Type} (g : S -> S) (body : Z -> S -> option S)
  (n : nat) (i : Z) (s : S) :
  (forall j t, body j (g t) = g <$> body j t) ->
  iterate n i body (g s) = g <$> iterate n i body s.
Proof.
  intros Hbody. revert i s. induction n as [|n IH]; intros i s; [reflexivity|].
  simpl. rewrite Hbody. destruct (body i s) as [t|]; simpl; [apply IH|reflexivity].
Qed.

Lemma for_loop_commutes {S : Type} (g : S -> S) (body : Z -> S -> option S)
  (lo hi : Z) (s : S) :
  (forall j t, body j (g t) = g <$> body j t) ->
  for_loop lo hi body (g s) = g <$> for_loop lo hi body s.
Proof. intros Hbody. unfold for_loop. now apply iterate_commutes. Qed.

Lemma set_value_at_pixel_paused (p : bool) (b : PlyVideoBuffer) (column row v : Z) :
  ply_video_buffer_set_value_at_pixel (set_is_paused b p) column row v
  = (fun t => set_is_paused t p) <$> ply_video_buffer_set_value_at_pixel b column row v.
Proof.
  unfold ply_video_buffer_set_value_at_pixel. simpl.
  change (pixel_index (set_is_paused b p) column row) with (pixel_index b column row).
  now case_decide.
Qed.

Lemma blend_value_at_pixel_paused (M : float -> float -> float -> float -> Z)
  (p : bool) (b : PlyVideoBuffer) (column row v : Z) :
  ply_video_buffer_blend_value_at_pixel M (set_is_paused b p) column row v
  = (fun t => set_is_paused t p)
      <$> ply_video_buffer_blend_value_at_pixel M b column row v.
Proof.
  unfold ply_video_buffer_blend_value_at_pixel.
  change (ply_video_buffer_get_value_at_pixel (set_is_paused b p) column row)
    with (ply_video_buffer_get_value_at_pixel b column row).
  destruct (ply_video_buffer_get_value_at_pixel b column row); simpl;
    [apply set_value_at_pixel_paused|reflexivity].
Qed.

Lemma painted_paused (M : float -> float -> float -> float -> Z) (p : bool)
  (b : PlyVideoBuffer) (a : PlyVideoBufferArea) (red green blue alpha : float) :
  painted M (set_is_paused b p) a red green blue alpha
  = (fun t => set_is_paused t p) <$> painted M b a red green blue alpha.
Proof.
  unfold painted, ply_video_buffer_set_area_to_pixel_value,
    ply_video_buffer_blend_area_with_pixel_value.
  destruct (alpha_is_opaque alpha);
    apply (for_loop_commutes (fun t => set_is_paused t p)); intros row t;
    apply (for_loop_commutes (fun t => set_is_paused t p)); intros column u.
  - apply set_value_at_pixel_paused.
  - apply blend_value_at_pixel_paused.
Qed.

Lemma blend_data_onto_area_paused (M : float -> float -> float -> float -> Z)
  (p : bool) (b : PlyVideoBuffer) (a : PlyVideoBufferArea)
  (x' y' width' height' : Z) (data : list Z) (opacity : float) :
  blend_data_onto_area M (set_is_paused b p) a x' y' width' height' data opacity
  = (fun t => set_is_paused t p)
      <$> blend_data_onto_area M b a x' y' width' height' data opacity.
Proof.
  unfold blend_data_onto_area.
  apply (for_loop_commutes (fun t => set_is_paused t p)); intros row t.
  apply (for_loop_commutes (fun t => set_is_paused t p)); intros column u.
  destruct (data !! _); simpl; [apply blend_value_at_pixel_paused|reflexivity].
Qed.

(** X19.  On an open buffer that is not paused, pausing, making one draw
    call and unpausing comes to the same as the draw call alone: the same
    value is returned and the same buffer, shadow buffer, mapped memory and
    area to flush included.  This holds for both draw calls. *)
Theorem pause_draw_unpause_is_draw
  (M : float -> float -> float -> float -> Z) (msync msync' : Z -> Z -> Z)
  (b : PlyVideoBuffer) (area' : option PlyVideoBufferArea) :
  open_buffer b -> is_paused b = false ->
  area_on_surface b (default (area b) area') ->
  (forall red green blue alpha,
     ('(_, b1) ← ply_video_buffer_fill_with_color M msync'
                   (ply_video_buffer_pause_updates b) area' red green blue alpha;
      ply_video_buffer_unpause_updates msync b1)
     = ply_video_buffer_fill_with_color M msync b area' red green blue alpha) /\
  (forall x' y' width' height' data opacity,
     data_fits b (default (area b) area') x' y' width' height' data ->
     ('(_, b1) ← ply_video_buffer_fill_with_argb32_data_at_opacity M msync'
                   (ply_video_buffer_pause_updates b) area'
                   x' y' width' height' data opacity;
      ply_video_buffer_unpause_updates msync b1)
     = ply_video_buffer_fill_with_argb32_data_at_opacity M msync b area'
         x' y' width' height' data opacity).
Proof.
  intros Hb Hrun Ha. set (a := default (area b) area') in *.
  assert (Hunpause : forall s',
            set_is_paused
              (set_area_to_flush
                 (set_shadow_buffer (ply_video_buffer_pause_updates b) s')
                 (merged_area (area_to_flush b) a)) false
            = set_area_to_flush (set_shadow_buffer b s')
                (merged_area (area_to_flush b) a)).
  { intros s'. unfold set_is_paused, set_area_to_flush, set_shadow_buffer,
      ply_video_buffer_pause_updates. simpl. now rewrite Hrun. }
  assert (Hopen : ply_video_buffer_device_is_open b = true) by apply Hb.
  assert (Hadd : forall u, area u = area b -> area_to_flush u = area_to_flush b ->
            ply_video_buffer_add_area_to_flush_area u a
            = Some (set_area_to_flush u (merged_area (area_to_flush b) a))).
  { intros u Hu Hf. rewrite add_area_to_flush_area_accepted.
    - now rewrite Hf.
    - unfold area_accepted. rewrite Hu. now apply area_on_surface_accepted. }
  split.
  - intros red green blue alpha.
    destruct (painted_runs M b a red green blue alpha Hb Ha) as (s' & Hpaint & _).
    pose proof (painted_paused M true b a red green blue alpha) as Hpp.
    rewrite Hpaint in Hpp. simpl in Hpp.
    unfold ply_video_buffer_fill_with_color.
    change (ply_video_buffer_device_is_open (ply_video_buffer_pause_updates b))
      with (ply_video_buffer_device_is_open b).
    rewrite Hopen. simpl. fold a.
    unfold painted in Hpaint, Hpp.
    unfold ply_video_buffer_pause_updates at 1 2. rewrite Hpp, Hpaint. simpl.
    rewrite !Hadd by reflexivity. simpl.
    unfold ply_video_buffer_unpause_updates.
    rewrite <- (Hunpause s'). reflexivity.
  - intros x' y' width' height' data opacity Hdata.
    destruct (blend_data_onto_area_runs M b a x' y' width' height' data opacity)
      as (s' & Hdraw & _); try apply Hb; try apply Ha; [exact Hdata|].
    pose proof (blend_data_onto_area_paused M true b a x' y' width' height'
                  data opacity) as Hpp.
    rewrite Hdraw in Hpp. simpl in Hpp.
    unfold ply_video_buffer_fill_with_argb32_data_at_opacity.
    change (ply_video_buffer_device_is_open (ply_video_buffer_pause_updates b))
      with (ply_video_buffer_device_is_open b).
    rewrite Hopen. simpl. fold a.
    unfold ply_video_buffer_pause_updates at 1. rewrite Hpp, Hdraw. simpl.
    rewrite !Hadd by reflexivity. simpl.
    unfold ply_video_buffer_unpause_updates.
    rewrite <- (Hunpause s'). reflexivity.
Qed.

Lemma pause_draw_unpause_is_draw_witness :
  let b := sample_buffer [1; 2; 3; 4] (mkArea 0 0 0 0) false in
  let M := COLOR_TO_PIXEL_VALUE_spec in
  let area' := Some (mkArea 1 0 1 2) in
  open_buffer b /\ is_paused b = false /\
  area_on_surface b (default (area b) area') /\
  (forall red green blue alpha,
     ('(_, b1) ← ply_video_buffer_fill_with_color M sync_fails
                   (ply_video_buffer_pause_updates b) area' red green blue alpha;
      ply_video_buffer_unpause_updates sync_succeeds b1)
     = ply_video_buffer_fill_with_color M sync_succeeds b area'
         red green blue alpha) /\
  (forall x' y' width' height' data opacity,
     data_fits b (default (area b) area') x' y' width' height' data ->
     ('(_, b1) ← ply_video_buffer_fill_with_argb32_data_at_opacity M sync_fails
                   (ply_video_buffer_pause_updates b) area'
                   x' y' width' height' data opacity;
      ply_video_buffer_unpause_updates sync_succeeds b1)
     = ply_video_buffer_fill_with_argb32_data_at_opacity M sync_succeeds b area'
         x' y' width' height' data opacity).
Proof.
  intros b M area'.
  assert (Hb : open_buffer b) by sample_is_open.
  assert (Ha : area_on_surface b (default (area b) area'))
    by (unfold area_on_surface; simpl; lia).
  split; [exact Hb|]. split; [reflexivity|]. split; [exact Ha|].
  exact (pause_draw_unpause_is_draw M sync_succeeds sync_fails b area'
           Hb eq_refl Ha).
Defined.

(** ** What reaches the device *)

(** X20.  When the area to flush starts at the left edge and is as wide as
    the surface, an unpaused flush writes, for every pixel of the area, the
    device form of that very pixel of the shadow buffer at the offset of the
    pixel. *)
Theorem flush_of_full_rows_writes_their_pixels (msync : Z -> Z -> Z)
  (b : PlyVideoBuffer) (log : list DeviceWrite) :
  open_buffer b -> is_paused b = false -> map_address b = Some log ->
  x (area_to_flush b) = 0 -> width (area_to_flush b) = width (area b) ->
  exists ok b' log',
    ply_video_buffer_flush msync b = Some (ok, b') /\
    map_address b' = Some (log ++ log') /\
    forall column row, in_area (area_to_flush b) column row ->
      exists pixel_value,
        ply_video_buffer_get_value_at_pixel b column row = Some pixel_value /\
        mkWrite (device_offset b row column)
          (ply_video_buffer_pixel_value_to_device_pixel_value b pixel_value)
          (bits_per_pixel b) ∈ log'.
Proof.
  intros Hb Hrun Hmap Hx Hw.
  destruct (flush_unpaused msync b log Hb Hrun Hmap) as (log' & Hcover & Hflush).
  assert (Hres : exists ok b', ply_video_buffer_flush msync b = Some (ok, b') /\
                               map_address b' = Some (log ++ log')).
  { rewrite Hflush. unfold flush_outcome.
    destruct (flush_sync msync b <? 0); eexists; eexists; split; reflexivity. }
  destruct Hres as (ok & b' & Hf & Hm).
  exists ok, b', log'. split; [exact Hf|]. split; [exact Hm|].
  intros column row Hin. destruct (Hcover column row Hin) as (w & Hw' & Hmem).
  destruct Hin as [Hc Hr]. rewrite Hx, Hw in Hc.
  pose proof (ob_flush_y b Hb). pose proof (ob_flush_bottom b Hb).
  pose proof (ob_width b Hb). pose proof (ob_height b Hb).
  rewrite get_value_at_pixel_on_surface by lia.
  unfold device_write_for in Hw'. rewrite Hw in Hw'.
  pose proof (pixel_index_bound b column row ltac:(lia) ltac:(lia)) as Hi.
  assert (0 <= width (area b) * row < 2 ^ 62) by nia.
  rewrite (ulong_small (width (area b) * row)) in Hw' by lia.
  rewrite ulong_small in Hw' by lia.
  replace (width (area b) * row + column) with (row * width (area b) + column)
    in Hw' by lia.
  destruct (shadow_buffer b !! _) as [pv|]; simpl in Hw'; [|discriminate].
  injection Hw' as <-. exists pv. split; [reflexivity|exact Hmem].
Qed.

Lemma flush_of_full_rows_writes_their_pixels_witness :
  let b := sample_buffer [1; 2; 3; 4] (mkArea 0 1 2 1) false in
  open_buffer b /\ is_paused b = false /\ map_address b = Some [] /\
  x (area_to_flush b) = 0 /\ width (area_to_flush b) = width (area b) /\
  exists ok b' log',
    ply_video_buffer_flush sync_succeeds b = Some (ok, b') /\
    map_address b' = Some ([] ++ log') /\
    forall column row, in_area (area_to_flush b) column row ->
      exists pixel_value,
        ply_video_buffer_get_value_at_pixel b column row = Some pixel_value /\
        mkWrite (device_offset b row column)
          (ply_video_buffer_pixel_value_to_device_pixel_value b pixel_value)
          (bits_per_pixel b) ∈ log'.
Proof.
  intros b.
  assert (Hb : open_buffer b) by sample_is_open.
  split; [exact Hb|]. do 4 (split; [reflexivity|]).
  exact (flush_of_full_rows_writes_their_pixels sync_succeeds b [] Hb
           eq_refl eq_refl eq_refl eq_refl).
Defined.

(** X21.  An opaque fill of the whole surface of an open buffer that is not
    paused, on a display at offset (0, 0), returns with every pixel of the
    shadow buffer holding the packed colour and with a write of the device
    form of that colour issued for every pixel of the surface, at the offset
    of the pixel. *)
Theorem fill_whole_surface_reaches_the_device
  (M : float -> float -> float -> float -> Z) (msync : Z -> Z -> Z)
  (b : PlyVideoBuffer) (log : list DeviceWrite) (red green blue : float) :
  open_buffer b -> is_paused b = false -> map_address b = Some log ->
  x (area b) = 0 -> y (area b) = 0 ->
  0 < width (area b) -> 0 < height (area b) ->
  let v := uint32 (M (red * 1)%float (green * 1)%float (blue * 1)%float 1%float) in
  exists ok b' log',
    ply_video_buffer_fill_with_color M msync b None red green blue 1
    = Some (ok, b') /\
    map_address b' = Some (log ++ log') /\
    forall column row, on_surface b column row ->
      ply_video_buffer_get_value_at_pixel b' column row = Some v /\
      mkWrite (device_offset b row column)
        (ply_video_buffer_pixel_value_to_device_pixel_value b v)
        (bits_per_pixel b) ∈ log'.
Proof.
  intros Hb Hrun Hmap Hx Hy HW HH v.
  pose proof (ob_width b Hb) as HW'. pose proof (ob_height b Hb) as HH'.
  assert (Ha : area_on_surface b (default (area b) None))
    by (unfold area_on_surface; simpl; lia).
  destruct (set_area_to_pixel_value_fills b (area b) v)
    as (t & Hfill & s' & -> & Hlen & Hs'); try apply Hb; [exact Ha|].
  assert (Hpaint : painted M b (area b) red green blue 1
                   = Some (set_shadow_buffer b s')).
  { unfold painted. rewrite alpha_one_is_opaque. exact Hfill. }
  pose proof (open_buffer_after_draw b (area b) s' Hb Ha Hlen) as Hb'.
  set (b1 := set_area_to_flush (set_shadow_buffer b s')
               (merged_area (area_to_flush b) (area b))) in *.
  destruct (flush_unpaused msync b1 log Hb' Hrun Hmap) as (log' & Hcover & Hflush).
  assert (Hres : exists ok b', ply_video_buffer_flush msync b1 = Some (ok, b') /\
                   map_address b' = Some (log ++ log') /\
                   shadow_buffer b' = s' /\ area b' = area b).
  { rewrite Hflush. unfold flush_outcome.
    destruct (flush_sync msync b1 <? 0); eexists; eexists;
      repeat split; reflexivity. }
  destruct Hres as (ok & b' & Hf & Hm & Hsh & Har).
  exists ok, b', log'. split.
  - rewrite (fill_with_color_steps M msync b None red green blue 1 s' Hb Ha Hpaint).
    exact Hf.
  - split; [exact Hm|]. intros column row [Hc Hr].
    assert (Hval : s' !! Z.to_nat (row * width (area b) + column) = Some v).
    { apply Hs'; [unfold in_area; lia|lia]. }
    split.
    + rewrite get_value_at_pixel_on_surface; rewrite ?Har; try lia.
      now rewrite Hsh.
    + pose proof (ob_flush_x b Hb). pose proof (ob_flush_y b Hb).
      pose proof (ob_flush_width b Hb). pose proof (ob_flush_height b Hb).
      pose proof (ob_flush_right b Hb). pose proof (ob_flush_bottom b Hb).
      destruct (Hcover column row) as (w & Hw & Hmem).
      { unfold in_area, b1, merged_area. simpl. lia. }
      unfold device_write_for in Hw. simpl in Hw.
      replace (width (area_to_flush b) `max` width (area b))
        with (width (area b)) in Hw by lia.
      pose proof (pixel_index_bound b column row Hc Hr) as Hi.
      assert (0 <= width (area b) * row < 2 ^ 62) by nia.
      rewrite (ulong_small (width (area b) * row)) in Hw by lia.
      rewrite ulong_small in Hw by lia.
      replace (width (area b) * row + column) with (row * width (area b) + column)
        in Hw by lia.
      rewrite Hval in Hw. simpl in Hw. injection Hw as <-. exact Hmem.
Qed.

Lemma fill_whole_surface_reaches_the_device_witness :
  let b := sample_buffer [1; 2; 3; 4] (mkArea 0 0 0 0) false in
  let M := COLOR_TO_PIXEL_VALUE_spec in
  let v := uint32 (M (1 * 1)%float (0 * 1)%float (0 * 1)%float 1%float) in
  open_buffer b /\ is_paused b = false /\ map_address b = Some [] /\
  x (area b) = 0 /\ y (area b) = 0 /\ 0 < width (area b) /\ 0 < height (area b) /\
  exists ok b' log',
    ply_video_buffer_fill_with_color M sync_succeeds b None 1 0 0 1
    = Some (ok, b') /\
    map_address b' = Some ([] ++ log') /\
    forall column row, on_surface b column row ->
      ply_video_buffer_get_value_at_pixel b' column row = Some v /\
      mkWrite (device_offset b row column)
        (ply_video_buffer_pixel_value_to_device_pixel_value b v)
        (bits_per_pixel b) ∈ log'.
Proof.
  intros b M v.
  assert (Hb : open_buffer b) by sample_is_open.
  assert (HW : 0 < width (area b)) by (simpl; lia).
  assert (HH : 0 < height (area b)) by (simpl; lia).
  split; [exact Hb|]. do 4 (split; [reflexivity|]).
  split; [exact HW|]. split; [exact HH|].
  exact (fill_whole_surface_reaches_the_device M sync_succeeds b [] 1 0 0
           Hb eq_refl eq_refl eq_refl eq_refl HW HH).
Defined.
